(** * BAJC report generator: response aggregation and report assembly

    A shallow embedding of [BAJCReportGenerator.py]: header normalisation
    ([clean_column_names]), the staff response counter
    ([calculate_likert_counts]), the clustered bar chart
    ([create_clustered_bar_chart_staff]), the staff report and its
    driver ([generate_staff_report_docx], [process_staff_evaluation_docx]),
    the sheet ingestion of the campus-rep variant ([get_data]), the
    campus-rep chart ([generate_clustered_bar_graph_campus_rep]) and the
    campus-rep report ([generate_docx_report]).

    Conventions of the embedding.
    - A Python [str] is a [string]; a character is read as a code point
      below 256.
    - A Python [dict] whose iteration order is observed (the metric
      mapping drives the order of chart clusters and of table rows) is an
      association list in insertion order; dictionaries that are only
      looked up ([header_count], [value_counts]) are [gmap]s.
    - Code that can raise returns an [outcome]; code that also touches the
      file system or the user interface runs in [io], a state monad over
      [world].
    - A chart is the figure as drawn (the calls to [ax.bar] and the
      title); rendering it is a step of its own ([savefig]), which the
      embedding follows for texts without dollar sign only.  Texts stored
      in a document are followed when they hold no control character.
    - numpy's float arithmetic on bar positions is idealised as exact
      arithmetic over [Q]. *)

From Stdlib Require Import Ascii QArith Lqa.
From stdpp Require Import base list strings gmap pretty.

Local Open Scope nat_scope.

(** ** Python strings *)

Module PyStr.

(** [str.isspace] on one character (code points below 256): the
    predicate used both by [str.strip()] and by the regular expression
    class [\s]. *)
Definition isspace (c : ascii) : bool :=
  let n := nat_of_ascii c in
  ((9 <=? n) && (n <=? 13)) || ((28 <=? n) && (n <=? 32))
  || (n =? 133) || (n =? 160).

Fixpoint all_space (s : string) : bool :=
  match s with
  | EmptyString => true
  | String c s' => isspace c && all_space s'
  end.

Fixpoint lstrip (s : string) : string :=
  match s with
  | EmptyString => EmptyString
  | String c s' => if isspace c then lstrip s' else s
  end.

Fixpoint rstrip (s : string) : string :=
  match s with
  | EmptyString => EmptyString
  | String c s' =>
      match rstrip s' with
      | EmptyString => if isspace c then EmptyString else String c EmptyString
      | r => String c r
      end
  end.

(** [s.strip()] *)
Definition strip (s : string) : string := rstrip (lstrip s).

(** [c in s] for a one-character [c] *)
Fixpoint mem (c : ascii) (s : string) : bool :=
  match s with
  | EmptyString => false
  | String c' s' => bool_decide (c' = c) || mem c s'
  end.

(** [s.startswith(p)] *)
Fixpoint starts_with (p s : string) : bool :=
  match p, s with
  | EmptyString, _ => true
  | String _ _, EmptyString => false
  | String a p', String b s' => bool_decide (a = b) && starts_with p' s'
  end.

(** [sub in s] *)
Fixpoint contains (sub s : string) : bool :=
  starts_with sub s
  || match s with
     | EmptyString => false
     | String _ s' => contains sub s'
     end.

(** [s.split(sep)] for a non-empty [sep]: a left-to-right scan for
    non-overlapping occurrences.  [skip] counts the characters of an
    occurrence still to be passed over, [cur] is the piece being read. *)
Fixpoint split_go (sep : string) (skip : nat) (cur : string) (s : string)
  : list string :=
  match s with
  | EmptyString => [cur]
  | String c s' =>
      match skip with
      | S k => split_go sep k cur s'
      | O =>
          if starts_with sep s
          then cur :: split_go sep (String.length sep - 1) EmptyString s'
          else split_go sep 0 (cur +:+ String c EmptyString) s'
      end
  end.

Definition split (sep s : string) : list string :=
  split_go sep 0 EmptyString s.

(** [s.split(sep)[-1]] *)
Definition split_last (sep s : string) : string :=
  List.last (split sep s) s.

(** [str.isalnum] on one character (code points below 256). *)
Definition isalnum (c : ascii) : bool :=
  let n := nat_of_ascii c in
  ((48 <=? n) && (n <=? 57)) || ((65 <=? n) && (n <=? 90))
  || ((97 <=? n) && (n <=? 122))
  || (n =? 170) || (n =? 178) || (n =? 179) || (n =? 181)
  || (n =? 185) || (n =? 186) || ((188 <=? n) && (n <=? 190))
  || ((192 <=? n) && (n <=? 214)) || ((216 <=? n) && (n <=? 246))
  || ((248 <=? n) && (n <=? 255)).

(** ["".join(c for c in s if keep c)] *)
Fixpoint filter_chars (keep : ascii -> bool) (s : string) : string :=
  match s with
  | EmptyString => EmptyString
  | String c s' =>
      if keep c then String c (filter_chars keep s') else filter_chars keep s'
  end.

(** [s.replace(a, b)] for one-character [a] and [b] *)
Fixpoint replace_char (a b : ascii) (s : string) : string :=
  match s with
  | EmptyString => EmptyString
  | String c s' =>
      String (if bool_decide (c = a) then b else c) (replace_char a b s')
  end.

(** [str(n)] for a non-negative integer *)
Definition of_nat (n : nat) : string := pretty n.

End PyStr.

(** ** Exceptions and results *)

(** [KeyError], [ValueError], [IndexError] and [FileNotFoundError] are
    Python's.  [Unmodelled] is not an exception: it marks a run that
    leaves the embedding.  That happens in three places: where pandas goes
    on with a sub-frame selected by a label that several columns carry;
    where matplotlib lays out a text that holds a dollar sign, which it may
    take for math text and reject; and where python-docx stores a text that
    holds a control character, which its XML library refuses. *)
Inductive exn : Type :=
  | KeyError (key : string)
  | ValueError (msg : string)
  | IndexError (msg : string)
  | FileNotFoundError (path : string)
  | Unmodelled (label : string).

Inductive outcome (A : Type) : Type :=
  | Return (a : A)
  | Raise (e : exn).
Arguments Return {A} a.
Arguments Raise {A} e.

Definition obind {A B} (m : outcome A) (k : A -> outcome B) : outcome B :=
  match m with
  | Return a => k a
  | Raise e => Raise e
  end.

Declare Scope outcome_scope.
Delimit Scope outcome_scope with outcome.
Notation "'try' x <- m ; k" := (obind m (fun x => k))
  (at level 10, x name, m at level 100, k at level 200) : outcome_scope.
Local Open Scope outcome_scope.

(** A [for] loop whose body may raise: the accumulator is threaded from
    left to right and the first exception ends the loop. *)
Fixpoint for_each {A S} (body : S -> A -> outcome S) (xs : list A) (s : S)
  : outcome S :=
  match xs with
  | [] => Return s
  | x :: xs' => try s' <- body s x; for_each body xs' s'
  end.

(** ** Python dictionaries in insertion order *)

Definition pydict (V : Type) : Type := list (string * V).

Fixpoint dict_get {V} (d : pydict V) (k : string) : option V :=
  match d with
  | [] => None
  | (k', v) :: d' => if decide (k' = k) then Some v else dict_get d' k
  end.

(** [d[k]] *)
Definition dict_getitem {V} (d : pydict V) (k : string) : outcome V :=
  match dict_get d k with
  | Some v => Return v
  | None => Raise (KeyError k)
  end.

(** [d[k] = v]: an existing key keeps its position, a new key goes last. *)
Fixpoint dict_set {V} (k : string) (v : V) (d : pydict V) : pydict V :=
  match d with
  | [] => [(k, v)]
  | (k', v') :: d' =>
      if decide (k' = k) then (k', v) :: d' else (k', v') :: dict_set k v d'
  end.

(** [list(d.keys())] *)
Definition dict_keys {V} (d : pydict V) : list string := d.*1.

(** ** Survey tables *)

(** A cell of a pandas frame of dtype [object]: a string, or one of the
    two missing values ([None], which pads short rows, and float [nan]). *)
Inductive cell : Type :=
  | CStr (s : string)
  | CNone
  | CNaN.

#[global] Instance cell_eq_dec : EqDecision cell.
Proof. solve_decision. Defined.

(** [str(val)] *)
Definition py_str (val : cell) : string :=
  match val with
  | CStr s => s
  | CNone => "None"
  | CNaN => "nan"
  end.

(** [pd.isna(val)] *)
Definition isna (val : cell) : bool :=
  match val with
  | CStr _ => false
  | CNone | CNaN => true
  end.

Record DataFrame : Type := mkDataFrame {
  columns : list string;
  rows : list (list cell)
}.

(** The values of the column at position [j], top to bottom. *)
Definition col_values (df : DataFrame) (j : nat) : list cell :=
  (fun r => default CNone (r !! j)) <$> rows df.

(** The positions at which [label] occurs among the column labels. *)
Fixpoint label_positions (cols : list string) (label : string) (j : nat)
  : list nat :=
  match cols with
  | [] => []
  | c :: cols' =>
      if decide (c = label) then j :: label_positions cols' label (S j)
      else label_positions cols' label (S j)
  end.

(** [df[label]]: a [KeyError] when no column has the label, the column as
    a series when exactly one has, and a sub-frame of all the columns of
    that label when several have. *)
Inductive selection : Type :=
  | Missing
  | Series (values : list cell)
  | SubFrame (positions : list nat).

Definition getitem (df : DataFrame) (label : string) : selection :=
  match label_positions (columns df) label 0 with
  | [] => Missing
  | [j] => Series (col_values df j)
  | js => SubFrame js
  end.

(** The values that [for val in df[label]] runs through: the cells of a
    series; for a sub-frame, iteration yields its column labels, which are
    all [label]. *)
Definition iter_getitem (df : DataFrame) (label : string)
  : outcome (list cell) :=
  match getitem df label with
  | Missing => Raise (KeyError label)
  | Series values => Return values
  | SubFrame js => Return ((fun _ => CStr label) <$> js)
  end.

(** [pd.DataFrame(data, columns=columns)] for a list of rows: short rows
    are padded with [None]; the widest row must be as wide as the header
    unless there is no row at all. *)
Definition pad_row (width : nat) (r : list string) : list cell :=
  (CStr <$> r) ++ replicate (width - length r) CNone.

Definition DataFrame_of_rows (data : list (list string)) (cols : list string)
  : outcome DataFrame :=
  match data with
  | [] => Return (mkDataFrame cols [])
  | _ =>
      if decide (max_list (length <$> data) = length cols)
      then Return (mkDataFrame cols (pad_row (length cols) <$> data))
      else Raise (ValueError "columns passed do not match the data")
  end.

(** ** Constants *)

Definition STAFF_LIKERT_OPTIONS : list string :=
  ["Strongly Agree"; "Agree"; "Neutral"; "Disagree"; "Strongly Disagree"].

Definition STAFF_COLORS : pydict string :=
  [("Strongly Agree", "#1a9641");
   ("Agree", "#a6d96a");
   ("Neutral", "#ffff42");
   ("Disagree", "#fdae61");
   ("Strongly Disagree", "#d7191c")].

Definition CAMPUS_REP_LIKERT_ORDER : list string :=
  ["Strongly Agree"; "Agree"; "Neutral"; "Disagree"; "Strongly Disagree"].

(** ** Header normalisation: [clean_column_names] *)

Module HeaderRegex.

Definition newline : ascii := ascii_of_nat 10.
Definition lbracket : ascii := ascii_of_nat 91.
Definition rbracket : ascii := ascii_of_nat 93.

(** The pattern is [(.*?)\s*\[(.*?)\]], applied with [re.match]: anchored
    at the start of the label, free at its end.  The three functions
    below are the backtracking matcher for this pattern, one per piece,
    the last piece first; [.] is any character but a line feed, [\s] is
    [PyStr.isspace]. *)

(** [(.*?)\]]: the lazy group first tries to close with a bracket, and
    only then takes one more character.  Returns the group and what
    follows the bracket. *)
Fixpoint lazy_group2 (s : string) : option (string * string) :=
  match s with
  | EmptyString => None
  | String c s' =>
      if bool_decide (c = rbracket) then Some (EmptyString, s')
      else if bool_decide (c = newline) then None
      else match lazy_group2 s' with
           | Some (g, r) => Some (String c g, r)
           | None => None
           end
  end.

(** [\s*\[(.*?)\]]: the greedy star first takes a whitespace character
    and goes on; when that fails it stops and the bracket is tried
    here.  Returns group 2. *)
Fixpoint rest_match (s : string) : option string :=
  match s with
  | EmptyString => None
  | String c s' =>
      let stop :=
        if bool_decide (c = lbracket) then fst <$> lazy_group2 s' else None in
      if PyStr.isspace c
      then match rest_match s' with
           | Some g => Some g
           | None => stop
           end
      else stop
  end.

(** The whole pattern: lazy group 1 first tries the rest of the pattern
    where it stands, and only then takes one more character.  Returns
    groups 1 and 2. *)
Fixpoint header_match (s : string) : option (string * string) :=
  match rest_match s with
  | Some g2 => Some (EmptyString, g2)
  | None =>
      match s with
      | EmptyString => None
      | String c s' =>
          if bool_decide (c = newline) then None
          else match header_match s' with
               | Some (g1, g2) => Some (String c g1, g2)
               | None => None
               end
      end
  end.

End HeaderRegex.

(** The body of the loop of [clean_column_names] for one label. *)
Definition clean_label (col : string) : string :=
  if PyStr.mem HeaderRegex.lbracket col && PyStr.mem HeaderRegex.rbracket col
  then match HeaderRegex.header_match col with
       | Some (g1, g2) =>
           let staff_name := PyStr.strip g1 in
           let skill := PyStr.strip g2 in
           staff_name +:+ " - " +:+ skill
       | None => col
       end
  else col.

Definition clean_column_names (df : DataFrame) : DataFrame :=
  let cleaned_columns := clean_label <$> columns df in
  mkDataFrame cleaned_columns (rows df).

(** ** The staff response counter: [calculate_likert_counts] *)

(** [{option: 0 for option in STAFF_LIKERT_OPTIONS}] *)
Definition zero_counts (options : list string) : pydict nat :=
  foldl (fun d option => dict_set option 0 d) [] options.

(** The inner loop over the options for one value, with its [break]. *)
Fixpoint scan_options (options : list string) (counts : pydict nat)
  (val : cell) : outcome (pydict nat) :=
  match options with
  | [] => Return counts
  | option :: options' =>
      if decide (PyStr.strip (py_str val) = option)
      then try n <- dict_getitem counts option;
           Return (dict_set option (n + 1) counts)
      else scan_options options' counts val
  end.

(** The loop over the values of one column. *)
Definition count_values (vals : list cell) : outcome (pydict nat) :=
  for_each (scan_options STAFF_LIKERT_OPTIONS) vals
    (zero_counts STAFF_LIKERT_OPTIONS).

(** The metric name of a label: [col.split(" - ")[-1]]. *)
Definition skill_of (col : string) : string := PyStr.split_last " - " col.

Definition staff_columns (df : DataFrame) (staff_name : string) : list string :=
  filter (fun col => PyStr.contains staff_name col = true) (columns df).

Definition calculate_likert_counts (df : DataFrame) (staff_name : string)
  : outcome (pydict (pydict nat)) :=
  for_each
    (fun counts_data col =>
       let skill := skill_of col in
       try vals <- iter_getitem df col;
       try counts <- count_values vals;
       Return (dict_set skill counts counts_data))
    (staff_columns df staff_name) [].

(** ** The clustered bar chart: [create_clustered_bar_chart_staff] *)

(** One call [ax.bar(positions, counts, width=..., color=..., label=...)]. *)
Record bar_series : Type := mkBars {
  bar_positions : list Q;
  bar_heights : list nat;
  bar_width : Q;
  bar_color : string;
  bar_label : string
}.

(** What is drawn: the calls to [ax.bar] in the order they are made, and
    the title.  Axis labels, tick labels, legend and grid are fixed
    styling and are left out. *)
Record chart : Type := mkChart {
  chart_bars : list bar_series;
  chart_title : string
}.

(** A list comprehension whose element expression may raise. *)
Fixpoint map_try {A B} (f : A -> outcome B) (xs : list A) : outcome (list B) :=
  match xs with
  | [] => Return []
  | x :: xs' => try y <- f x; try ys <- map_try f xs'; Return (y :: ys)
  end.

(** [enumerate(xs)] *)
Definition enumerate {A} (xs : list A) : list (nat * A) := imap pair xs.

Definition Q_of_nat (n : nat) : Q := inject_Z (Z.of_nat n).

(** [np.arange(n)] *)
Definition arange (n : nat) : list Q := Q_of_nat <$> seq 0 n.

(** [indices + i * bar_width - (n_options/2)*bar_width + bar_width/2],
    broadcast over [indices]. *)
Definition cluster_positions (indices : list Q) (i n_options : nat) (w : Q)
  : list Q :=
  (fun x => x + Q_of_nat i * w - (Q_of_nat n_options / 2) * w + w / 2)%Q
    <$> indices.

(** [plt.tight_layout()] and [plt.savefig(...)]: the texts of the figure
    are laid out and the figure is rendered.  matplotlib takes a text with
    an even number of unescaped dollar signs for math text, parses it, and
    raises [ValueError] when it is malformed; the embedding stops at every
    text that holds a dollar sign.  [texts] are the texts that come from
    the data (the title and the tick labels, which [textwrap.fill] changes
    in their white space only); the axis labels and the legend are fixed
    and hold no dollar sign. *)
Definition savefig (texts : list string) (fig : chart) : outcome chart :=
  match filter (fun s => PyStr.mem "$" s = true) texts with
  | [] => Return fig
  | s :: _ => Raise (Unmodelled s)
  end.

(** The figure that [create_clustered_bar_chart_staff] draws: its calls
    to [ax.bar] and its title.  Rendering the figure to bytes, which ends
    the function, is [create_clustered_bar_chart_staff_bytes] below. *)
Definition create_clustered_bar_chart_staff
  (counts_data : pydict (pydict nat)) (staff_name : string) : outcome chart :=
  let skills := dict_keys counts_data in
  let n_skills := length skills in
  let n_options := length STAFF_LIKERT_OPTIONS in
  let indices := arange n_skills in
  let bar_width := (15 # 100)%Q in
  try bars <-
    map_try
      (fun '(i, option) =>
         try counts <-
           map_try
             (fun skill =>
                try d <- dict_getitem counts_data skill;
                dict_getitem d option)
             skills;
         let positions := cluster_positions indices i n_options bar_width in
         try color <- dict_getitem STAFF_COLORS option;
         Return (mkBars positions counts bar_width color option))
      (enumerate STAFF_LIKERT_OPTIONS);
  Return (mkChart bars (staff_name +:+ " - Likert Scale Response Distribution")).

(** [create_clustered_bar_chart_staff] in full: the figure is drawn, then
    rendered; the picture is identified with the figure it shows. *)
Definition create_clustered_bar_chart_staff_bytes
  (counts_data : pydict (pydict nat)) (staff_name : string) : outcome chart :=
  try fig <- create_clustered_bar_chart_staff counts_data staff_name;
  savefig (chart_title fig :: dict_keys counts_data) fig.

(** ** Ingestion *)

(** The table built by [process_staff_evaluation_docx] from the fetched
    grid: no table when the grid is empty, otherwise the first row gives
    the labels, which are then normalised. *)
Definition staff_table (data : list (list string)) : outcome (option DataFrame) :=
  match data with
  | [] => Return None
  | header :: body =>
      try df <- DataFrame_of_rows body header;
      Return (Some (clean_column_names df))
  end.

(** The loop of [get_data] over the raw headers; the state is
    [(header_count, unique_headers)]. *)
Definition unique_step (st : gmap string nat * list string) (header : string)
  : gmap string nat * list string :=
  let '(header_count, unique_headers) := st in
  match header_count !! header with
  | Some n =>
      (<[header := n + 1]> header_count,
       unique_headers ++ [header +:+ "_" +:+ PyStr.of_nat (n + 1)])
  | None =>
      (<[header := 0]> header_count, unique_headers ++ [header])
  end.

Definition unique_headers (headers : list string) : list string :=
  (foldl unique_step (∅, []) headers).2.

(** The table built by [get_data] from the fetched grid. *)
Definition get_data (all_values : list (list string)) : outcome DataFrame :=
  match all_values with
  | [] => Return (mkDataFrame [] [])
  | headers :: body => DataFrame_of_rows body (unique_headers headers)
  end.

(** ** The campus-rep variant *)

(** [df[label]] where the code goes on to use the result as a series.  A
    label carried by several columns selects a sub-frame instead; the
    embedding stops there. *)
Definition series (df : DataFrame) (label : string) : outcome (list cell) :=
  match getitem df label with
  | Missing => Raise (KeyError label)
  | Series values => Return values
  | SubFrame _ => Raise (Unmodelled label)
  end.

(** [s.dropna()] *)
Definition dropna (s : list cell) : list cell :=
  filter (fun c => isna c = false) s.

(** [s.value_counts().to_dict()] on a series of strings *)
Definition value_counts (s : list cell) : gmap string nat :=
  foldl
    (fun m c =>
       match c with
       | CStr v => <[v := S (default 0 (m !! v))]> m
       | _ => m
       end)
    ∅ s.

(** [value_counts.get(option, 0)] *)
Definition counts_get (value_counts : gmap string nat) (option : string) : nat :=
  default 0 (value_counts !! option).

Definition campus_rep_colors : pydict string :=
  [("Strongly Agree", "#1a9641");
   ("Agree", "#a6d96a");
   ("Neutral", "#ffff42");
   ("Disagree", "#fdae61");
   ("Strongly Disagree", "#d7191c")].

Definition identity_column : string := "Name of Campus Representative".
Definition comments_column : string := "Comments on Campus Representative Support".

(** [df.empty] *)
Definition df_empty (df : DataFrame) : bool :=
  bool_decide (rows df = []) || bool_decide (columns df = []).

(** [df[col].iloc[0]] *)
Definition iloc0 (s : list cell) : outcome cell :=
  match s with
  | c :: _ => Return c
  | [] => Raise (IndexError "single positional indexer is out-of-bounds")
  end.

Definition generate_clustered_bar_graph_campus_rep (df_staff : DataFrame)
  (likert_columns : list string) (question_labels : list string)
  : outcome chart :=
  let num_questions := length likert_columns in
  let summary_data0 : pydict (list nat) :=
    foldl (fun d option => dict_set option [] d) [] CAMPUS_REP_LIKERT_ORDER in
  try summary_data <-
    for_each
      (fun summary_data col =>
         try column <- series df_staff col;
         let responses := dropna column in
         let value_counts := value_counts responses in
         for_each
           (fun summary_data option =>
              let count := counts_get value_counts option in
              try l <- dict_getitem summary_data option;
              Return (dict_set option (l ++ [count]) summary_data))
           CAMPUS_REP_LIKERT_ORDER summary_data)
      likert_columns summary_data0;
  let indices := arange num_questions in
  let bar_width := (15 # 100)%Q in
  try bars <-
    map_try
      (fun '(i, option) =>
         try counts <- dict_getitem summary_data option;
         let positions :=
           cluster_positions indices i (length CAMPUS_REP_LIKERT_ORDER) bar_width in
         try color <- dict_getitem campus_rep_colors option;
         Return (mkBars positions counts bar_width color option))
      (enumerate CAMPUS_REP_LIKERT_ORDER);
  try staff_member <-
    (if df_empty df_staff then Return "Unknown"
     else try names <- series df_staff identity_column;
          try first <- iloc0 names;
          Return (py_str first));
  Return (mkChart bars (staff_member +:+ " - Likert Scale Response Distribution")).

(** [generate_clustered_bar_graph_campus_rep] in full: the figure is
    drawn, then rendered. *)
Definition generate_clustered_bar_graph_campus_rep_bytes (df_staff : DataFrame)
  (likert_columns : list string) (question_labels : list string)
  : outcome chart :=
  try fig <-
    generate_clustered_bar_graph_campus_rep df_staff likert_columns question_labels;
  savefig (chart_title fig :: question_labels) fig.

(** *** Documents, the file system and the user interface *)

Inductive block : Type :=
  | Heading (text : string) (level : nat) (centered : bool)
  | Picture (image : chart) (width_inches : Q)
  | Paragraph (text : string) (style : option string) (centered : bool)
  | Table (cells : list (list string)).

(** A document is the sequence of its body elements. *)
Definition document : Type := list block.

(** A character that XML text may hold: no control character other than
    tab, line feed and carriage return. *)
Definition xml_char (c : ascii) : bool :=
  let n := nat_of_ascii c in
  (32 <=? n) || (n =? 9) || (n =? 10) || (n =? 13).

Fixpoint all_chars (keep : ascii -> bool) (s : string) : bool :=
  match s with
  | EmptyString => true
  | String c s' => keep c && all_chars keep s'
  end.

(** A text handed to python-docx ([add_heading], [add_paragraph],
    [cell.text = ...]) is stored through lxml, which refuses a text with
    other control characters; the embedding stops there. *)
Definition docx_text (text : string) : outcome string :=
  if all_chars xml_char text then Return text else Raise (Unmodelled text).

Inductive ui_message : Type :=
  | UiError (text : string)
  | UiSuccess (text : string).

Record world : Type := mkWorld {
  fs_dirs : list string;
  fs_files : pydict document;
  ui_log : list ui_message
}.

Definition io (A : Type) : Type := world -> world * outcome A.

Definition io_ret {A} (a : A) : io A := fun w => (w, Return a).

Definition io_bind {A B} (m : io A) (k : A -> io B) : io B :=
  fun w =>
    match m w with
    | (w', Return a) => k a w'
    | (w', Raise e) => (w', Raise e)
    end.

Definition io_lift {A} (m : outcome A) : io A := fun w => (w, m).

Declare Scope io_scope.
Delimit Scope io_scope with io.
Notation "'do' x <- m ; k" := (io_bind m (fun x => k))
  (at level 10, x name, m at level 100, k at level 200) : io_scope.
Notation "'exec' m ; k" := (io_bind m (fun _ => k))
  (at level 10, m at level 100, k at level 200) : io_scope.
Local Open Scope io_scope.

(** The world lists the directories that exist, by the paths under which
    the program names them, and the files with their contents.  The
    working directory and the root exist without being listed, and so do
    the ancestors of a listed directory.  Permissions and the limits of
    the file system (length of names, free space) are not modelled: a
    file can be written in every directory that exists. *)

(** [if not os.path.exists(folder): os.makedirs(folder)], for a [folder]
    that names a directory: not empty and without NUL (for the others,
    which no caller passes, [os.makedirs] raises). *)
Definition ensure_dir (folder : string) : io unit :=
  fun w =>
    if bool_decide (folder ∈ fs_dirs w) then (w, Return tt)
    else (mkWorld (fs_dirs w ++ [folder]) (fs_files w) (ui_log w), Return tt).

(** The text of [p] up to and including its last slash. *)
Fixpoint head_of (p : string) : string :=
  match p with
  | EmptyString => EmptyString
  | String c p' =>
      match head_of p' with
      | EmptyString =>
          if bool_decide (c = "/"%char) then String c EmptyString else EmptyString
      | h => String c h
      end
  end.

(** [s.rstrip("/")] *)
Fixpoint rstrip_slashes (s : string) : string :=
  match s with
  | EmptyString => EmptyString
  | String c s' =>
      match rstrip_slashes s' with
      | EmptyString =>
          if bool_decide (c = "/"%char) then EmptyString else String c EmptyString
      | r => String c r
      end
  end.

(** [os.path.dirname(p)] *)
Definition dirname (p : string) : string :=
  let head := head_of p in
  if all_chars (fun c => bool_decide (c = "/"%char)) head then head
  else rstrip_slashes head.

(** Whether the directory [d], as [dirname] gives it, exists among
    [dirs]. *)
Definition dir_exists (dirs : list string) (d : string) : bool :=
  all_chars (fun c => bool_decide (c = "/"%char)) d
  || existsb
       (fun e => bool_decide (e = d) || PyStr.starts_with (d +:+ "/") e)
       dirs.

(** [doc.save(path)]: the file is opened for writing, which raises
    [FileNotFoundError] when its directory does not exist. *)
Definition doc_save (path : string) (doc : document) : io unit :=
  fun w =>
    if dir_exists (fs_dirs w) (dirname path)
    then (mkWorld (fs_dirs w) (dict_set path doc (fs_files w)) (ui_log w), Return tt)
    else (w, Raise (FileNotFoundError path)).

Definition st_error (text : string) : io unit :=
  fun w => (mkWorld (fs_dirs w) (fs_files w) (ui_log w ++ [UiError text]), Return tt).

Definition st_success (text : string) : io unit :=
  fun w => (mkWorld (fs_dirs w) (fs_files w) (ui_log w ++ [UiSuccess text]), Return tt).

(** [os.path.join(folder, name)] for a relative [name] *)
Definition path_join (folder name : string) : string :=
  if bool_decide (folder = "") then name
  else if PyStr.starts_with "/" (String.rev folder) then folder +:+ name
  else folder +:+ "/" +:+ name.

(** [df[df[label] == value]]: the rows whose cell under [label] is the
    string [value]. *)
Definition filter_eq (df : DataFrame) (label value : string) : outcome DataFrame :=
  try column <- series df label;
  let mask := (fun c => bool_decide (c = CStr value)) <$> column in
  let kept := filter (fun br : bool * list cell => br.1 = true) (zip mask (rows df)) in
  Return (mkDataFrame (columns df) kept.*2).

Definition likert_columns : list string :=
  ["For each statement below, please select the option that best represents your opinion [My Campus Rep is accessible, respectful, and responsive to my needs for support.]";
   "For each statement below, please select the option that best represents your opinion [I have received regular, clear communication from my Campus Rep.]";
   "For each statement below, please select the option that best represents your opinion [Reflection sessions (during Saturday trainings, as well as on-campus) with my Campus Rep have been useful.]";
   "For each statement below, please select the option that best represents your opinion [I would have liked more time to reflect upon my JusticeCorps experiences with my peers.]";
   "For each statement below, please select the option that best represents your opinion [My Campus Rep has been a good resource.]"].

Definition question_labels : list string :=
  ["Accessible & Responsive";
   "Clear Communication";
   "Useful Reflection Sessions";
   "More Peer Reflection Time";
   "Good Resource"].

(** The rows of the summary table below its header: one per question,
    the label followed by the counts as text. *)
Definition summary_rows (df_staff : DataFrame) : outcome (list (list string)) :=
  map_try
    (fun '(col, label) =>
       try column <- series df_staff col;
       let responses := dropna column in
       let value_counts := value_counts responses in
       Return (label ::
                 ((fun option => PyStr.of_nat (counts_get value_counts option))
                    <$> CAMPUS_REP_LIKERT_ORDER)))
    (zip likert_columns question_labels).

(** The paragraphs added below the "Comments" heading. *)
Definition comments_section (comments : list cell) : list block :=
  match comments with
  | _ :: _ => (fun comment => Paragraph (py_str comment) (Some "List Bullet") false) <$> comments
  | [] => [Paragraph "No comments available." None false]
  end.

Definition generate_docx_report (df : DataFrame) (staff_member : string)
  (output_folder : string) : io (option string) :=
  exec ensure_dir output_folder;
  let safe_name :=
    PyStr.strip
      (PyStr.filter_chars
         (fun c => PyStr.isalnum c || bool_decide (c = "_"%char)) staff_member) in
  let output_filename :=
    path_join output_folder ("campus_rep_report_" +:+ safe_name +:+ ".docx") in
  do df_staff <- io_lift (filter_eq df identity_column staff_member);
  if df_empty df_staff then
    exec st_error ("No data available for staff member: " +:+ staff_member);
    io_ret None
  else
    let doc : document := [] in
    do title <- io_lift (docx_text ("Campus Rep Report: " +:+ staff_member));
    let doc := doc ++ [Heading title 1 true] in
    do chart_bytes <-
      io_lift (generate_clustered_bar_graph_campus_rep_bytes df_staff likert_columns
                 question_labels);
    let doc := doc ++ [Picture chart_bytes (65 # 10)] in
    let doc :=
      doc ++ [Paragraph "Figure 1: Likert Scale Response Count Distribution"
                (Some "Caption") true] in
    let doc := doc ++ [Heading "Response Summary" 2 false] in
    do data_rows <- io_lift (summary_rows df_staff);
    let doc := doc ++ [Table (("Question" :: CAMPUS_REP_LIKERT_ORDER) :: data_rows)] in
    let doc := doc ++ [Heading "Comments" 2 false] in
    do column <- io_lift (series df_staff comments_column);
    let comments := dropna column in
    exec io_lift (map_try (fun comment => docx_text (py_str comment)) comments);
    let doc := doc ++ comments_section comments in
    exec doc_save output_filename doc;
    exec st_success ("DOCX report saved as " +:+ output_filename);
    io_ret (Some output_filename).

(** ** The staff report: [generate_staff_report_docx] *)

(** [os.path.join(folder, name)]: a [name] that starts at the root
    replaces the folder. *)
Definition os_path_join (folder name : string) : string :=
  if PyStr.starts_with "/" name then name else path_join folder name.

(** [doc.add_table(rows=rows, cols=cols)]: every cell is empty. *)
Definition new_table (rows cols : nat) : list (list string) :=
  replicate rows (replicate cols "").

(** [table.rows[i].cells[j].text = text] *)
Definition set_cell (table : list (list string)) (i j : nat) (text : string)
  : outcome (list (list string)) :=
  match table !! i with
  | None => Raise (IndexError "list index out of range")
  | Some row =>
      match row !! j with
      | None => Raise (IndexError "tuple index out of range")
      | Some _ =>
          try text <- docx_text text;
          Return (<[i := <[j := text]> row]> table)
      end
  end.

Definition generate_staff_report_docx (staff_name : string) (df : DataFrame)
  (output_folder : string) : io string :=
  exec ensure_dir output_folder;
  let output_file :=
    os_path_join output_folder
      (PyStr.replace_char " " "_" staff_name +:+ "_Report.docx") in
  do counts_data <- io_lift (calculate_likert_counts df staff_name);
  let doc : document := [] in
  do title <- io_lift (docx_text ("Staff Report: " +:+ staff_name));
  let doc := doc ++ [Heading title 1 true] in
  do chart_bytes <-
    io_lift (create_clustered_bar_chart_staff_bytes counts_data staff_name);
  let doc := doc ++ [Picture chart_bytes (65 # 10)] in
  let doc :=
    doc ++ [Paragraph "Figure 1: Likert Scale Response Count Distribution"
              (Some "Caption") true] in
  let doc := doc ++ [Heading "Response Summary" 2 false] in
  let table := new_table (length counts_data + 1) (length STAFF_LIKERT_OPTIONS + 1) in
  do table <- io_lift (set_cell table 0 0 "Skill Category");
  do table <-
    io_lift
      (for_each (fun table '(i, option) => set_cell table 0 (i + 1) option)
         (enumerate STAFF_LIKERT_OPTIONS) table);
  do table <-
    io_lift
      (for_each
         (fun table '(i, (skill, counts)) =>
            try table <- set_cell table (i + 1) 0 skill;
            for_each
              (fun table '(j, option) =>
                 try n <- dict_getitem counts option;
                 set_cell table (i + 1) (j + 1) (PyStr.of_nat n))
              (enumerate STAFF_LIKERT_OPTIONS) table)
         (enumerate counts_data) table);
  let doc := doc ++ [Table table] in
  let doc := doc ++ [Paragraph "" None false] in
  exec doc_save output_file doc;
  io_ret output_file.

(** [process_staff_evaluation_docx], from the grid [data] that
    [get_sheet_data] fetched. *)
Definition process_staff_evaluation_docx (data : list (list string))
  (sheet_name staff_name : string) : io (pydict string) :=
  match data with
  | [] =>
      exec st_error ("No data found in sheet '" +:+ sheet_name +:+ "'");
      io_ret []
  | header :: body =>
      do df <- io_lift (DataFrame_of_rows body header);
      let df := clean_column_names df in
      do docx_file <- generate_staff_report_docx staff_name df "reports";
      exec st_success ("Generated report for " +:+ staff_name +:+ ": " +:+ docx_file);
      io_ret (dict_set staff_name docx_file [])
  end.

(** * Specification vocabulary *)

(** ** Responses and distributions *)

(** The trimmed string form of a cell value. *)
Definition trimmed (val : cell) : string := PyStr.strip (py_str val).

(** A valid response: its trimmed form is one of the enumeration values. *)
Definition valid_response (val : cell) : Prop := trimmed val ∈ STAFF_LIKERT_OPTIONS.

#[global] Instance valid_response_dec val : Decision (valid_response val).
Proof. unfold valid_response. apply _. Defined.

(** How many of [vals] have the trimmed form [o]. *)
Definition hits (o : string) (vals : list cell) : nat :=
  length (filter (fun val => trimmed val = o) vals).

(** The distribution over [options] given slot by slot by [f]. *)
Definition distribution (f : string -> nat) (options : list string) : pydict nat :=
  (fun o => (o, f o)) <$> options.

(** The sum of a distribution's counts across the enumeration. *)
Definition total (counts : pydict nat) : nat :=
  sum_list ((fun o => default 0 (dict_get counts o)) <$> STAFF_LIKERT_OPTIONS).

(** [col] is a column of [df] at position [j] that the subject matches. *)
Definition matched (df : DataFrame) (staff_name : string) (j : nat) (col : string) : Prop :=
  columns df !! j = Some col ∧ PyStr.contains staff_name col = true.

(** The values the counter runs through for a label. *)
Definition iterated (df : DataFrame) (col : string) : list cell :=
  match iter_getitem df col with
  | Return vals => vals
  | Raise _ => []
  end.

(** A counts mapping as the response counter produces it: every
    distribution has all the enumeration values. *)
Definition counts_mapping (counts_data : pydict (pydict nat)) : Prop :=
  Forall
    (fun entry : string * pydict nat =>
       Forall (fun o => is_Some (dict_get entry.2 o)) STAFF_LIKERT_OPTIONS)
    counts_data.

(** The count of option [o] for each metric, in the order of the metrics. *)
Definition heights_of (counts_data : pydict (pydict nat)) (o : string) : list nat :=
  (fun skill => default 0 (dict_get counts_data skill ≫= fun d => dict_get d o))
    <$> dict_keys counts_data.

(** ** Labels *)

(** The shape of label the specification describes: a name, the
    category in brackets, and nothing after it but whitespace (whitespace
    around the name and the category belongs to them and is trimmed). *)
Definition bracketed_form (label name category : string) : Prop :=
  exists w, PyStr.all_space w = true ∧ label = name +:+ "[" +:+ category +:+ "]" +:+ w.

(** The last character of a string. *)
Fixpoint last_char (s : string) : option ascii :=
  match s with
  | EmptyString => None
  | String c s' => match last_char s' with Some c' => Some c' | None => Some c end
  end.

(** How many times [h] occurs in [seen]. *)
Definition occ (h : string) (seen : list string) : nat :=
  length (filter (fun x => x = h) seen).

(** The label of an occurrence of header [h] that [k] occurrences
    precede: the header itself for the first, the header suffixed with
    the occurrence index for a repeat. *)
Definition occurrence_label (h : string) (k : nat) : string :=
  match k with
  | 0 => h
  | S _ => h +:+ "_" +:+ PyStr.of_nat k
  end.

(** [header_count] after the headers [seen]: absent for a header not yet
    met, otherwise the number of its repeats so far. *)
Definition counts_seen (header_count : gmap string nat) (seen : list string) : Prop :=
  forall h, header_count !! h = match occ h seen with 0 => None | S n => Some n end.

(** ** Documents *)

(** The document of a campus-rep report, from its parts. *)
Definition assembled (staff_member : string) (chart_bytes : chart)
  (data_rows : list (list string)) (comments : list cell) : document :=
  [Heading ("Campus Rep Report: " +:+ staff_member) 1 true;
   Picture chart_bytes (65 # 10);
   Paragraph "Figure 1: Likert Scale Response Count Distribution" (Some "Caption") true;
   Heading "Response Summary" 2 false;
   Table (("Question" :: CAMPUS_REP_LIKERT_ORDER) :: data_rows);
   Heading "Comments" 2 false]
  ++ comments_section comments.

(** ** Runs within the embedding *)

(** The run does not end where the embedding stops. *)
Definition modelled {A} (o : outcome A) : Prop :=
  forall label, o ≠ Raise (Unmodelled label).

(** The text ends in a decimal digit. *)
Definition ends_in_digit (s : string) : Prop :=
  exists d, last_char s = Some d ∧ is_Some (Ascii.is_nat d).

(** ** Summary tables *)

(** The summary table of a counts mapping: the header row, then one row
    per metric with its counts as text. *)
Definition summary_table (first : string) (counts_data : pydict (pydict nat))
  : list (list string) :=
  (first :: STAFF_LIKERT_OPTIONS)
  :: ((fun entry : string * pydict nat =>
         entry.1 :: ((fun o => PyStr.of_nat (default 0 (dict_get entry.2 o)))
                       <$> STAFF_LIKERT_OPTIONS))
        <$> counts_data).

(** The document of a staff report, from its parts. *)
Definition staff_document (staff_name : string) (chart_bytes : chart)
  (table : list (list string)) : document :=
  [Heading ("Staff Report: " +:+ staff_name) 1 true;
   Picture chart_bytes (65 # 10);
   Paragraph "Figure 1: Likert Scale Response Count Distribution" (Some "Caption") true;
   Heading "Response Summary" 2 false;
   Table table;
   Paragraph "" None false].

(** ** Plain texts *)

(** A text without control characters and without dollar signs:
    python-docx stores it and matplotlib draws it as it is. *)
Definition plain (s : string) : bool :=
  all_chars (fun c => xml_char c && negb (bool_decide (c = "$"%char))) s.

(** The first of [texts] that holds a control character. *)
Definition first_control (texts : list string) : option string :=
  head (filter (fun s => all_chars xml_char s = false) texts).

(** ** Order of first appearance *)

(** The elements of [l], each once, in the order in which they first
    appear. *)
Definition first_occurrences (l : list string) : list string :=
  foldl (fun acc x => if decide (x ∈ acc) then acc else acc ++ [x]) [] l.

(** ** The campus-rep report's parts *)

(** How many cells of [column] hold exactly the text [o]. *)
Definition exact_hits (o : string) (column : list cell) : nat :=
  length (filter (fun c => c = CStr o) column).

(** The rows of [df] whose cell at position [j] is the text [value]. *)
Definition rows_of (df : DataFrame) (j : nat) (value : string) : list (list cell) :=
  filter (fun r => default CNone (r !! j) = CStr value) (rows df).

(** The values selected by a label that one column carries. *)
Definition selected (df : DataFrame) (label : string) : list cell :=
  match series df label with
  | Return vals => vals
  | Raise _ => []
  end.

(** The characters of a name that its file name keeps: letters, digits
    and the underscore. *)
Definition kept_chars (s : string) : string :=
  PyStr.filter_chars (fun c => PyStr.isalnum c || bool_decide (c = "_"%char)) s.

(** The file of a campus-rep report. *)
Definition report_file (output_folder staff_member : string) : string :=
  path_join output_folder ("campus_rep_report_" +:+ kept_chars staff_member +:+ ".docx").

(** * Example inputs *)

(** The grid of the specification's end-to-end scenario A as fetched,
    before normalisation. *)
Definition scenario_A_grid : list (list string) :=
  [["Alice [Communication]"; "Alice [Punctuality]"];
   ["Strongly Agree"; "Neutral"];
   ["Agree"; ""];
   ["Strongly Agree"; "Disagree"]].

(** The table of scenario A, after normalisation. *)
Definition scenario_A : DataFrame :=
  mkDataFrame
    ["Alice - Communication"; "Alice - Punctuality"]
    [[CStr "Strongly Agree"; CStr "Neutral"];
     [CStr "Agree"; CStr ""];
     [CStr "Strongly Agree"; CStr "Disagree"]].

(** The counts mapping of scenario A. *)
Definition scenario_A_counts : pydict (pydict nat) :=
  [("Communication",
    [("Strongly Agree", 2); ("Agree", 1); ("Neutral", 0); ("Disagree", 0);
     ("Strongly Disagree", 0)]);
   ("Punctuality",
    [("Strongly Agree", 0); ("Agree", 0); ("Neutral", 1); ("Disagree", 1);
     ("Strongly Disagree", 0)])].

(** Two columns of one subject that share the metric name. *)
Definition shared_metric_table : DataFrame :=
  mkDataFrame
    ["Alice - Term 1 - Communication"; "Alice - Term 2 - Communication"]
    [[CStr "Agree"; CStr "Disagree"];
     [CStr "Agree"; CStr "Neutral"]].

(** A subject whose only column holds no valid response. *)
Definition no_data_table : DataFrame :=
  mkDataFrame
    ["Alice - Communication"; "Bob - Communication"]
    [[CStr "n/a"; CStr "Agree"];
     [CStr ""; CStr "Agree"]].

(** A label whose name runs over two lines. *)
Definition two_line_label : string :=
  "Alice" +:+ String HeaderRegex.newline "Smith [Communication]".

(** A label with text after the bracketed category. *)
Definition annotated_label : string := "Alice [Communication] (optional)".

(** A grid fetched for the staff variant whose header row repeats a
    header. *)
Definition repeated_header_grid : list (list string) :=
  [["Alice [Communication]"; "Alice [Communication]"];
   ["Agree"; "Neutral"]].

(** The header row of a campus-rep sheet. *)
Definition campus_header : list string :=
  identity_column :: likert_columns ++ [comments_column].

(** A fetched sheet with one response, for Jordan, whose comment cell is
    blank (the sheet API gives the empty string for a blank cell). *)
Definition blank_comment_grid : list (list string) :=
  [campus_header;
   ["Jordan"; "Agree"; "Agree"; "Neutral"; "Disagree"; "Agree"; ""]].

(** The table of the specification's end-to-end scenario B: no response
    is about Jordan. *)
Definition scenario_B : DataFrame :=
  mkDataFrame campus_header
    [[CStr "Sam"; CStr "Agree"; CStr "Agree"; CStr "Neutral"; CStr "Disagree";
      CStr "Agree"; CStr "Very helpful."]].

Definition empty_world : world := mkWorld [] [] [].


(** Two subjects, the name of one being part of the name of the other. *)
Definition contained_names_table : DataFrame :=
  mkDataFrame
    ["Ann - Punctuality"; "Anna - Teamwork"]
    [[CStr "Agree"; CStr "Neutral"];
     [CStr "Disagree"; CStr "Agree"]].

(** A campus-rep table with one response about each of two
    representatives whose names differ by a blank. *)
Definition two_reps_table : DataFrame :=
  mkDataFrame campus_header
    [[CStr "Ann Lee"; CStr "Agree"; CStr "Agree"; CStr "Neutral"; CStr "Disagree";
      CStr "Agree"; CStr "Very helpful."];
     [CStr "AnnLee"; CStr "Neutral"; CStr "Agree"; CStr "Agree"; CStr "Agree";
      CStr "Strongly Agree"; CNone]].

(** A campus-rep table that lacks the comments column. *)
Definition no_comments_table : DataFrame :=
  mkDataFrame (identity_column :: likert_columns)
    [[CStr "Jordan"; CStr "Agree"; CStr "Agree"; CStr "Neutral"; CStr "Disagree";
      CStr "Agree"]].

(** A staff table in which two columns carry one label, as a sheet with
    a repeated header gives it. *)
Definition repeated_label_table : DataFrame :=
  mkDataFrame
    ["Alice - Communication"; "Alice - Communication"]
    [[CStr "Agree"; CStr "Disagree"]].

(** A table without rows whose repeated label is itself an enumeration
    value. *)
Definition value_label_table : DataFrame :=
  mkDataFrame ["Agree"; "Agree"] [].
(** * Strings *)

Lemma app_String c s t : String c s +:+ t = String c (s +:+ t).
Proof. done. Qed.

Lemma app_empty t : EmptyString +:+ t = t.
Proof. done. Qed.

Lemma app_empty_r s : s +:+ EmptyString = s.
Proof. induction s as [|c s IH]; [done|]. by rewrite app_String, IH. Qed.

Lemma app_assoc_string a b c : (a +:+ b) +:+ c = a +:+ (b +:+ c).
Proof. induction a as [|x a IH]; [done|]. by rewrite !app_String, IH. Qed.

Lemma all_space_app a b :
  PyStr.all_space (a +:+ b) = PyStr.all_space a && PyStr.all_space b.
Proof.
  induction a as [|c a IH]; [done|].
  rewrite app_String. cbn [PyStr.all_space]. rewrite IH. by destruct (PyStr.isspace c).
Qed.

Lemma lstrip_all_space w : PyStr.all_space w = true -> PyStr.lstrip w = EmptyString.
Proof.
  induction w as [|c w IH]; [done|]. cbn [PyStr.all_space PyStr.lstrip].
  destruct (PyStr.isspace c); [exact IH | done].
Qed.

Lemma rstrip_all_space w : PyStr.all_space w = true -> PyStr.rstrip w = EmptyString.
Proof.
  induction w as [|c w IH]; [done|]. cbn [PyStr.all_space PyStr.rstrip].
  destruct (PyStr.isspace c); [|done]. intros Hw. by rewrite IH.
Qed.

Lemma rstrip_app_space s w :
  PyStr.all_space w = true -> PyStr.rstrip (s +:+ w) = PyStr.rstrip s.
Proof.
  intros Hw. induction s as [|c s IH].
  - rewrite app_empty. by apply rstrip_all_space.
  - rewrite app_String. cbn [PyStr.rstrip]. by rewrite IH.
Qed.

Lemma lstrip_app_space s w :
  PyStr.all_space w = true ->
  exists w', PyStr.all_space w' = true ∧ PyStr.lstrip (s +:+ w) = PyStr.lstrip s +:+ w'.
Proof.
  intros Hw. induction s as [|c s IH].
  - exists EmptyString. rewrite app_empty. by rewrite lstrip_all_space.
  - rewrite app_String. cbn [PyStr.lstrip]. destruct (PyStr.isspace c); [exact IH|].
    by exists w.
Qed.

(** Whitespace after a string does not survive [strip]. *)
Lemma strip_app_space s w :
  PyStr.all_space w = true -> PyStr.strip (s +:+ w) = PyStr.strip s.
Proof.
  intros Hw. unfold PyStr.strip.
  destruct (lstrip_app_space s w Hw) as (w' & Hw' & ->).
  by apply rstrip_app_space.
Qed.

Lemma mem_app c a b : PyStr.mem c (a +:+ b) = PyStr.mem c a || PyStr.mem c b.
Proof.
  induction a as [|x a IH]; [done|].
  rewrite app_String. cbn [PyStr.mem]. rewrite IH. by destruct (bool_decide (x = c)).
Qed.

(** * Metric names *)

Lemma split_go_no_separator sep cur s :
  PyStr.contains sep s = false -> PyStr.split_go sep 0 cur s = [cur +:+ s].
Proof.
  revert cur. induction s as [|c s IH]; intros cur.
  - intros _. cbn [PyStr.split_go]. by rewrite app_empty_r.
  - cbn [PyStr.contains]. intros [Hhere Hlater]%orb_false_iff.
    cbn [PyStr.split_go]. rewrite Hhere, IH by done.
    by rewrite app_assoc_string.
Qed.

(** A label without separator is its own metric name. *)
Lemma skill_of_no_separator col :
  PyStr.contains " - " col = false -> skill_of col = col.
Proof.
  intros Hno. unfold skill_of, PyStr.split_last, PyStr.split.
  by rewrite split_go_no_separator.
Qed.

Example skill_of_examples :
  skill_of "Alice - Communication" = "Communication" ∧
  skill_of "Alice - Term 1 - Communication" = "Communication" ∧
  skill_of "Timestamp" = "Timestamp".
Proof. repeat split; by vm_compute. Qed.

(** * Dictionaries *)

Section dict_facts.
Context {V : Type}.
Implicit Types (d : pydict V) (k : string) (v : V).

Lemma dict_get_set d k v k' :
  dict_get (dict_set k v d) k' = if decide (k = k') then Some v else dict_get d k'.
Proof.
  induction d as [|[k0 v0] d IH]; simpl.
  - repeat case_decide; congruence.
  - destruct (decide (k0 = k)) as [->|Hne]; simpl.
    + repeat case_decide; congruence.
    + rewrite IH. repeat case_decide; congruence.
Qed.

Lemma dict_get_set_eq d k v : dict_get (dict_set k v d) k = Some v.
Proof. rewrite dict_get_set. by case_decide. Qed.

Lemma dict_get_set_ne d k v k' : k ≠ k' -> dict_get (dict_set k v d) k' = dict_get d k'.
Proof. intros. rewrite dict_get_set. by case_decide. Qed.

Lemma dict_get_Some_elem d k v : dict_get d k = Some v -> (k, v) ∈ d.
Proof.
  induction d as [|[k0 v0] d IH]; simpl; [done|].
  case_decide as Hk.
  - intros [= ->]. subst. left.
  - intros Hd. right. by apply IH.
Qed.

Lemma dict_get_None d k : dict_get d k = None <-> k ∉ dict_keys d.
Proof.
  unfold dict_keys. induction d as [|[k0 v0] d IH]; simpl.
  - split; [intros _; apply not_elem_of_nil | done].
  - rewrite not_elem_of_cons. case_decide as Hk; simpl.
    + split; [done | intros [Hne _]; by subst].
    + rewrite IH. split; [intros ?; split; [by intros -> | done] | by intros [_ ?]].
Qed.

Lemma dict_keys_cons k v d : dict_keys ((k, v) :: d) = k :: dict_keys d.
Proof. done. Qed.

Lemma dict_keys_set d k v :
  dict_keys (dict_set k v d) =
    if decide (k ∈ dict_keys d) then dict_keys d else dict_keys d ++ [k].
Proof.
  induction d as [|[k0 v0] d IH]; cbn [dict_set].
  - destruct (decide (k ∈ dict_keys (@nil (string * V)))) as [H|H]; [by apply elem_of_nil in H | done].
  - rewrite !dict_keys_cons.
    destruct (decide (k0 = k)) as [->|Hne]; rewrite !dict_keys_cons.
    + rewrite decide_True; [done | left].
    + rewrite IH. destruct (decide (k ∈ dict_keys d)) as [Hin|Hnin].
      * rewrite decide_True; [done | by right].
      * rewrite decide_False; [done|]. rewrite elem_of_cons.
        intros [?|?]; [congruence | done].
Qed.

Lemma dict_keys_NoDup_set d k v :
  NoDup (dict_keys d) -> NoDup (dict_keys (dict_set k v d)).
Proof.
  intros Hd. rewrite dict_keys_set. case_decide; [done|].
  apply NoDup_app. split_and!; [done | | apply NoDup_singleton].
  intros x Hx ->%list_elem_of_singleton. done.
Qed.

(** A dictionary filled by successive assignments holds, under each key,
    the value of the last assignment to it. *)
Lemma dict_get_foldl_set {X} (key : X -> string) (val : X -> V) (xs : list X) d k :
  dict_get (foldl (fun acc x => dict_set (key x) (val x) acc) d xs) k =
    match last (filter (fun x => key x = k) xs) with
    | Some x => Some (val x)
    | None => dict_get d k
    end.
Proof.
  revert d. induction xs as [|x xs IH]; intros d; simpl; [done|].
  rewrite IH, filter_cons. case_decide as Hk.
  - rewrite last_cons. destruct (last _); [done|].
    by rewrite Hk, dict_get_set_eq.
  - destruct (last _); [done|]. by rewrite dict_get_set_ne.
Qed.

Lemma dict_keys_foldl_set_NoDup {X} (key : X -> string) (val : X -> V) (xs : list X) d :
  NoDup (dict_keys d) ->
  NoDup (dict_keys (foldl (fun acc x => dict_set (key x) (val x) acc) d xs)).
Proof.
  revert d. induction xs as [|x xs IH]; intros d Hd; simpl; [done|].
  apply IH. by apply dict_keys_NoDup_set.
Qed.
End dict_facts.

Lemma distribution_get f options o :
  dict_get (distribution f options) o = if decide (o ∈ options) then Some (f o) else None.
Proof.
  unfold distribution. induction options as [|o' options IH].
  - destruct (decide (o ∈ [])) as [H|H]; [by apply elem_of_nil in H | done].
  - rewrite fmap_cons. cbn [dict_get]. destruct (decide (o' = o)) as [->|Hne].
    + rewrite decide_True; [done | left].
    + rewrite IH. destruct (decide (o ∈ options)) as [Hin|Hnin].
      * rewrite decide_True; [done | by right].
      * rewrite decide_False; [done|]. rewrite elem_of_cons.
        intros [?|?]; [congruence | done].
Qed.

Lemma distribution_keys f options : dict_keys (distribution f options) = options.
Proof.
  unfold dict_keys, distribution.
  induction options as [|o options IH]; [done|].
  rewrite !fmap_cons. by rewrite IH.
Qed.

Lemma distribution_ext f g options :
  (forall o, o ∈ options -> f o = g o) -> distribution f options = distribution g options.
Proof.
  intros Hfg. unfold distribution. apply list_fmap_ext.
  intros i o Ho. rewrite Hfg; [done|]. by eapply list_elem_of_lookup_2.
Qed.

Lemma distribution_set f options o n :
  NoDup options -> o ∈ options ->
  dict_set o n (distribution f options) =
    distribution (fun o' => if decide (o' = o) then n else f o') options.
Proof.
  induction options as [|o' options IH]; simpl.
  - by intros _ ?%elem_of_nil.
  - intros [Hnin Hnd]%NoDup_cons Hin. destruct (decide (o' = o)) as [->|Hne].
    + f_equal. apply distribution_ext. intros o' Ho'.
      rewrite decide_False; [done | congruence].
    + f_equal. apply IH; [done|].
      apply elem_of_cons in Hin as [?|?]; [congruence | done].
Qed.

(** * The response counter *)

Lemma STAFF_LIKERT_OPTIONS_NoDup : NoDup STAFF_LIKERT_OPTIONS.
Proof. apply (bool_decide_unpack _). by vm_compute. Qed.

Lemma zero_counts_distribution :
  zero_counts STAFF_LIKERT_OPTIONS = distribution (fun _ => 0) STAFF_LIKERT_OPTIONS.
Proof. by vm_compute. Qed.

(** One value against the options: the slot of its trimmed form goes up by
    one when that form is an option, and nothing changes otherwise. *)
Lemma scan_options_distribution options all f val :
  NoDup all -> options ⊆ all ->
  scan_options options (distribution f all) val =
    Return (if decide (trimmed val ∈ options)
            then distribution (fun o => if decide (o = trimmed val) then f o + 1 else f o) all
            else distribution f all).
Proof.
  intros Hnd. induction options as [|o options IH]; intros Hsub.
  - cbn [scan_options]. rewrite decide_False; [done | apply not_elem_of_nil].
  - cbn [scan_options]. fold (trimmed val).
    assert (o ∈ all) as Ho by (apply Hsub; left).
    destruct (decide (trimmed val = o)) as [Heq|Hne].
    + rewrite decide_True by (rewrite Heq; left).
      unfold dict_getitem. rewrite distribution_get, decide_True by done. cbn [obind].
      rewrite distribution_set by done. f_equal. apply distribution_ext.
      intros o' _. rewrite Heq. by destruct (decide (o' = o)) as [->|?].
    + rewrite IH by (intros x Hx; apply Hsub; by right).
      destruct (decide (trimmed val ∈ options)) as [Hin|Hnin].
      * rewrite decide_True; [done | by right].
      * rewrite decide_False; [done|]. rewrite elem_of_cons.
        intros [?|?]; [congruence | done].
Qed.

Lemma hits_cons o val vals :
  hits o (val :: vals) = (if decide (trimmed val = o) then 1 else 0) + hits o vals.
Proof. unfold hits. rewrite filter_cons. by destruct (decide (trimmed val = o)). Qed.

Lemma hits_snoc o vals val :
  hits o (vals ++ [val]) = hits o vals + (if decide (trimmed val = o) then 1 else 0).
Proof.
  unfold hits. rewrite filter_app, length_app, filter_cons, filter_nil.
  by destruct (decide (trimmed val = o)).
Qed.

Lemma for_each_scan_distribution vals f :
  for_each (scan_options STAFF_LIKERT_OPTIONS) vals (distribution f STAFF_LIKERT_OPTIONS) =
    Return (distribution (fun o => f o + hits o vals) STAFF_LIKERT_OPTIONS).
Proof.
  revert f. induction vals as [|val vals IH]; intros f.
  - cbn [for_each]. f_equal. apply distribution_ext. intros o _. unfold hits. simpl. lia.
  - cbn [for_each].
    rewrite (scan_options_distribution _ _ _ _ STAFF_LIKERT_OPTIONS_NoDup) by done.
    cbn [obind]. destruct (decide (trimmed val ∈ STAFF_LIKERT_OPTIONS)) as [Hin|Hnin].
    + rewrite IH. f_equal. apply distribution_ext. intros o _. rewrite hits_cons.
      destruct (decide (o = trimmed val)) as [->|Hne].
      * rewrite decide_True by done. lia.
      * rewrite decide_False by congruence. lia.
    + rewrite IH. f_equal. apply distribution_ext. intros o Ho. rewrite hits_cons.
      rewrite decide_False; [lia | congruence].
Qed.

(** The loop over a column never raises and leaves, in each slot, the
    number of values whose trimmed form is that slot's option. *)
Lemma count_values_hits vals :
  count_values vals = Return (distribution (fun o => hits o vals) STAFF_LIKERT_OPTIONS).
Proof.
  unfold count_values. rewrite zero_counts_distribution, for_each_scan_distribution.
  f_equal.
Qed.

Lemma sum_list_fmap_add {A} (f g : A -> nat) (l : list A) :
  sum_list ((fun x => f x + g x) <$> l) = sum_list (f <$> l) + sum_list (g <$> l).
Proof. induction l as [|x l IH]; [done|]. rewrite !fmap_cons. simpl. lia. Qed.

Lemma sum_indicator (options : list string) (t : string) :
  NoDup options ->
  sum_list ((fun o => if decide (t = o) then 1 else 0) <$> options) =
    if decide (t ∈ options) then 1 else 0.
Proof.
  induction options as [|o options IH].
  - intros _. destruct (decide (t ∈ [])) as [H|H]; [by apply elem_of_nil in H | done].
  - intros [Hnin Hnd]%NoDup_cons. rewrite fmap_cons. cbn [sum_list]. rewrite IH by done.
    destruct (decide (t = o)) as [->|Hne].
    + rewrite (decide_False (P := o ∈ options)) by done.
      rewrite decide_True; [done | left].
    + destruct (decide (t ∈ options)) as [Hin|Hnin'].
      * rewrite decide_True; [done | by right].
      * rewrite decide_False; [done|]. rewrite elem_of_cons.
        intros [?|?]; [congruence | done].
Qed.

Lemma sum_hits_valid vals :
  sum_list ((fun o => hits o vals) <$> STAFF_LIKERT_OPTIONS) =
    length (filter valid_response vals).
Proof.
  induction vals as [|val vals IH].
  - by vm_compute.
  - rewrite filter_cons.
    rewrite (list_fmap_ext _ (fun o => (if decide (trimmed val = o) then 1 else 0) + hits o vals))
      by (intros _ o _; apply hits_cons).
    rewrite sum_list_fmap_add, IH, sum_indicator by apply STAFF_LIKERT_OPTIONS_NoDup.
    unfold valid_response at 2.
    by destruct (decide (trimmed val ∈ STAFF_LIKERT_OPTIONS)).
Qed.

Lemma total_distribution f :
  total (distribution f STAFF_LIKERT_OPTIONS) = sum_list (f <$> STAFF_LIKERT_OPTIONS).
Proof. reflexivity. Qed.

(** * Column selection *)

Lemma label_positions_elem cols label k :
  label ∈ cols -> label_positions cols label k ≠ [].
Proof.
  revert k. induction cols as [|c cols IH]; intros k Hin.
  - by apply elem_of_nil in Hin.
  - cbn [label_positions]. destruct (decide (c = label)) as [->|Hne]; [done|].
    apply IH. apply elem_of_cons in Hin as [?|?]; [congruence | done].
Qed.

Lemma label_positions_notin cols label k :
  label ∉ cols -> label_positions cols label k = [].
Proof.
  revert k. induction cols as [|c cols IH]; intros k Hnin; [done|].
  apply not_elem_of_cons in Hnin as [Hne Hnin]. cbn [label_positions].
  rewrite decide_False by congruence. by apply IH.
Qed.

Lemma label_positions_unique cols label j k :
  NoDup cols -> cols !! j = Some label -> label_positions cols label k = [k + j].
Proof.
  revert j k. induction cols as [|c cols IH]; intros j k Hnd Hj; [done|].
  apply NoDup_cons in Hnd as [Hnin Hnd]. cbn [label_positions].
  destruct j as [|j]; simpl in Hj.
  - injection Hj as ->. rewrite decide_True by done.
    rewrite label_positions_notin by done. f_equal. lia.
  - assert (label ∈ cols) by (by eapply list_elem_of_lookup_2).
    rewrite decide_False by (intros ->; done).
    rewrite (IH j (S k)) by done. f_equal. lia.
Qed.

(** Iterating over [df[col]] for a label of the frame never raises. *)
Lemma iter_getitem_total df col :
  col ∈ columns df -> exists vals, iter_getitem df col = Return vals.
Proof.
  intros Hin. unfold iter_getitem, getitem.
  pose proof (label_positions_elem _ _ 0 Hin) as Hne.
  destruct (label_positions (columns df) col 0) as [|j [|j' js]]; [done|eauto..].
Qed.

(** When the label is carried by one column only, the iteration runs
    through that column's cells. *)
Lemma iter_getitem_unique df col j :
  NoDup (columns df) -> columns df !! j = Some col ->
  iter_getitem df col = Return (col_values df j).
Proof.
  intros Hnd Hj. unfold iter_getitem, getitem.
  by rewrite (label_positions_unique _ _ j 0 Hnd Hj).
Qed.

Lemma series_unique df col j :
  NoDup (columns df) -> columns df !! j = Some col ->
  series df col = Return (col_values df j).
Proof.
  intros Hnd Hj. unfold series, getitem.
  by rewrite (label_positions_unique _ _ j 0 Hnd Hj).
Qed.

Lemma for_each_pure {A S} (body : S -> A -> outcome S) (g : S -> A -> S) xs s :
  (forall x s', x ∈ xs -> body s' x = Return (g s' x)) ->
  for_each body xs s = Return (foldl g s xs).
Proof.
  revert s. induction xs as [|x xs IH]; intros s Hbody; [done|].
  cbn [for_each foldl]. rewrite Hbody by left. cbn [obind].
  apply IH. intros y s' Hy. apply Hbody. by right.
Qed.

(** The response counter never raises; its result is the dictionary filled,
    in column order, with one distribution per matched column. *)
Lemma calculate_likert_counts_closed df staff_name :
  calculate_likert_counts df staff_name =
    Return (foldl
              (fun counts_data col =>
                 dict_set (skill_of col)
                   (distribution (fun o => hits o (iterated df col)) STAFF_LIKERT_OPTIONS)
                   counts_data)
              [] (staff_columns df staff_name)).
Proof.
  unfold calculate_likert_counts. apply for_each_pure.
  intros col acc Hcol. unfold staff_columns in Hcol.
  apply list_elem_of_filter in Hcol as [_ Hcol].
  unfold iterated. destruct (iter_getitem_total df col Hcol) as [vals ->].
  cbn [obind]. by rewrite count_values_hits.
Qed.

Lemma last_filter_lookup {A} (P : A -> Prop) `{!forall x, Decision (P x)} (l : list A) x :
  last (filter P l) = Some x <->
  exists j, l !! j = Some x ∧ P x ∧ forall j' y, j < j' -> l !! j' = Some y -> ¬ P y.
Proof.
  induction l as [|a l IH] using rev_ind.
  - split; [done | by intros (j & ? & _)].
  - rewrite filter_app, filter_cons, filter_nil. destruct (decide (P a)) as [Ha|Ha].
    + rewrite last_snoc. split.
      * intros [= ->]. exists (length l). split_and!; [by rewrite list_lookup_middle | done |].
        intros j' y Hlt Hy. apply lookup_lt_Some in Hy. rewrite length_app in Hy. simpl in Hy. lia.
      * intros (j & Hj & Hx & Hlast).
        destruct (decide (j < length l)) as [Hlt|Hge].
        -- exfalso. apply (Hlast (length l) a); [done | by rewrite list_lookup_middle | done].
        -- pose proof (lookup_lt_Some _ _ _ Hj) as Hb. rewrite length_app in Hb. simpl in Hb.
           assert (j = length l) as -> by lia.
           rewrite list_lookup_middle in Hj by done. congruence.
    + rewrite app_nil_r, IH. split.
      * intros (j & Hj & Hx & Hlast). exists j.
        split_and!; [by apply lookup_app_l_Some | done |].
        intros j' y Hlt Hy. apply lookup_app_Some in Hy as [Hy | [Hge Hy]].
        -- by eapply Hlast.
        -- apply list_lookup_singleton_Some in Hy as [_ <-]. done.
      * intros (j & Hj & Hx & Hlast).
        apply lookup_app_Some in Hj as [Hj | [Hge Hj]].
        -- exists j. split_and!; [done..|].
           intros j' y Hlt Hy. eapply Hlast; [done|]. by apply lookup_app_l_Some.
        -- apply list_lookup_singleton_Some in Hj as [_ <-]. done.
Qed.

Lemma staff_columns_matched df staff_name col :
  col ∈ staff_columns df staff_name <-> exists j, matched df staff_name j col.
Proof.
  unfold staff_columns, matched. rewrite list_elem_of_filter, list_elem_of_lookup.
  split.
  - intros [Hc [j Hj]]. by exists j.
  - intros [j [Hj Hc]]. split; [done | by exists j].
Qed.

(** The entry of a metric in the result is the distribution of the last
    matched column of that metric name. *)
Lemma calculate_likert_counts_get df staff_name skill :
  NoDup (columns df) ->
  exists counts_data,
    calculate_likert_counts df staff_name = Return counts_data ∧
    NoDup (dict_keys counts_data) ∧
    forall counts,
      dict_get counts_data skill = Some counts <->
      exists j col,
        matched df staff_name j col ∧ skill_of col = skill ∧
        (forall j' col', j < j' -> matched df staff_name j' col' -> skill_of col' ≠ skill) ∧
        counts = distribution (fun o => hits o (col_values df j)) STAFF_LIKERT_OPTIONS.
Proof.
  intros Hnd. eexists. split; [apply calculate_likert_counts_closed|].
  split; [apply dict_keys_foldl_set_NoDup, NoDup_nil_2|].
  intros counts. rewrite dict_get_foldl_set. unfold staff_columns.
  rewrite list_filter_filter.
  destruct (last _) as [col|] eqn:Hlast.
  - apply last_filter_lookup in Hlast as (j & Hj & [Hskill Hmatch] & Hlater).
    unfold iterated. rewrite (iter_getitem_unique df col j) by done.
    split.
    + intros [= <-]. exists j, col. split_and!; [done..| |done].
      intros j' col' Hlt [Hj' Hm'] Hs'. by apply (Hlater j' col').
    + intros (j2 & col2 & [Hj2 Hm2] & Hs2 & Hlater2 & ->).
      destruct (decide (j = j2)) as [->|Hne]; [done|].
      exfalso. destruct (decide (j < j2)).
      * by apply (Hlater j2 col2).
      * apply (Hlater2 j col); [lia | done | done].
  - split; [done|]. intros (j & col & [Hj Hm] & Hs & Hlater & _).
    assert (last (filter (fun x => skill_of x = skill ∧ PyStr.contains staff_name x = true)
                    (columns df)) = Some col) as Hl; [|congruence].
    apply last_filter_lookup. exists j. split_and!; [done..|].
    intros j' y Hlt Hy [Hsy Hmy]. by apply (Hlater j' y).
Qed.

(** C1 (amended): the staff response counter does not raise, and every
    matched column has an entry under its metric name.  Over a survey
    table whose column labels are pairwise distinct, the entry of a metric
    holds, for each of the five enumeration values, the number of cells of
    that metric's column whose trimmed string form equals the value, so
    the five counts add up to the number of valid cells of the column.
    Reading one more cell raises exactly the slot of the enumeration value
    its trimmed form equals, and no slot when it equals none. *)
Theorem calculate_likert_counts_tally (df : DataFrame) (staff_name : string) :
  exists counts_data,
    calculate_likert_counts df staff_name = Return counts_data ∧
    (forall j col, matched df staff_name j col ->
       is_Some (dict_get counts_data (skill_of col))) ∧
    (NoDup (columns df) ->
     forall skill counts,
       dict_get counts_data skill = Some counts ->
       exists j col,
         matched df staff_name j col ∧ skill_of col = skill ∧
         dict_keys counts = STAFF_LIKERT_OPTIONS ∧
         (forall o, o ∈ STAFF_LIKERT_OPTIONS ->
            dict_get counts o = Some (hits o (col_values df j))) ∧
         total counts = length (filter valid_response (col_values df j))) ∧
    (forall vals val,
       exists before after,
         count_values vals = Return before ∧
         count_values (vals ++ [val]) = Return after ∧
         (¬ valid_response val -> after = before) ∧
         forall o, o ∈ STAFF_LIKERT_OPTIONS ->
           dict_get after o =
             Some (default 0 (dict_get before o)
                   + if decide (trimmed val = o) then 1 else 0)).
Proof.
  eexists. split; [apply calculate_likert_counts_closed|]. split_and!.
  - intros j col Hm. rewrite dict_get_foldl_set.
    destruct (last _) eqn:Hlast; [done|]. exfalso.
    apply last_None in Hlast.
    assert (col ∈ filter (fun x => skill_of x = skill_of col) (staff_columns df staff_name))
      as Hin; [|rewrite Hlast in Hin; by apply elem_of_nil in Hin].
    apply list_elem_of_filter. split; [done|].
    apply staff_columns_matched. eauto.
  - intros Hnd skill counts Hget.
    destruct (calculate_likert_counts_get df staff_name skill Hnd)
      as (cd & Hcd & _ & Hspec).
    rewrite calculate_likert_counts_closed in Hcd. injection Hcd as <-.
    apply Hspec in Hget as (j & col & Hm & Hs & _ & ->).
    exists j, col. split_and!; [done..| apply distribution_keys | |].
    + intros o Ho. by rewrite distribution_get, decide_True.
    + by rewrite total_distribution, sum_hits_valid.
  - intros vals val. eexists _, _. rewrite !count_values_hits. split_and!; [done..| |].
    + intros Hinv. apply distribution_ext. intros o Ho. rewrite hits_snoc.
      rewrite decide_False; [lia|]. intros Heq. apply Hinv.
      unfold valid_response. by rewrite Heq.
    + intros o Ho. rewrite !distribution_get, !decide_True by done.
      by rewrite hits_snoc.
Qed.

Lemma calculate_likert_counts_tally_witness :
  NoDup (columns scenario_A) ∧
  exists counts_data,
    calculate_likert_counts scenario_A "Alice" = Return counts_data ∧
    forall skill counts,
      dict_get counts_data skill = Some counts ->
      exists j col,
        matched scenario_A "Alice" j col ∧ skill_of col = skill ∧
        total counts = length (filter valid_response (col_values scenario_A j)).
Proof.
  assert (NoDup (columns scenario_A)) as Hnd.
  { apply (bool_decide_unpack _). vm_compute. exact I. }
  split; [exact Hnd|].
  destruct (calculate_likert_counts_tally scenario_A "Alice")
    as (counts_data & Hrun & _ & Hspec & _).
  exists counts_data. split; [exact Hrun|].
  intros skill counts Hget.
  destruct (Hspec Hnd skill counts Hget) as (j & col & Hm & Hs & _ & _ & Htotal).
  exists j, col. auto.
Defined.

(** C1 as stated fails on a table in which a label is repeated: there
    [df[col]] is a sub-frame and the loop runs through its labels, so the
    valid cells of the matched column are counted under no slot and the
    counts of the metric add up to zero. *)
Lemma calculate_likert_counts_tally_counterexample :
  matched repeated_label_table "Alice" 0 "Alice - Communication" ∧
  filter valid_response (col_values repeated_label_table 0) = [CStr "Agree"] ∧
  exists counts,
    calculate_likert_counts repeated_label_table "Alice"
    = Return [("Communication", counts)] ∧
    total counts = 0.
Proof.
  split; [by split|]. split; [by vm_compute|].
  eexists. split; by vm_compute.
Qed.

(** C4 (amended): the staff response counter never raises, and when the
    subject is a substring of no column label the mapping it returns is
    empty, whatever the table.  Over a survey table whose column labels
    are pairwise distinct, when no matched column holds a valid response
    every distribution of the mapping is all-zero. *)
Theorem calculate_likert_counts_no_data (df : DataFrame) (staff_name : string) :
  exists counts_data,
    calculate_likert_counts df staff_name = Return counts_data ∧
    ((forall col, col ∈ columns df -> PyStr.contains staff_name col = false) ->
     counts_data = []) ∧
    (NoDup (columns df) ->
     (forall j col val,
        matched df staff_name j col -> val ∈ col_values df j -> ¬ valid_response val) ->
     forall skill counts,
       dict_get counts_data skill = Some counts ->
       counts = zero_counts STAFF_LIKERT_OPTIONS).
Proof.
  eexists. split; [apply calculate_likert_counts_closed|]. split.
  - intros Hno. replace (staff_columns df staff_name) with (@nil string); [done|].
    symmetry. unfold staff_columns. revert Hno. generalize (columns df).
    intros cols. induction cols as [|c cols IH]; intros Hno; [done|].
    rewrite filter_cons, decide_False.
    + apply IH. intros col Hcol. apply Hno. by right.
    + rewrite (Hno c) by left. done.
  - intros Hnd Hnone skill counts Hget.
    destruct (calculate_likert_counts_get df staff_name skill Hnd)
      as (cd & Hcd & _ & Hspec).
    rewrite calculate_likert_counts_closed in Hcd. injection Hcd as <-.
    apply Hspec in Hget as (j & col & Hm & _ & _ & ->).
    rewrite zero_counts_distribution. apply distribution_ext. intros o Ho.
    unfold hits. apply length_zero_iff_nil.
    destruct (filter _ _) as [|val rest] eqn:Hf; [done|]. exfalso.
    assert (val ∈ filter (fun val => trimmed val = o) (col_values df j)) as Hin
      by (rewrite Hf; left).
    apply list_elem_of_filter in Hin as [Hval Hin].
    apply (Hnone j col val Hm Hin). unfold valid_response. by rewrite Hval.
Qed.

Lemma calculate_likert_counts_no_data_witness :
  NoDup (columns no_data_table) ∧
  (forall j col val,
     matched no_data_table "Alice" j col -> val ∈ col_values no_data_table j ->
     ¬ valid_response val) ∧
  exists counts_data,
    calculate_likert_counts no_data_table "Alice" = Return counts_data ∧
    forall skill counts,
      dict_get counts_data skill = Some counts ->
      counts = zero_counts STAFF_LIKERT_OPTIONS.
Proof.
  assert (NoDup (columns no_data_table)) as Hnd.
  { apply (bool_decide_unpack _). vm_compute. exact I. }
  assert (forall j col val,
            matched no_data_table "Alice" j col -> val ∈ col_values no_data_table j ->
            ¬ valid_response val) as Hnone.
  { intros j col val [Hj Hm] Hval.
    destruct j as [|[|j]]; simpl in Hj; [| |discriminate].
    - apply (Forall_forall (fun v => ¬ valid_response v) (col_values no_data_table 0));
        [|exact Hval].
      apply (bool_decide_unpack _). vm_compute. exact I.
    - injection Hj as <-. vm_compute in Hm. discriminate. }
  split; [exact Hnd|]. split; [exact Hnone|].
  destruct (calculate_likert_counts_no_data no_data_table "Alice")
    as (counts_data & Hrun & _ & Hzero).
  exists counts_data. split; [exact Hrun | exact (Hzero Hnd Hnone)].
Defined.

(** C4 as stated fails on a table in which a label is repeated and is
    itself an enumeration value: the table has no row, so the subject has
    no matching data at all, yet the loop runs through the two labels and
    the mapping is neither empty nor all-zero. *)
Lemma calculate_likert_counts_no_data_counterexample :
  rows value_label_table = [] ∧
  exists counts,
    calculate_likert_counts value_label_table "Agree" = Return [("Agree", counts)] ∧
    dict_get counts "Agree" = Some 2.
Proof. split; [done|]. eexists. split; by vm_compute. Qed.



(** C10 (amended): over a survey table whose column labels are pairwise
    distinct, when two or more columns matched by the subject share a
    metric name, the returned mapping has a single entry under that name
    and it is the frequency distribution of the last such column in
    column order: the counts of the earlier ones are not in it. *)
Theorem calculate_likert_counts_last_wins (df : DataFrame) (staff_name : string)
    (j1 j2 : nat) (col1 col2 skill : string) :
  NoDup (columns df) ->
  j1 < j2 ->
  matched df staff_name j1 col1 -> skill_of col1 = skill ->
  matched df staff_name j2 col2 -> skill_of col2 = skill ->
  (forall j col, j2 < j -> matched df staff_name j col -> skill_of col ≠ skill) ->
  exists counts_data counts,
    calculate_likert_counts df staff_name = Return counts_data ∧
    NoDup (dict_keys counts_data) ∧
    dict_get counts_data skill = Some counts ∧
    count_values (col_values df j2) = Return counts ∧
    forall o, o ∈ STAFF_LIKERT_OPTIONS ->
      dict_get counts o = Some (hits o (col_values df j2)).
Proof.
  intros Hnd Hlt Hm1 Hs1 Hm2 Hs2 Hlast.
  destruct (calculate_likert_counts_get df staff_name skill Hnd)
    as (cd & Hcd & Hkeys & Hspec).
  exists cd, (distribution (fun o => hits o (col_values df j2)) STAFF_LIKERT_OPTIONS).
  split_and!; [done | done | | apply count_values_hits |].
  - apply Hspec. exists j2, col2. split_and!; done.
  - intros o Ho. by rewrite distribution_get, decide_True.
Qed.

Lemma calculate_likert_counts_last_wins_witness :
  NoDup (columns shared_metric_table) ∧
  0 < 1 ∧
  matched shared_metric_table "Alice" 0 "Alice - Term 1 - Communication" ∧
  skill_of "Alice - Term 1 - Communication" = "Communication" ∧
  matched shared_metric_table "Alice" 1 "Alice - Term 2 - Communication" ∧
  skill_of "Alice - Term 2 - Communication" = "Communication" ∧
  (forall j col, 1 < j -> matched shared_metric_table "Alice" j col ->
                 skill_of col ≠ "Communication") ∧
  exists counts_data counts,
    calculate_likert_counts shared_metric_table "Alice" = Return counts_data ∧
    NoDup (dict_keys counts_data) ∧
    dict_get counts_data "Communication" = Some counts ∧
    count_values (col_values shared_metric_table 1) = Return counts ∧
    forall o, o ∈ STAFF_LIKERT_OPTIONS ->
      dict_get counts o = Some (hits o (col_values shared_metric_table 1)).
Proof.
  assert (NoDup (columns shared_metric_table)) as Hnd.
  { apply (bool_decide_unpack _). vm_compute. exact I. }
  assert (forall j col, 1 < j -> matched shared_metric_table "Alice" j col ->
                        skill_of col ≠ "Communication") as Hlast.
  { intros j col Hlt [Hj _]. destruct j as [|[|j]]; [lia | lia | discriminate]. }
  assert (matched shared_metric_table "Alice" 0 "Alice - Term 1 - Communication") as Hm1
    by (split; reflexivity).
  assert (matched shared_metric_table "Alice" 1 "Alice - Term 2 - Communication") as Hm2
    by (split; reflexivity).
  split_and!; [exact Hnd | lia | exact Hm1 | reflexivity | exact Hm2 | reflexivity
              | exact Hlast |].
  exact (calculate_likert_counts_last_wins shared_metric_table "Alice" 0 1
           "Alice - Term 1 - Communication" "Alice - Term 2 - Communication"
           "Communication" Hnd (Nat.lt_0_1) Hm1 eq_refl Hm2 eq_refl Hlast).
Defined.

(** C10 as stated fails when the columns that share the metric name
    carry the very same label: the entry under the name is all-zero, not
    the distribution of the last column, which has one "Disagree". *)
Lemma calculate_likert_counts_last_wins_counterexample :
  matched repeated_label_table "Alice" 0 "Alice - Communication" ∧
  matched repeated_label_table "Alice" 1 "Alice - Communication" ∧
  (exists counts,
     count_values (col_values repeated_label_table 1) = Return counts ∧
     dict_get counts "Disagree" = Some 1) ∧
  calculate_likert_counts repeated_label_table "Alice"
  = Return [("Communication", zero_counts STAFF_LIKERT_OPTIONS)].
Proof.
  split; [by split|]. split; [by split|]. split; [|by vm_compute].
  eexists. split; by vm_compute.
Qed.

(** On a table where two columns carry one label, [df[col]] is a
    sub-frame and the loop runs through its labels, not through cells:
    the valid responses of both columns go uncounted. *)
Example calculate_likert_counts_colliding_labels :
  calculate_likert_counts
    (mkDataFrame ["Alice - Communication"; "Alice - Communication"]
       [[CStr "Agree"; CStr "Agree"]]) "Alice"
  = Return [("Communication", zero_counts STAFF_LIKERT_OPTIONS)].
Proof. by vm_compute. Qed.

(** * The two counting algorithms *)

Lemma value_counts_get (s : list cell) (o : string) :
  counts_get (value_counts s) o = length (filter (fun c => c = CStr o) s).
Proof.
  unfold value_counts.
  enough (forall m,
            counts_get
              (foldl (fun m c => match c with
                                 | CStr v => <[v := S (default 0 (m !! v))]> m
                                 | _ => m
                                 end) m s) o
            = counts_get m o + length (filter (fun c => c = CStr o) s)) as H.
  { rewrite H. unfold counts_get. by rewrite lookup_empty. }
  induction s as [|c s IH]; intros m; [simpl; lia|].
  cbn [foldl]. rewrite IH, filter_cons. destruct c as [v| |].
  - unfold counts_get. destruct (decide (v = o)) as [->|Hne].
    + rewrite lookup_insert_eq, decide_True by done. simpl. lia.
    + rewrite lookup_insert_ne by done. rewrite decide_False by congruence. done.
  - by rewrite decide_False.
  - by rewrite decide_False.
Qed.

Lemma options_not_missing_text o :
  o ∈ STAFF_LIKERT_OPTIONS -> o ≠ PyStr.strip "None" ∧ o ≠ PyStr.strip "nan".
Proof.
  intros Ho. split; intros ->; revert Ho; apply (bool_decide_unpack _); by vm_compute.
Qed.

(** C2 (amended): on every column whose string cells carry no leading or
    trailing whitespace, the staff variant's per-row scan and the
    fixed-questionnaire variant's value counting give the same count for
    every value of the enumeration. *)
Theorem counting_variants_agree_on_trimmed (column : list cell) :
  (forall s, CStr s ∈ column -> PyStr.strip s = s) ->
  exists counts,
    count_values column = Return counts ∧
    dict_keys counts = CAMPUS_REP_LIKERT_ORDER ∧
    forall option, option ∈ CAMPUS_REP_LIKERT_ORDER ->
      dict_get counts option = Some (counts_get (value_counts (dropna column)) option).
Proof.
  intros Htrim. eexists. split; [apply count_values_hits|].
  split; [apply distribution_keys|].
  intros o Ho. change CAMPUS_REP_LIKERT_ORDER with STAFF_LIKERT_OPTIONS in Ho.
  rewrite distribution_get, decide_True by done. f_equal.
  rewrite value_counts_get. unfold hits, dropna, trimmed.
  destruct (options_not_missing_text o Ho) as [HNone Hnan].
  clear Ho. induction column as [|c column IH]; [done|].
  assert (forall s, CStr s ∈ column -> PyStr.strip s = s) as Htrim'
    by (intros s Hs; apply Htrim; by right).
  specialize (IH Htrim').
  rewrite (filter_cons (fun val => PyStr.strip (py_str val) = o)).
  rewrite (filter_cons (fun c => isna c = false)).
  destruct c as [s| |]; cbn [py_str isna].
  - rewrite (decide_True (P := false = false)) by done.
    rewrite filter_cons. rewrite (Htrim s) by left.
    destruct (decide (s = o)) as [->|Hne].
    + rewrite decide_True by done. cbn [length]. by rewrite IH.
    + rewrite decide_False by congruence. done.
  - rewrite (decide_False (P := true = false)) by done.
    rewrite decide_False by congruence. done.
  - rewrite (decide_False (P := true = false)) by done.
    rewrite decide_False by congruence. done.
Qed.

Lemma counting_variants_agree_on_trimmed_witness :
  (forall s, CStr s ∈ [CStr "Agree"; CNone; CStr "maybe"; CStr "Agree"] -> PyStr.strip s = s) ∧
  exists counts,
    count_values [CStr "Agree"; CNone; CStr "maybe"; CStr "Agree"] = Return counts ∧
    dict_keys counts = CAMPUS_REP_LIKERT_ORDER ∧
    forall option, option ∈ CAMPUS_REP_LIKERT_ORDER ->
      dict_get counts option =
        Some (counts_get
                (value_counts (dropna [CStr "Agree"; CNone; CStr "maybe"; CStr "Agree"]))
                option).
Proof.
  assert (forall s, CStr s ∈ [CStr "Agree"; CNone; CStr "maybe"; CStr "Agree"] ->
                    PyStr.strip s = s) as Htrim.
  { intros s Hs.
    apply (Forall_forall (fun c => forall s, c = CStr s -> PyStr.strip s = s)
             [CStr "Agree"; CNone; CStr "maybe"; CStr "Agree"]) with (x := CStr s);
      [|exact Hs | reflexivity].
    repeat constructor; intros s' [= <-] || intros s' [=]; reflexivity. }
  split; [exact Htrim|].
  exact (counting_variants_agree_on_trimmed _ Htrim).
Defined.

(** C2 as stated fails: a cell with a leading blank is counted by the
    staff scan, which trims, and not by the value counting, which does
    not. *)
Lemma counting_variants_differ :
  exists counts,
    count_values [CStr " Agree"] = Return counts ∧
    dict_get counts "Agree" = Some 1 ∧
    counts_get (value_counts (dropna [CStr " Agree"])) "Agree" = 0.
Proof. eexists. split_and!; by vm_compute. Qed.

(** * Header normalisation *)

Section header_regex.
Import HeaderRegex.

Lemma isspace_not_lbracket c : PyStr.isspace c = true -> c ≠ lbracket.
Proof. intros Hc ->. by vm_compute in Hc. Qed.

(** Group 2 stops at the first closing bracket, if no line feed comes
    before it. *)
Lemma lazy_group2_form cat rest :
  PyStr.mem rbracket cat = false -> PyStr.mem newline cat = false ->
  lazy_group2 (cat +:+ String rbracket rest) = Some (cat, rest).
Proof.
  induction cat as [|c cat IH]; intros Hr Hn.
  - rewrite app_empty. cbn [lazy_group2]. by rewrite bool_decide_eq_true_2.
  - rewrite app_String. cbn [lazy_group2]. cbn [PyStr.mem] in Hr, Hn.
    apply orb_false_iff in Hr as [Hr1 Hr2]. apply orb_false_iff in Hn as [Hn1 Hn2].
    rewrite Hr1, Hn1, IH by done. done.
Qed.

Lemma lazy_group2_sound s g r :
  lazy_group2 s = Some (g, r) -> s = g +:+ String rbracket r.
Proof.
  revert g. induction s as [|c s IH]; intros g; [done|]. cbn [lazy_group2].
  destruct (bool_decide (c = rbracket)) eqn:Hc.
  - apply bool_decide_eq_true in Hc as ->. by intros [= <- <-].
  - destruct (bool_decide (c = newline)); [done|].
    destruct (lazy_group2 s) as [[g' r']|] eqn:Hs; [|done].
    intros [= <- <-]. rewrite app_String. f_equal. by apply IH.
Qed.

(** After a stretch without opening bracket, the rest of the pattern
    matches exactly when the stretch is whitespace. *)
Lemma rest_match_form pre cat rest :
  PyStr.mem lbracket pre = false ->
  PyStr.mem rbracket cat = false -> PyStr.mem newline cat = false ->
  rest_match (pre +:+ String lbracket (cat +:+ String rbracket rest)) =
    if PyStr.all_space pre then Some cat else None.
Proof.
  intros Hpre Hr Hn. induction pre as [|c pre IH].
  - rewrite app_empty. cbn [rest_match PyStr.all_space].
    rewrite bool_decide_eq_true_2 by done.
    rewrite lazy_group2_form by done. by vm_compute.
  - rewrite app_String. cbn [rest_match PyStr.all_space].
    cbn [PyStr.mem] in Hpre. apply orb_false_iff in Hpre as [Hc Hpre].
    rewrite Hc, IH by done.
    destruct (PyStr.isspace c); [|done]. by destruct (PyStr.all_space pre).
Qed.

Lemma rest_match_sound s g2 :
  rest_match s = Some g2 ->
  exists ws rest,
    PyStr.all_space ws = true ∧ s = ws +:+ String lbracket (g2 +:+ String rbracket rest).
Proof.
  induction s as [|c s IH]; [done|]. cbn [rest_match].
  assert ((if bool_decide (c = lbracket) then fst <$> lazy_group2 s else None) = Some g2 ->
          exists ws rest,
            PyStr.all_space ws = true ∧
            String c s = ws +:+ String lbracket (g2 +:+ String rbracket rest)) as Hstop.
  { destruct (bool_decide (c = lbracket)) eqn:Hc; [|done].
    apply bool_decide_eq_true in Hc as ->.
    destruct (lazy_group2 s) as [[g r]|] eqn:Hs; [|done]. intros [= <-].
    exists EmptyString, r. split; [done|]. rewrite app_empty. f_equal.
    by apply lazy_group2_sound. }
  destruct (PyStr.isspace c) eqn:Hsp; [|exact Hstop].
  destruct (rest_match s) as [g|] eqn:Hs; [|exact Hstop].
  intros [= ->]. destruct (IH eq_refl) as (ws & rest & Hws & ->).
  exists (String c ws), rest. split; [|done]. cbn [PyStr.all_space]. by rewrite Hsp.
Qed.

Lemma header_match_unfold s :
  header_match s =
    match rest_match s with
    | Some g2 => Some (EmptyString, g2)
    | None =>
        match s with
        | EmptyString => None
        | String c s' =>
            if bool_decide (c = newline) then None
            else match header_match s' with
                 | Some (g1, g2) => Some (String c g1, g2)
                 | None => None
                 end
        end
    end.
Proof. by destruct s. Qed.

(** A name without opening bracket or line feed, whitespace, and a
    bracketed category without closing bracket or line feed: group 1 is
    the name up to trailing whitespace, group 2 the category. *)
Lemma header_match_form name ws cat rest :
  PyStr.mem lbracket name = false -> PyStr.mem newline name = false ->
  PyStr.all_space ws = true ->
  PyStr.mem rbracket cat = false -> PyStr.mem newline cat = false ->
  exists g1 w,
    header_match (name +:+ ws +:+ String lbracket (cat +:+ String rbracket rest))
      = Some (g1, cat) ∧
    PyStr.all_space w = true ∧ g1 +:+ w = name +:+ ws.
Proof.
  intros Hb Hn Hws Hr Hcn. induction name as [|c name IH].
  - exists EmptyString, ws. rewrite !app_empty.
    assert (rest_match (ws +:+ String lbracket (cat +:+ String rbracket rest)) = Some cat)
      as Hrest.
    { rewrite rest_match_form; [by rewrite Hws | | done | done].
      clear -Hws. induction ws as [|x ws IH]; [done|].
      cbn [PyStr.all_space] in Hws. apply andb_true_iff in Hws as [Hx Hws].
      cbn [PyStr.mem]. rewrite IH by done.
      rewrite bool_decide_eq_false_2; [done | by apply isspace_not_lbracket]. }
    by rewrite header_match_unfold, Hrest.
  - cbn [PyStr.mem] in Hb, Hn.
    apply orb_false_iff in Hb as [Hb1 Hb]. apply orb_false_iff in Hn as [Hn1 Hn].
    destruct (IH Hb Hn) as (g1 & w & Hm & Hw & Hg).
    rewrite header_match_unfold.
    rewrite <-(app_assoc_string (String c name) ws).
    rewrite rest_match_form; [| |done|done].
    + destruct (PyStr.all_space (String c name +:+ ws)) eqn:Hall.
      * exists EmptyString, (String c name +:+ ws). by rewrite app_empty.
      * rewrite app_assoc_string, app_String, Hn1, Hm.
        exists (String c g1), w. split_and!; [done | done |].
        rewrite !app_String. by rewrite Hg.
    + rewrite mem_app. cbn [PyStr.mem]. rewrite Hb1, Hb. simpl.
      clear -Hws. induction ws as [|x ws IH]; [done|].
      cbn [PyStr.all_space] in Hws. apply andb_true_iff in Hws as [Hx Hws].
      cbn [PyStr.mem]. rewrite IH by done.
      rewrite bool_decide_eq_false_2; [done | by apply isspace_not_lbracket].
Qed.

(** Whatever the pattern matches has the bracketed shape. *)
Lemma header_match_sound s g1 g2 :
  header_match s = Some (g1, g2) ->
  exists ws rest,
    PyStr.all_space ws = true ∧
    s = g1 +:+ ws +:+ String lbracket (g2 +:+ String rbracket rest).
Proof.
  revert g1. induction s as [|c s IH]; intros g1.
  - cbn [header_match rest_match]. done.
  - cbn [header_match]. destruct (rest_match (String c s)) as [g|] eqn:Hrest.
    + intros [= <- <-].
      destruct (rest_match_sound _ _ Hrest) as (ws & rest & Hws & Hs).
      exists ws, rest. by rewrite app_empty.
    + destruct (bool_decide (c = newline)); [done|].
      destruct (header_match s) as [[g1' g2']|] eqn:Hs; [|done].
      intros [= <- <-]. destruct (IH g1' eq_refl) as (ws & rest & Hws & ->).
      exists ws, rest. by rewrite app_String.
Qed.
End header_regex.

Lemma mem_here c a b : PyStr.mem c (a +:+ String c b) = true.
Proof.
  rewrite mem_app. cbn [PyStr.mem]. rewrite bool_decide_eq_true_2 by done.
  by rewrite orb_true_r.
Qed.

Lemma clean_label_form name ws category rest :
  PyStr.mem "["%char name = false -> PyStr.mem HeaderRegex.newline name = false ->
  PyStr.all_space ws = true ->
  PyStr.mem "]"%char category = false -> PyStr.mem HeaderRegex.newline category = false ->
  clean_label (name +:+ ws +:+ "[" +:+ category +:+ "]" +:+ rest) =
    PyStr.strip name +:+ " - " +:+ PyStr.strip category.
Proof.
  intros Hb Hn Hws Hr Hcn.
  change (name +:+ ws +:+ "[" +:+ category +:+ "]" +:+ rest)
    with (name +:+ ws +:+ String HeaderRegex.lbracket
            (category +:+ String HeaderRegex.rbracket rest)).
  destruct (header_match_form name ws category rest Hb Hn Hws Hr Hcn)
    as (g1 & w & Hm & Hw & Hg).
  unfold clean_label. rewrite Hm.
  rewrite <-(app_assoc_string name ws) at 1. rewrite mem_here.
  replace (name +:+ ws +:+ String HeaderRegex.lbracket
             (category +:+ String HeaderRegex.rbracket rest))
    with ((name +:+ ws +:+ String HeaderRegex.lbracket category)
            +:+ String HeaderRegex.rbracket rest)
    by (by rewrite !app_assoc_string).
  rewrite mem_here. cbn [andb].
  rewrite <-(strip_app_space g1 w Hw), Hg. by rewrite strip_app_space.
Qed.

Lemma clean_label_no_bracket label :
  PyStr.mem "["%char label = false ∨ PyStr.mem "]"%char label = false ->
  clean_label label = label.
Proof.
  unfold clean_label. change HeaderRegex.lbracket with "["%char.
  change HeaderRegex.rbracket with "]"%char.
  intros [-> | ->]; [done|]. by rewrite andb_false_r.
Qed.

Lemma clean_label_cases label :
  clean_label label = label ∨
  exists g1 ws g2 rest,
    PyStr.all_space ws = true ∧
    label = g1 +:+ ws +:+ "[" +:+ g2 +:+ "]" +:+ rest ∧
    clean_label label = PyStr.strip g1 +:+ " - " +:+ PyStr.strip g2.
Proof.
  unfold clean_label.
  destruct (PyStr.mem _ label && PyStr.mem _ label); [|by left].
  destruct (HeaderRegex.header_match label) as [[g1 g2]|] eqn:Hm; [|by left].
  right. destruct (header_match_sound _ _ _ Hm) as (ws & rest & Hws & ->).
  by exists g1, ws, g2, rest.
Qed.

(** C3 (amended): header normalisation returns the labels in the same
    number and order, each rewritten on its own, and leaves the rows as
    they are.  A label that begins with a name (no opening bracket, no
    line feed), optional whitespace and a bracketed category (no closing
    bracket, no line feed) is rewritten to the trimmed name, " - " and
    the trimmed category, whatever follows the closing bracket.  A label
    lacking an opening or a closing bracket passes through unchanged, and
    a label that is changed at all has the bracketed shape. *)
Theorem clean_column_names_spec (df : DataFrame) :
  length (columns (clean_column_names df)) = length (columns df) ∧
  rows (clean_column_names df) = rows df ∧
  (forall i label,
     columns df !! i = Some label ->
     columns (clean_column_names df) !! i = Some (clean_label label)) ∧
  (forall name ws category rest,
     PyStr.mem "["%char name = false -> PyStr.mem HeaderRegex.newline name = false ->
     PyStr.all_space ws = true ->
     PyStr.mem "]"%char category = false ->
     PyStr.mem HeaderRegex.newline category = false ->
     clean_label (name +:+ ws +:+ "[" +:+ category +:+ "]" +:+ rest) =
       PyStr.strip name +:+ " - " +:+ PyStr.strip category) ∧
  (forall label,
     PyStr.mem "["%char label = false ∨ PyStr.mem "]"%char label = false ->
     clean_label label = label) ∧
  (forall label,
     clean_label label = label ∨
     exists g1 ws g2 rest,
       PyStr.all_space ws = true ∧
       label = g1 +:+ ws +:+ "[" +:+ g2 +:+ "]" +:+ rest ∧
       clean_label label = PyStr.strip g1 +:+ " - " +:+ PyStr.strip g2).
Proof.
  split_and!.
  - unfold clean_column_names. cbn [columns]. apply length_fmap.
  - done.
  - intros i label Hi. unfold clean_column_names. cbn [columns].
    by rewrite list_lookup_fmap, Hi.
  - apply clean_label_form.
  - apply clean_label_no_bracket.
  - apply clean_label_cases.
Qed.

Lemma last_char_app a b :
  last_char (a +:+ b) =
    match last_char b with Some c => Some c | None => last_char a end.
Proof.
  induction a as [|x a IH]; [rewrite app_empty; by destruct (last_char b)|].
  rewrite app_String. cbn [last_char]. rewrite IH. by destruct (last_char b).
Qed.

Lemma last_char_all_space w c :
  PyStr.all_space w = true -> last_char w = Some c -> PyStr.isspace c = true.
Proof.
  revert c. induction w as [|x w IH]; intros c; [done|].
  cbn [PyStr.all_space last_char]. intros [Hx Hw]%andb_true_iff.
  destruct (last_char w) as [c'|]; intros [= <-]; [by apply IH | done].
Qed.

(** C3 as stated fails on both sides.  A label of the described form
    whose name runs over two lines is left as it is; and a label that is
    not of the form, for the text after its bracket, is rewritten and
    loses that text. *)
Lemma clean_label_counterexample :
  (bracketed_form two_line_label
     ("Alice" +:+ String HeaderRegex.newline "Smith ") "Communication" ∧
   clean_label two_line_label = two_line_label ∧
   clean_label two_line_label ≠
     PyStr.strip ("Alice" +:+ String HeaderRegex.newline "Smith ")
       +:+ " - " +:+ PyStr.strip "Communication") ∧
  ((forall name category, ¬ bracketed_form annotated_label name category) ∧
   clean_label annotated_label = "Alice - Communication" ∧
   clean_label annotated_label ≠ annotated_label).
Proof.
  split; split_and!.
  - exists EmptyString. split; reflexivity.
  - by vm_compute.
  - by vm_compute.
  - intros name category (w & Hw & Hlabel).
    assert (last_char annotated_label = Some ")"%char) as Hlast by reflexivity.
    rewrite Hlabel in Hlast.
    change (name +:+ "[" +:+ category +:+ "]" +:+ w)
      with (name +:+ "[" +:+ category +:+ (String "]" EmptyString +:+ w)) in Hlast.
    rewrite !last_char_app in Hlast.
    destruct (last_char w) as [c|] eqn:Hc.
    + injection Hlast as ->. apply last_char_all_space in Hc; [|done]. by vm_compute in Hc.
    + by vm_compute in Hlast.
  - by vm_compute.
  - by vm_compute.
Qed.

(** * The chart *)

Lemma map_try_pure {A B} (f : A -> outcome B) (g : A -> B) (xs : list A) :
  (forall x, x ∈ xs -> f x = Return (g x)) -> map_try f xs = Return (g <$> xs).
Proof.
  induction xs as [|x xs IH]; intros Hf; [done|].
  cbn [map_try]. rewrite Hf by left. cbn [obind].
  rewrite IH by (intros y Hy; apply Hf; by right). done.
Qed.

Lemma dict_get_elem_keys {V} (d : pydict V) k :
  k ∈ dict_keys d -> exists v, dict_get d k = Some v ∧ (k, v) ∈ d.
Proof.
  intros Hk. destruct (dict_get d k) as [v|] eqn:Hget.
  - exists v. split; [done | by apply dict_get_Some_elem].
  - by apply dict_get_None in Hget.
Qed.

Lemma chart_heights counts_data o :
  counts_mapping counts_data -> o ∈ STAFF_LIKERT_OPTIONS ->
  map_try (fun skill => try d <- dict_getitem counts_data skill; dict_getitem d o)
    (dict_keys counts_data)
  = Return (heights_of counts_data o).
Proof.
  intros Hcd Ho. apply map_try_pure. intros skill Hskill.
  destruct (dict_get_elem_keys _ _ Hskill) as (d & Hget & Hin).
  unfold dict_getitem at 1. rewrite Hget. cbn [obind mbind option_bind].
  unfold counts_mapping in Hcd. rewrite Forall_forall in Hcd.
  specialize (Hcd _ Hin). rewrite Forall_forall in Hcd.
  destruct (Hcd o Ho) as [n Hn]. simpl in Hn.
  unfold dict_getitem. by rewrite Hn.
Qed.

(** On a counts mapping the renderer does not raise, and makes one call to
    [ax.bar] per enumeration value, in enumeration order. *)
Lemma create_clustered_bar_chart_staff_closed counts_data staff_name :
  counts_mapping counts_data ->
  create_clustered_bar_chart_staff counts_data staff_name =
    Return
      (mkChart
         (imap
            (fun i o =>
               mkBars (cluster_positions (arange (length counts_data)) i 5 (15 # 100))
                 (heights_of counts_data o) (15 # 100)
                 (default "" (dict_get STAFF_COLORS o)) o)
            STAFF_LIKERT_OPTIONS)
         (staff_name +:+ " - Likert Scale Response Distribution")).
Proof.
  intros Hcd. unfold create_clustered_bar_chart_staff.
  rewrite (map_try_pure _
             (fun io : nat * string =>
                mkBars (cluster_positions (arange (length counts_data)) io.1 5 (15 # 100))
                  (heights_of counts_data io.2) (15 # 100)
                  (default "" (dict_get STAFF_COLORS io.2)) io.2)).
  - cbn [obind]. done.
  - intros [i o] Hio.
    assert (o ∈ STAFF_LIKERT_OPTIONS) as Ho.
    { unfold enumerate in Hio. apply list_elem_of_lookup in Hio as [k Hk].
      rewrite list_lookup_imap in Hk.
      destruct (STAFF_LIKERT_OPTIONS !! k) as [o'|] eqn:Ho'; [|done].
      injection Hk as <- <-. by eapply list_elem_of_lookup_2. }
    rewrite chart_heights by done. cbn [obind fst snd].
    unfold dict_keys. rewrite length_fmap.
    clear Hio. unfold STAFF_LIKERT_OPTIONS in Ho.
    repeat (apply elem_of_cons in Ho as [-> | Ho]); [reflexivity..|].
    by apply elem_of_nil in Ho.
Qed.

Lemma arange_lookup n j : j < n -> arange n !! j = Some (Q_of_nat j).
Proof.
  intros Hj. unfold arange. rewrite list_lookup_fmap, lookup_seq_lt by done. done.
Qed.

Lemma Q_of_nat_lt i i' : i < i' -> (Q_of_nat i < Q_of_nat i')%Q.
Proof. intros Hlt. unfold Q_of_nat. rewrite <-Zlt_Qlt. lia. Qed.

(** C6: on every counts mapping the renderer draws, for the enumeration
    value of index [i], one series of bars of fixed width 0.15 whose bar in
    the cluster of metric [j] stands at [j + i*w - (5/2)*w + w/2] and whose
    height there is the count of that value for that metric; the series
    follow the enumeration order and carry the fixed colours green, light
    green, yellow, orange, red; so within a cluster the bars stand left to
    right in enumeration order, whatever the data.  (Positions are taken
    over the rationals.) *)
Theorem create_clustered_bar_chart_staff_layout
    (counts_data : pydict (pydict nat)) (staff_name : string) :
  counts_mapping counts_data ->
  exists ch,
    create_clustered_bar_chart_staff counts_data staff_name = Return ch ∧
    bar_label <$> chart_bars ch =
      ["Strongly Agree"; "Agree"; "Neutral"; "Disagree"; "Strongly Disagree"] ∧
    bar_color <$> chart_bars ch =
      ["#1a9641"; "#a6d96a"; "#ffff42"; "#fdae61"; "#d7191c"] ∧
    (forall i b,
       chart_bars ch !! i = Some b ->
       (bar_width b == 15 # 100)%Q ∧
       length (bar_positions b) = length counts_data ∧
       (forall j, j < length counts_data ->
          exists p,
            bar_positions b !! j = Some p ∧
            (p == Q_of_nat j + Q_of_nat i * (15 # 100) - (5 # 2) * (15 # 100)
                  + (15 # 100) / 2)%Q) ∧
       (forall o, STAFF_LIKERT_OPTIONS !! i = Some o ->
          bar_heights b = heights_of counts_data o)) ∧
    (forall i i' b b' j p p',
       i < i' ->
       chart_bars ch !! i = Some b -> chart_bars ch !! i' = Some b' ->
       bar_positions b !! j = Some p -> bar_positions b' !! j = Some p' ->
       (p < p')%Q).
Proof.
  intros Hcd. eexists. split; [by apply create_clustered_bar_chart_staff_closed|].
  cbn [chart_bars]. split_and!.
  - reflexivity.
  - reflexivity.
  - intros i b Hb. rewrite list_lookup_imap in Hb.
    destruct (STAFF_LIKERT_OPTIONS !! i) as [o|] eqn:Ho; [|done].
    injection Hb as <-. cbn [bar_width bar_positions bar_heights]. split_and!.
    + reflexivity.
    + unfold cluster_positions, arange. by rewrite !length_fmap, length_seq.
    + intros j Hj. eexists. split.
      * unfold cluster_positions. by rewrite list_lookup_fmap, arange_lookup.
      * reflexivity.
    + by intros o' [= <-].
  - intros i i' b b' j p p' Hlt Hb Hb' Hp Hp'.
    rewrite list_lookup_imap in Hb, Hb'.
    destruct (STAFF_LIKERT_OPTIONS !! i) as [o|]; [|done].
    destruct (STAFF_LIKERT_OPTIONS !! i') as [o'|]; [|done].
    injection Hb as <-. injection Hb' as <-. cbn [bar_positions] in Hp, Hp'.
    unfold cluster_positions in Hp, Hp'. rewrite list_lookup_fmap in Hp, Hp'.
    destruct (arange (length counts_data) !! j) as [x|]; [|done].
    injection Hp as <-. injection Hp' as <-.
    pose proof (Q_of_nat_lt i i' Hlt) as Hq. lra.
Qed.

Lemma create_clustered_bar_chart_staff_layout_witness :
  counts_mapping scenario_A_counts ∧
  exists ch,
    create_clustered_bar_chart_staff scenario_A_counts "Alice" = Return ch ∧
    bar_label <$> chart_bars ch =
      ["Strongly Agree"; "Agree"; "Neutral"; "Disagree"; "Strongly Disagree"] ∧
    bar_color <$> chart_bars ch =
      ["#1a9641"; "#a6d96a"; "#ffff42"; "#fdae61"; "#d7191c"].
Proof.
  assert (counts_mapping scenario_A_counts) as Hcd.
  { apply (bool_decide_unpack _). vm_compute. exact I. }
  split; [exact Hcd|].
  destruct (create_clustered_bar_chart_staff_layout scenario_A_counts "Alice" Hcd)
    as (ch & Hrun & Hlabels & Hcolors & _).
  exists ch. auto.
Defined.

(** * Ingestion *)

Lemma occ_snoc h seen x :
  occ h (seen ++ [x]) = occ h seen + (if decide (x = h) then 1 else 0).
Proof.
  unfold occ. rewrite filter_app, length_app, filter_cons, filter_nil.
  by destruct (decide (x = h)).
Qed.

Lemma occ_app h l1 l2 : occ h (l1 ++ l2) = occ h l1 + occ h l2.
Proof. unfold occ. by rewrite filter_app, length_app. Qed.

Lemma unique_step_spec header_count unique_headers seen h :
  counts_seen header_count seen ->
  exists header_count',
    unique_step (header_count, unique_headers) h =
      (header_count', unique_headers ++ [occurrence_label h (occ h seen)]) ∧
    counts_seen header_count' (seen ++ [h]).
Proof.
  intros Hseen. unfold unique_step. rewrite (Hseen h).
  destruct (occ h seen) as [|n] eqn:Hocc.
  - eexists. split; [done|]. intros h'. rewrite occ_snoc.
    destruct (decide (h = h')) as [<-|Hne].
    + by rewrite lookup_insert_eq, Hocc.
    + rewrite lookup_insert_ne, Nat.add_0_r by done. apply Hseen.
  - eexists. split.
    { cbn [occurrence_label]. by rewrite Nat.add_1_r. }
    intros h'. rewrite occ_snoc.
    destruct (decide (h = h')) as [<-|Hne].
    + rewrite lookup_insert_eq, Hocc. simpl. f_equal. lia.
    + rewrite lookup_insert_ne, Nat.add_0_r by done. apply Hseen.
Qed.

Lemma foldl_unique_step header_count unique_headers seen headers :
  counts_seen header_count seen ->
  (foldl unique_step (header_count, unique_headers) headers).2 =
    unique_headers
    ++ imap (fun i h => occurrence_label h (occ h (seen ++ take i headers))) headers.
Proof.
  revert header_count unique_headers seen.
  induction headers as [|h headers IH]; intros hc uh seen Hseen.
  - by rewrite app_nil_r.
  - cbn [foldl]. destruct (unique_step_spec hc uh seen h Hseen) as (hc' & -> & Hseen').
    rewrite (IH _ _ _ Hseen'). rewrite <-app_assoc. f_equal.
    cbn [imap app]. rewrite take_0, app_nil_r. f_equal.
    apply imap_ext. intros i x Hx. cbn [take]. by rewrite <-app_assoc.
Qed.

(** The labels [get_data] gives to the raw headers, position by position. *)
Lemma unique_headers_closed headers :
  unique_headers headers =
    imap (fun i h => occurrence_label h (occ h (take i headers))) headers.
Proof.
  unfold unique_headers. rewrite (foldl_unique_step ∅ [] []); [done|].
  intros h. by rewrite lookup_empty.
Qed.

Lemma of_nat_no_underscore n : PyStr.mem "_"%char (PyStr.of_nat n) = false.
Proof.
  unfold PyStr.of_nat, pretty, pretty_nat, pretty, pretty_N.
  destruct (decide (N.of_nat n = 0)%N); [done|].
  generalize (N.of_nat n). clear. intros x.
  enough (forall s, PyStr.mem "_"%char s = false ->
                    PyStr.mem "_"%char (pretty_N_go x s) = false) as H by (by apply H).
  induction (N.lt_wf_0 x) as [x _ IH]. intros s Hs.
  destruct (decide (0 < x)%N) as [Hx|Hx].
  - rewrite pretty_N_go_step by done. apply IH; [by apply N.div_lt|].
    cbn [PyStr.mem]. rewrite Hs, orb_false_r. apply bool_decide_eq_false_2.
    unfold pretty_N_char. by repeat case_match.
  - assert (x = 0%N) as -> by lia. by rewrite pretty_N_go_0.
Qed.

(** A text is split in one way only at its last underscore. *)
Lemma underscore_split a b d e :
  PyStr.mem "_"%char d = false -> PyStr.mem "_"%char e = false ->
  a +:+ String "_"%char d = b +:+ String "_"%char e -> a = b ∧ d = e.
Proof.
  intros Hd He. revert b. induction a as [|x a IH]; intros [|y b].
  - rewrite (app_empty (String _ d)), (app_empty (String _ e)). by intros [= ->].
  - rewrite (app_empty (String _ d)), app_String. intros [= <- ->].
    by rewrite mem_here in Hd.
  - rewrite (app_empty (String _ e)), app_String. intros [= -> <-].
    by rewrite mem_here in He.
  - rewrite !app_String. intros [= -> Heq]. destruct (IH _ Heq) as [-> ->]. done.
Qed.

Lemma occurrence_label_inj (headers : list string) h k h' k' :
  (forall h n, h ∈ headers -> h +:+ "_" +:+ PyStr.of_nat (S n) ∉ headers) ->
  h ∈ headers -> h' ∈ headers ->
  occurrence_label h k = occurrence_label h' k' -> h = h' ∧ k = k'.
Proof.
  intros Hfresh Hh Hh'. destruct k as [|n], k' as [|m]; cbn [occurrence_label].
  - done.
  - intros ->. by destruct (Hfresh h' m Hh').
  - intros <-. by destruct (Hfresh h n Hh).
  - intros Heq.
    change (h +:+ String "_"%char (PyStr.of_nat (S n))
            = h' +:+ String "_"%char (PyStr.of_nat (S m))) in Heq.
    apply underscore_split in Heq as [-> Heq]; [|apply of_nat_no_underscore..].
    split; [done|]. unfold PyStr.of_nat in Heq. by apply (inj pretty) in Heq.
Qed.

Lemma unique_headers_NoDup headers :
  (forall h n, h ∈ headers -> h +:+ "_" +:+ PyStr.of_nat (S n) ∉ headers) ->
  NoDup (unique_headers headers).
Proof.
  intros Hfresh. rewrite unique_headers_closed. apply NoDup_alt.
  enough (forall i j x,
            i < j ->
            imap (fun i h => occurrence_label h (occ h (take i headers))) headers !! i = Some x ->
            imap (fun i h => occurrence_label h (occ h (take i headers))) headers !! j = Some x ->
            False) as Hlt.
  { intros i j x Hi Hj. destruct (decide (i = j)) as [|Hne]; [done|]. exfalso.
    destruct (decide (i < j)); [by eapply (Hlt i j) | eapply (Hlt j i); [lia|done..]]. }
  intros i j x Hlt Hi Hj. rewrite list_lookup_imap in Hi, Hj.
  destruct (headers !! i) as [h|] eqn:Hhi; [|done].
  destruct (headers !! j) as [h'|] eqn:Hhj; [|done].
  injection Hi as <-. injection Hj as Hj.
  apply (occurrence_label_inj headers) in Hj as [-> Hocc];
    [|done | by eapply list_elem_of_lookup_2 | by eapply list_elem_of_lookup_2].
  assert (occ h (take i headers) < occ h (take j headers)); [|lia].
  rewrite <-(take_drop_middle headers i h Hhi) at 2.
  rewrite take_app_ge by (rewrite length_take; lia).
  rewrite occ_app. rewrite length_take_le by (apply lookup_lt_Some in Hhi; lia).
  replace (j - i) with (S (j - i - 1)) by lia. cbn [take].
  change (h :: take (j - i - 1) (drop (S i) headers))
    with ([h] ++ take (j - i - 1) (drop (S i) headers)).
  rewrite occ_app. unfold occ at 3. rewrite filter_cons, decide_True by done. simpl. lia.
Qed.

(** C8 (amended): on the ingestion path of the fixed-questionnaire
    variant, when the grid is rectangular and no raw header is another
    raw header followed by an underscore and a positive number, the table
    is built, the first occurrence of a raw header keeps it as label, its
    n-th repeat is labelled with the header suffixed by [_n], and no two
    columns carry the same label. *)
Theorem get_data_unique_headers (headers : list string) (body : list (list string)) :
  (forall h n, h ∈ headers -> h +:+ "_" +:+ PyStr.of_nat (S n) ∉ headers) ->
  body = [] ∨ max_list (length <$> body) = length headers ->
  exists df,
    get_data (headers :: body) = Return df ∧
    length (columns df) = length headers ∧
    (forall i h,
       headers !! i = Some h ->
       columns df !! i = Some (occurrence_label h (occ h (take i headers)))) ∧
    NoDup (columns df).
Proof.
  intros Hfresh Hrect.
  assert (length (unique_headers headers) = length headers) as Hlen
    by (by rewrite unique_headers_closed, length_imap).
  assert (exists rows, get_data (headers :: body)
                       = Return (mkDataFrame (unique_headers headers) rows)) as [rs Hrun].
  { cbn [get_data]. unfold DataFrame_of_rows. destruct body as [|r body]; [by eexists|].
    destruct Hrect as [?|Hrect]; [done|]. rewrite Hlen, decide_True by done. by eexists. }
  eexists. split; [exact Hrun|]. cbn [columns]. split_and!.
  - done.
  - intros i h Hi. by rewrite unique_headers_closed, list_lookup_imap, Hi.
  - by apply unique_headers_NoDup.
Qed.

Lemma get_data_unique_headers_witness :
  (forall h n,
     h ∈ ["Name"; "Score"; "Score"; "Name"; "Score"] ->
     h +:+ "_" +:+ PyStr.of_nat (S n) ∉ ["Name"; "Score"; "Score"; "Name"; "Score"]) ∧
  ([["a"; "1"; "2"; "b"; "3"]] = [] ∨
   max_list (length <$> [["a"; "1"; "2"; "b"; "3"]])
   = length ["Name"; "Score"; "Score"; "Name"; "Score"]) ∧
  exists df,
    get_data (["Name"; "Score"; "Score"; "Name"; "Score"] :: [["a"; "1"; "2"; "b"; "3"]])
      = Return df ∧
    columns df = ["Name"; "Score"; "Score_1"; "Name_1"; "Score_2"] ∧
    NoDup (columns df).
Proof.
  assert (forall h n,
            h ∈ ["Name"; "Score"; "Score"; "Name"; "Score"] ->
            h +:+ "_" +:+ PyStr.of_nat (S n) ∉ ["Name"; "Score"; "Score"; "Name"; "Score"])
    as Hfresh.
  { intros h n _ Hin.
    assert (PyStr.mem "_"%char (h +:+ String "_"%char (PyStr.of_nat (S n))) = true) as Hmem
      by apply mem_here.
    assert (Forall (fun x => PyStr.mem "_"%char x = false)
              ["Name"; "Score"; "Score"; "Name"; "Score"]) as Hall
      by (repeat constructor).
    rewrite Forall_forall in Hall. specialize (Hall _ Hin).
    change (h +:+ "_" +:+ PyStr.of_nat (S n))
      with (h +:+ String "_"%char (PyStr.of_nat (S n))) in Hall.
    congruence. }
  assert ([["a"; "1"; "2"; "b"; "3"]] = [] ∨
          max_list (length <$> [["a"; "1"; "2"; "b"; "3"]])
          = length ["Name"; "Score"; "Score"; "Name"; "Score"]) as Hrect
    by (right; reflexivity).
  split; [exact Hfresh|]. split; [exact Hrect|].
  destruct (get_data_unique_headers _ _ Hfresh Hrect) as (df & Hrun & _ & _ & Hnd).
  exists df. split; [exact Hrun|]. split; [|exact Hnd].
  vm_compute in Hrun. by injection Hrun as <-.
Defined.

(** C8 as stated fails on the staff path, which does not disambiguate:
    a header row that repeats a header gives two columns of one label. *)
Lemma staff_table_colliding_labels :
  exists df,
    staff_table repeated_header_grid = Return (Some df) ∧
    columns df = ["Alice - Communication"; "Alice - Communication"] ∧
    ¬ NoDup (columns df).
Proof.
  eexists. split; [by vm_compute|]. split; [done|].
  cbn [columns]. intros [Hnin _]%NoDup_cons. apply Hnin. left.
Qed.

(** On the fixed-questionnaire path the suffixed label of a repeat can
    itself be a raw header met later. *)
Example unique_headers_suffix_collision :
  unique_headers ["a"; "a"; "a_1"] = ["a"; "a_1"; "a_1"].
Proof. by vm_compute. Qed.

(** * The campus-rep report *)

Lemma ensure_dir_files folder w :
  exists w0,
    ensure_dir folder w = (w0, Return tt) ∧
    fs_files w0 = fs_files w ∧ ui_log w0 = ui_log w.
Proof.
  unfold ensure_dir. destruct (bool_decide (folder ∈ fs_dirs w)); by eexists.
Qed.

Lemma savefig_returns texts fig r : savefig texts fig = Return r -> r = fig.
Proof. unfold savefig. destruct (filter _ texts); [by intros [= <-] | done]. Qed.

Lemma docx_text_returns text r : docx_text text = Return r -> r = text.
Proof. unfold docx_text. destruct (all_chars xml_char text); [by intros [= <-] | done]. Qed.


(** Saving either writes the file or raises and leaves the world as it
    was. *)
Lemma doc_save_cases path doc w :
  doc_save path doc w
  = (mkWorld (fs_dirs w) (dict_set path doc (fs_files w)) (ui_log w), Return tt) ∨
  doc_save path doc w = (w, Raise (FileNotFoundError path)).
Proof. unfold doc_save. destruct (dir_exists _ _); [by left | by right]. Qed.



(** The comments section holds one bullet per cell that is not missing,
    and the placeholder when every cell is missing. *)
Lemma comments_section_dropna column :
  comments_section (dropna column) =
    if decide (Forall (fun c => isna c = true) column)
    then [Paragraph "No comments available." None false]
    else (fun c => Paragraph (py_str c) (Some "List Bullet") false) <$> dropna column.
Proof.
  unfold comments_section, dropna.
  destruct (filter _ column) as [|c cs] eqn:Hf.
  - rewrite decide_True; [done|]. apply Forall_forall. intros c Hc.
    destruct (isna c) eqn:Hna; [done|].
    assert (c ∈ filter (fun c => isna c = false) column) as Hin
      by (by apply list_elem_of_filter).
    rewrite Hf in Hin. by apply elem_of_nil in Hin.
  - rewrite decide_False; [done|]. intros Hall. rewrite Forall_forall in Hall.
    assert (c ∈ filter (fun c => isna c = false) column) as Hin by (rewrite Hf; left).
    apply list_elem_of_filter in Hin as [Hna Hin]. rewrite (Hall c Hin) in Hna. done.
Qed.

(** C9 fails on the code: for a subject whose only comment cell is blank,
    the report is written and its Comments section is one bulleted item of
    empty text; the placeholder line is not there. *)
Theorem generate_docx_report_blank_comment :
  exists df w' path doc,
    get_data blank_comment_grid = Return df ∧
    generate_docx_report df "Jordan" "reports" empty_world
      = (w', Return (Some path)) ∧
    dict_get (fs_files w') path = Some doc ∧
    drop 6 doc = [Paragraph "" (Some "List Bullet") false] ∧
    Paragraph "No comments available." None false ∉ doc.
Proof.
  eexists _, _, _, _. split; [by vm_compute|]. split; [by vm_compute|].
  split; [by vm_compute|]. split; [by vm_compute|].
  intros Hin. repeat (apply elem_of_cons in Hin as [[=]|Hin]).
  by apply elem_of_nil in Hin.
Qed.

(** * The staff pipeline end to end *)

Lemma dict_set_Forall_values {V} (Q : V -> Prop) (d : pydict V) k v :
  Forall (fun entry => Q entry.2) d -> Q v -> Forall (fun entry => Q entry.2) (dict_set k v d).
Proof.
  intros Hd Hv. induction Hd as [|[k0 v0] d H0 Hd IH].
  - by constructor.
  - cbn [dict_set]. destruct (decide (k0 = k)); constructor; done.
Qed.

(** What the response counter returns is a counts mapping, so the chart
    renderer does not raise on it. *)
Lemma calculate_likert_counts_counts_mapping df staff_name counts_data :
  calculate_likert_counts df staff_name = Return counts_data ->
  counts_mapping counts_data.
Proof.
  rewrite calculate_likert_counts_closed. intros [= <-]. unfold counts_mapping.
  generalize (staff_columns df staff_name). intros cols.
  enough (forall d : pydict (pydict nat),
            Forall (fun entry =>
                      Forall (fun o => is_Some (dict_get entry.2 o)) STAFF_LIKERT_OPTIONS) d ->
            Forall (fun entry =>
                      Forall (fun o => is_Some (dict_get entry.2 o)) STAFF_LIKERT_OPTIONS)
              (foldl (fun counts_data col =>
                        dict_set (skill_of col)
                          (distribution (fun o => hits o (iterated df col))
                             STAFF_LIKERT_OPTIONS) counts_data) d cols)) as H
    by (apply H; constructor).
  induction cols as [|col cols IH]; intros d Hd; [done|].
  cbn [foldl]. apply IH.
  apply (dict_set_Forall_values
           (fun counts => Forall (fun o => is_Some (dict_get counts o)) STAFF_LIKERT_OPTIONS));
    [done|].
  apply Forall_forall. intros o Ho. by rewrite distribution_get, decide_True.
Qed.

(** Scenario A of the specification: the raw labels are normalised and
    the Communication column is counted. *)
Example scenario_A_end_to_end :
  staff_table scenario_A_grid = Return (Some scenario_A) ∧
  calculate_likert_counts scenario_A "Alice" = Return scenario_A_counts.
Proof. split; by vm_compute. Qed.

Example clean_label_examples :
  clean_label "Alice [Communication]" = "Alice - Communication" ∧
  clean_label " Alice   [ Punctuality ] " = "Alice - Punctuality" ∧
  clean_label "Timestamp" = "Timestamp" ∧
  clean_label "Score ]out of 5[" = "Score ]out of 5[" ∧
  clean_label "a[b[c]" = "a - b[c".
Proof. repeat split; by vm_compute. Qed.


(** * The campus-rep report on fetched tables *)

Lemma last_char_app_nonempty a b :
  b ≠ EmptyString -> last_char (a +:+ b) = last_char b.
Proof.
  intros Hb. rewrite last_char_app. destruct b as [|c b]; [done|].
  cbn [last_char]. by destruct (last_char b).
Qed.

Lemma pretty_N_go_last_char x s :
  s ≠ EmptyString -> last_char (pretty_N_go x s) = last_char s.
Proof.
  revert s. induction (N.lt_wf_0 x) as [x _ IH]. intros s Hs.
  destruct (decide (0 < x)%N) as [Hx|Hx].
  - rewrite pretty_N_go_step by done. rewrite IH; [|by apply N.div_lt|done].
    cbn [last_char]. destruct s as [|c s]; [done|].
    cbn [last_char]. by destruct (last_char s).
  - assert (x = 0%N) as -> by lia. by rewrite pretty_N_go_0.
Qed.

Lemma of_nat_ends_in_digit n : ends_in_digit (PyStr.of_nat n).
Proof.
  unfold ends_in_digit, PyStr.of_nat, pretty, pretty_nat, pretty, pretty_N.
  destruct (decide (N.of_nat n = 0)%N); [by eexists|].
  rewrite pretty_N_go_step by lia. rewrite pretty_N_go_last_char by done.
  eexists. split; [done|]. unfold pretty_N_char. by repeat case_match.
Qed.

(** The label of a repeat ends in a digit. *)
Lemma occurrence_label_repeat h k : ends_in_digit (occurrence_label h (S k)).
Proof.
  cbn [occurrence_label]. destruct (of_nat_ends_in_digit (S k)) as (d & Hd & Hnat).
  exists d. split; [|done].
  change (h +:+ "_" +:+ PyStr.of_nat (S k))
    with (h +:+ String "_"%char (PyStr.of_nat (S k))).
  rewrite last_char_app_nonempty by done. cbn [last_char]. by rewrite Hd.
Qed.

Lemma label_positions_lookup cols label k p :
  p ∈ label_positions cols label k -> k <= p ∧ cols !! (p - k) = Some label.
Proof.
  revert k. induction cols as [|c cols IH]; intros k.
  - by intros ?%elem_of_nil.
  - cbn [label_positions]. destruct (decide (c = label)) as [->|Hne].
    + intros [->|Hp]%elem_of_cons.
      * split; [done|]. by rewrite Nat.sub_diag.
      * apply IH in Hp as [Hle Hp]. split; [lia|].
        replace (p - k) with (S (p - S k)) by lia. done.
    + intros Hp. apply IH in Hp as [Hle Hp]. split; [lia|].
      replace (p - k) with (S (p - S k)) by lia. done.
Qed.

Lemma label_positions_two cols label k p q r :
  label_positions cols label k = p :: q :: r ->
  exists i j, i < j ∧ cols !! i = Some label ∧ cols !! j = Some label.
Proof.
  revert k. induction cols as [|c cols IH]; intros k; [done|].
  cbn [label_positions]. destruct (decide (c = label)) as [->|Hne].
  - intros [= <- Hrest].
    assert (q ∈ label_positions cols label (S k)) as Hq by (rewrite Hrest; left).
    apply label_positions_lookup in Hq as [Hle Hq].
    exists 0, (S (q - S k)). split_and!; [lia | done | done].
  - intros Hpos. destruct (IH _ Hpos) as (i & j & Hlt & Hi & Hj).
    exists (S i), (S j). split_and!; [lia | done | done].
Qed.

(** In a table fetched by [get_data], a label that does not end in a digit
    is carried by one column at most. *)
Lemma get_data_label_unique all_values df label :
  get_data all_values = Return df ->
  ¬ ends_in_digit label ->
  length (label_positions (columns df) label 0) <= 1.
Proof.
  intros Hrun Hend.
  assert (exists headers, columns df = unique_headers headers) as [headers Hcols].
  { destruct all_values as [|headers body]; cbn [get_data] in Hrun.
    - injection Hrun as <-. by exists [].
    - exists headers. unfold DataFrame_of_rows in Hrun.
      destruct body; [by injection Hrun as <-|].
      destruct (decide _); [by injection Hrun as <- | done]. }
  rewrite Hcols, unique_headers_closed.
  destruct (label_positions _ label 0) as [|p [|q r]] eqn:Hpos; [simpl; lia..|].
  exfalso. apply label_positions_two in Hpos as (i & j & Hlt & Hi & Hj).
  rewrite list_lookup_imap in Hi, Hj.
  destruct (headers !! i) as [h|] eqn:Hhi; [|done].
  destruct (headers !! j) as [h'|] eqn:Hhj; [|done].
  injection Hi as Hi. injection Hj as Hj.
  destruct (occ h (take i headers)) as [|k] eqn:Hk.
  2: { apply Hend. rewrite <-Hi. apply occurrence_label_repeat. }
  destruct (occ h' (take j headers)) as [|k'] eqn:Hk'.
  2: { apply Hend. rewrite <-Hj. apply occurrence_label_repeat. }
  cbn [occurrence_label] in Hi, Hj. subst h h'.
  rewrite <-(take_drop_middle headers i label Hhi) in Hk'.
  rewrite take_app_ge in Hk' by (rewrite length_take; lia).
  rewrite length_take_le in Hk' by (apply lookup_lt_Some in Hhi; lia).
  replace (j - i) with (S (j - i - 1)) in Hk' by lia. cbn [take] in Hk'.
  rewrite occ_app in Hk'.
  change (label :: take (j - i - 1) (drop (S i) headers))
    with ([label] ++ take (j - i - 1) (drop (S i) headers)) in Hk'.
  rewrite occ_app in Hk'. unfold occ at 2 in Hk'.
  rewrite filter_cons, decide_True in Hk' by done. simpl in Hk'. lia.
Qed.

Lemma modelled_raise {A B} (e : exn) :
  modelled (Raise e : outcome A) -> modelled (Raise e : outcome B).
Proof. intros He label [= ->]. by apply (He label). Qed.

Section modelled_runs.
Context (df : DataFrame).
Context (Hlabels :
  forall label, ¬ ends_in_digit label ->
                length (label_positions (columns df) label 0) <= 1).

Lemma modelled_bind {A B} (m : outcome A) (k : A -> outcome B) :
  modelled m -> (forall a, modelled (k a)) -> modelled (obind m k).
Proof.
  intros Hm Hk. destruct m as [a|e]; [apply Hk|].
  exact (modelled_raise e Hm).
Qed.

Lemma modelled_Return {A} (a : A) : modelled (Return a).
Proof. by intros label. Qed.

Lemma modelled_dict_getitem {V} (d : pydict V) k : modelled (dict_getitem d k).
Proof. unfold dict_getitem. by destruct (dict_get d k); intros label. Qed.

Lemma modelled_for_each {A S} (body : S -> A -> outcome S) xs s :
  (forall s' x, x ∈ xs -> modelled (body s' x)) -> modelled (for_each body xs s).
Proof.
  revert s. induction xs as [|x xs IH]; intros s Hbody; [apply modelled_Return|].
  cbn [for_each]. apply modelled_bind; [apply Hbody; left|].
  intros s'. apply IH. intros s'' y Hy. apply Hbody. by right.
Qed.

Lemma modelled_map_try {A B} (f : A -> outcome B) xs :
  (forall x, x ∈ xs -> modelled (f x)) -> modelled (map_try f xs).
Proof.
  induction xs as [|x xs IH]; intros Hf; [apply modelled_Return|].
  cbn [map_try]. apply modelled_bind; [apply Hf; left|]. intros y.
  apply modelled_bind; [apply IH; intros z Hz; apply Hf; by right|].
  intros ys. apply modelled_Return.
Qed.

(** Selecting a column by a label that does not end in a digit, in [df]
    or in a row subset of it, stays within the embedding. *)
Lemma modelled_series rs label :
  ¬ ends_in_digit label -> modelled (series (mkDataFrame (columns df) rs) label).
Proof.
  intros Hend. pose proof (Hlabels label Hend) as Hlen.
  unfold series, getitem. cbn [columns].
  destruct (label_positions (columns df) label 0) as [|p [|q r]];
    [by intros l | by intros l | simpl in Hlen; lia].
Qed.
End modelled_runs.

Lemma report_labels_not_digit :
  Forall (fun label => ¬ ends_in_digit label)
    (identity_column :: comments_column :: likert_columns).
Proof.
  repeat constructor; intros (d & Hd & Hnat); vm_compute in Hd;
    injection Hd as <-; by destruct Hnat.
Qed.

Lemma all_chars_app keep a b :
  all_chars keep (a +:+ b) = all_chars keep a && all_chars keep b.
Proof.
  induction a as [|c a IH]; [done|].
  rewrite app_String. cbn [all_chars]. by rewrite IH, andb_assoc.
Qed.

Lemma plain_xml s : plain s = true -> all_chars xml_char s = true.
Proof.
  unfold plain. induction s as [|c s IH]; [done|]. cbn [all_chars].
  intros [[Hc _]%andb_true_iff Hs]%andb_true_iff. by rewrite Hc, IH.
Qed.

Lemma plain_no_dollar s : plain s = true -> PyStr.mem "$" s = false.
Proof.
  unfold plain. induction s as [|c s IH]; [done|]. cbn [all_chars PyStr.mem].
  intros [[_ Hc%negb_true_iff]%andb_true_iff Hs]%andb_true_iff. by rewrite Hc, IH.
Qed.

Lemma plain_app a b : plain (a +:+ b) = plain a && plain b.
Proof. apply all_chars_app. Qed.

Lemma docx_text_plain s : plain s = true -> docx_text s = Return s.
Proof. intros Hs. unfold docx_text. by rewrite plain_xml. Qed.

Lemma savefig_plain texts fig :
  Forall (fun s => plain s = true) texts -> savefig texts fig = Return fig.
Proof.
  intros Hall. unfold savefig.
  replace (filter (fun s => PyStr.mem "$" s = true) texts) with (@nil string); [done|].
  symmetry. induction Hall as [|s texts Hs _ IH]; [done|].
  rewrite filter_cons, decide_False; [done|]. by rewrite plain_no_dollar.
Qed.

(** The title of the campus-rep chart is the text of the first identity
    cell, or "Unknown". *)
Lemma generate_clustered_bar_graph_campus_rep_title df_staff qs labels fig :
  generate_clustered_bar_graph_campus_rep df_staff qs labels = Return fig ->
  exists t,
    chart_title fig = t +:+ " - Likert Scale Response Distribution" ∧
    (t = "Unknown" ∨
     exists names first rest,
       series df_staff identity_column = Return names ∧
       names = first :: rest ∧ t = py_str first).
Proof.
  unfold generate_clustered_bar_graph_campus_rep.
  destruct (for_each _ qs _) as [summary_data|]; [|done]. cbn [obind].
  destruct (map_try _ _) as [bars|]; [|done]. cbn [obind].
  destruct (df_empty df_staff).
  - intros [= <-]. exists "Unknown". split; [done | by left].
  - destruct (series df_staff identity_column) as [names|] eqn:Hnames; [|done].
    cbn [obind]. destruct names as [|first rest]; [done|]. cbn [iloc0 obind].
    intros [= <-]. exists (py_str first). split; [done|]. right. by eexists _, _, _.
Qed.

Lemma series_cells df label vals c :
  series df label = Return vals -> c ∈ vals ->
  c = CNone ∨ exists r, r ∈ rows df ∧ c ∈ r.
Proof.
  unfold series, getitem.
  destruct (label_positions (columns df) label 0) as [|j [|j' js]]; [done | | done].
  intros [= <-]. unfold col_values. intros (r & -> & Hr)%list_elem_of_fmap.
  destruct (r !! j) as [c|] eqn:Hc; [|by left].
  right. exists r. split; [done|]. by eapply list_elem_of_lookup_2.
Qed.

Lemma filter_eq_rows df label value df_staff :
  filter_eq df label value = Return df_staff ->
  columns df_staff = columns df ∧ forall r, r ∈ rows df_staff -> r ∈ rows df.
Proof.
  unfold filter_eq. destruct (series df label) as [column|]; [|done]. cbn [obind].
  intros [= <-]. cbn [columns rows]. split; [done|].
  intros r ((b & r') & -> & [_ Hin]%list_elem_of_filter)%list_elem_of_fmap.
  by apply elem_of_zip_r in Hin.
Qed.

(** On a table fetched by [get_data] whose cells are plain texts, every
    run of the report generator for a subject whose name is a plain text
    stays within the embedding. *)
Lemma generate_docx_report_modelled all_values df staff_member output_folder w :
  get_data all_values = Return df ->
  plain staff_member = true ->
  (forall r c, r ∈ rows df -> c ∈ r -> plain (py_str c) = true) ->
  modelled (generate_docx_report df staff_member output_folder w).2.
Proof.
  intros Hrun Hname Hcells.
  pose proof (fun label => get_data_label_unique all_values df label Hrun) as Hlabels.
  pose proof report_labels_not_digit as Hnd. rewrite Forall_forall in Hnd.
  assert (forall rs label,
            label ∈ identity_column :: comments_column :: likert_columns ->
            modelled (series (mkDataFrame (columns df) rs) label)) as Hseries.
  { intros rs label Hin. apply (modelled_series df Hlabels). by apply Hnd. }
  assert (forall label, label ∈ likert_columns ->
                        label ∈ identity_column :: comments_column :: likert_columns) as Hlik.
  { intros label Hin. by do 2 right. }
  unfold generate_docx_report, io_bind, io_lift, io_ret.
  destruct (ensure_dir_files output_folder w) as (w0 & -> & _ & _).
  assert (modelled (filter_eq df identity_column staff_member)) as Hfilter.
  { unfold filter_eq. apply modelled_bind.
    - destruct df as [cols rs]. apply (Hseries rs). left.
    - intros column. apply modelled_Return. }
  destruct (filter_eq df identity_column staff_member) as [df_staff|e] eqn:Hf;
    [|exact (modelled_raise e Hfilter)].
  destruct (filter_eq_rows _ _ _ _ Hf) as [Hcols Hsub].
  destruct df_staff as [cols rs]. cbn [columns rows] in Hcols, Hsub. subst cols.
  assert (forall label vals c,
            series (mkDataFrame (columns df) rs) label = Return vals -> c ∈ vals ->
            plain (py_str c) = true) as Hplain.
  { intros label vals c Hvals Hc.
    destruct (series_cells _ _ _ _ Hvals Hc) as [-> | (r & Hr & Hcr)]; [done|].
    apply (Hcells r c); [by apply Hsub | done]. }
  destruct (df_empty _); [apply modelled_Return|].
  rewrite docx_text_plain by (by rewrite plain_app, Hname).
  assert (modelled (generate_clustered_bar_graph_campus_rep
                      (mkDataFrame (columns df) rs) likert_columns question_labels))
    as Hchart.
  { unfold generate_clustered_bar_graph_campus_rep.
    apply modelled_bind.
    { apply modelled_for_each. intros sd col Hcol. apply modelled_bind.
      - apply Hseries. by apply Hlik.
      - intros column. apply modelled_for_each. intros sd' option _.
        apply modelled_bind; [apply modelled_dict_getitem | intros; apply modelled_Return]. }
    intros summary_data. apply modelled_bind.
    { apply modelled_map_try. intros [i option] _. apply modelled_bind;
        [apply modelled_dict_getitem|]. intros counts. apply modelled_bind;
        [apply modelled_dict_getitem | intros; apply modelled_Return]. }
    intros bars. apply modelled_bind; [|intros; apply modelled_Return].
    destruct (df_empty _); [apply modelled_Return|].
    apply modelled_bind; [apply Hseries; left|]. intros names.
    apply modelled_bind; [|intros; apply modelled_Return].
    unfold iloc0. by destruct names; intros l. }
  unfold generate_clustered_bar_graph_campus_rep_bytes.
  destruct (generate_clustered_bar_graph_campus_rep _ _ _) as [fig|e] eqn:Hfig;
    [|exact (modelled_raise e Hchart)].
  cbn [obind]. rewrite savefig_plain.
  2: { constructor; [|by repeat constructor].
       destruct (generate_clustered_bar_graph_campus_rep_title _ _ _ _ Hfig)
         as (t & -> & [-> | (names & first & rest & Hnames & -> & ->)]); [done|].
       rewrite plain_app, (Hplain _ _ first Hnames) by left. done. }
  assert (modelled (summary_rows (mkDataFrame (columns df) rs))) as Hrows.
  { unfold summary_rows. apply modelled_map_try. intros [col label] Hcl.
    apply modelled_bind; [|intros; apply modelled_Return].
    apply Hseries, Hlik. apply elem_of_zip_l in Hcl. done. }
  destruct (summary_rows _) as [data_rows|e]; [|exact (modelled_raise e Hrows)].
  assert (modelled (series (mkDataFrame (columns df) rs) comments_column)) as Hcomments
    by (apply Hseries; right; left).
  destruct (series _ comments_column) as [column|e] eqn:Hcolumn;
    [|exact (modelled_raise e Hcomments)].
  rewrite (map_try_pure _ (fun comment => py_str comment)).
  2: { intros c [_ Hc]%list_elem_of_filter. apply docx_text_plain.
       by apply (Hplain _ _ c Hcolumn). }
  match goal with
  | |- context [doc_save ?path ?doc w0] =>
      destruct (doc_save_cases path doc w0) as [-> | ->]
  end.
  - apply modelled_Return.
  - by intros label.
Qed.

(** * The staff driver on a malformed grid *)

(** X4: When some data row is given and the widest data row is not as wide
    as the header row, building the table raises [ValueError]: nothing is
    written and nothing is reported. *)
Theorem process_staff_evaluation_docx_width_mismatch
    (header : list string) (body : list (list string))
    (sheet_name staff_name : string) (w : world) :
  body ≠ [] ->
  max_list (length <$> body) ≠ length header ->
  exists msg,
    process_staff_evaluation_docx (header :: body) sheet_name staff_name w
    = (w, Raise (ValueError msg)).
Proof.
  intros Hbody Hwidth. cbn [process_staff_evaluation_docx].
  unfold io_bind, io_lift, DataFrame_of_rows.
  destruct body as [|r body]; [done|]. rewrite decide_False by done. by eexists.
Qed.

Lemma process_staff_evaluation_docx_width_mismatch_witness :
  [["Agree"]] ≠ [] ∧
  max_list (length <$> [["Agree"]]) ≠ length ["Alice [Communication]"; "Alice [Punctuality]"] ∧
  exists msg,
    process_staff_evaluation_docx
      [["Alice [Communication]"; "Alice [Punctuality]"]; ["Agree"]]
      "Sheet1" "Alice" empty_world
    = (empty_world, Raise (ValueError msg)).
Proof.
  assert ([["Agree"]] ≠ @nil (list string)) as Hbody by discriminate.
  assert (max_list (length <$> [["Agree"]])
          ≠ length ["Alice [Communication]"; "Alice [Punctuality]"]) as Hwidth
    by (simpl; lia).
  split; [exact Hbody|]. split; [exact Hwidth|].
  exact (process_staff_evaluation_docx_width_mismatch
           ["Alice [Communication]"; "Alice [Punctuality]"] [["Agree"]]
           "Sheet1" "Alice" empty_world Hbody Hwidth).
Defined.

Lemma starts_with_app a b : PyStr.starts_with a (a +:+ b) = true.
Proof.
  induction a as [|c a IH]; [done|].
  rewrite app_String. cbn [PyStr.starts_with]. by rewrite bool_decide_eq_true_2.
Qed.

(** * Header normalisation, applied twice *)

Section normalise_twice.
Import HeaderRegex.

Lemma lazy_group2_group s g r :
  lazy_group2 s = Some (g, r) ->
  PyStr.mem rbracket g = false ∧ PyStr.mem newline g = false.
Proof.
  revert g. induction s as [|c s IH]; intros g; [done|]. cbn [lazy_group2].
  destruct (bool_decide (c = rbracket)) eqn:Hr; [by intros [= <- <-]|].
  destruct (bool_decide (c = newline)) eqn:Hn; [done|].
  destruct (lazy_group2 s) as [[g' r']|]; [|done]. intros [= <- <-].
  destruct (IH g' eq_refl) as [Hg1 Hg2]. cbn [PyStr.mem]. by rewrite Hr, Hn, Hg1, Hg2.
Qed.

Lemma rest_match_group s g2 :
  rest_match s = Some g2 -> PyStr.mem rbracket g2 = false.
Proof.
  induction s as [|c s IH]; [done|]. cbn [rest_match].
  assert ((if bool_decide (c = lbracket) then fst <$> lazy_group2 s else None) = Some g2 ->
          PyStr.mem rbracket g2 = false) as Hstop.
  { destruct (bool_decide (c = lbracket)); [|done].
    destruct (lazy_group2 s) as [[g r]|] eqn:Hs; [|done]. intros [= <-].
    by destruct (lazy_group2_group _ _ _ Hs). }
  destruct (PyStr.isspace c); [|exact Hstop].
  destruct (rest_match s) as [g|]; [|exact Hstop]. intros [= ->]. by apply IH.
Qed.

(** Group 1 holds no line feed, group 2 no closing bracket, and the rest
    of the pattern matches nowhere inside group 1: the group is as short
    as it can be. *)
Lemma header_match_groups s g1 g2 :
  header_match s = Some (g1, g2) ->
  PyStr.mem newline g1 = false ∧ PyStr.mem rbracket g2 = false ∧
  exists tail,
    s = g1 +:+ tail ∧
    forall a b, g1 = a +:+ b -> b ≠ EmptyString -> rest_match (b +:+ tail) = None.
Proof.
  revert g1. induction s as [|c s IH]; intros g1; rewrite header_match_unfold.
  - done.
  - destruct (rest_match (String c s)) as [g|] eqn:Hrest.
    + intros [= <- <-]. split; [done|]. split; [by eapply rest_match_group|].
      exists (String c s). split; [done|]. intros a b Hab Hb.
      destruct a; [by rewrite app_empty in Hab | done].
    + destruct (bool_decide (c = newline)) eqn:Hn; [done|].
      destruct (header_match s) as [[g1' g2']|] eqn:Hs; [|done]. intros [= <- <-].
      destruct (IH g1' eq_refl) as (Hnl & Hrb & tail & -> & Hmin).
      split; [cbn [PyStr.mem]; by rewrite Hn, Hnl|]. split; [done|].
      exists tail. split; [done|]. intros a b Hab Hb. destruct a as [|x a].
      * rewrite app_empty in Hab. by rewrite <-Hab.
      * rewrite app_String in Hab. injection Hab as _ Hab. by apply (Hmin a).
Qed.

Lemma lazy_group2_some b r :
  PyStr.mem newline b = false -> is_Some (lazy_group2 (b +:+ String rbracket r)).
Proof.
  induction b as [|c b IH]; intros Hn.
  - rewrite app_empty. cbn [lazy_group2]. by rewrite bool_decide_eq_true_2.
  - rewrite app_String. cbn [lazy_group2]. cbn [PyStr.mem] in Hn.
    apply orb_false_iff in Hn as [Hc Hn].
    destruct (bool_decide (c = rbracket)); [done|]. rewrite Hc.
    destruct (IH Hn) as [[g r'] ->]. done.
Qed.

(** Group 1 never holds an opening bracket with a closing bracket after
    it. *)
Lemma header_match_group1_no_pair s g1 g2 a b c :
  header_match s = Some (g1, g2) ->
  g1 ≠ a +:+ String lbracket (b +:+ String rbracket c).
Proof.
  intros Hm Hg1. destruct (header_match_groups _ _ _ Hm) as (Hnl & _ & tail & -> & Hmin).
  assert (rest_match (String lbracket (b +:+ String rbracket c) +:+ tail) = None) as Hnone
    by (by apply (Hmin a)).
  rewrite app_String, app_assoc_string, app_String in Hnone. cbn [rest_match] in Hnone.
  rewrite bool_decide_eq_true_2 in Hnone by done.
  assert (PyStr.mem newline b = false) as Hb.
  { rewrite Hg1, mem_app in Hnl. cbn [PyStr.mem] in Hnl. rewrite mem_app in Hnl.
    apply orb_false_iff in Hnl as [_ Hnl]. apply orb_false_iff in Hnl as [_ Hnl].
    by apply orb_false_iff in Hnl as [Hnl _]. }
  destruct (lazy_group2_some b (c +:+ tail) Hb) as [[g r] Hg]. rewrite Hg in Hnone.
  by vm_compute in Hnone.
Qed.

Lemma lstrip_suffix s : exists l, s = l +:+ PyStr.lstrip s.
Proof.
  induction s as [|c s [l IH]]; [by exists EmptyString|]. cbn [PyStr.lstrip].
  destruct (PyStr.isspace c); [|by exists EmptyString].
  exists (String c l). by rewrite app_String, <-IH.
Qed.

Lemma rstrip_prefix s : exists r, s = PyStr.rstrip s +:+ r.
Proof.
  induction s as [|c s [r IH]]; [by exists EmptyString|]. cbn [PyStr.rstrip].
  destruct (PyStr.rstrip s) as [|x t] eqn:Hs.
  - destruct (PyStr.isspace c).
    + exists (String c s). done.
    + exists r. rewrite app_String. by rewrite <-IH.
  - exists r. rewrite app_String. by rewrite <-IH.
Qed.

(** [strip] cuts a piece out of the middle of its argument. *)
Lemma strip_middle s : exists l r, s = l +:+ PyStr.strip s +:+ r.
Proof.
  unfold PyStr.strip. destruct (lstrip_suffix s) as [l Hl].
  destruct (rstrip_prefix (PyStr.lstrip s)) as [r Hr].
  exists l, r. by rewrite <-Hr.
Qed.

(** Where the concatenation of [x] and [y] shows a character that [y]
    does not have, that character is in [x]. *)
Lemma app_split_char x y p c q :
  PyStr.mem c y = false -> x +:+ y = p +:+ String c q ->
  exists q', x = p +:+ String c q'.
Proof.
  intros Hy. revert p. induction x as [|a x IH]; intros p Heq.
  - rewrite app_empty in Heq. rewrite Heq, mem_here in Hy. done.
  - destruct p as [|b p].
    + rewrite app_empty in Heq. rewrite app_String in Heq. injection Heq as -> _.
      exists x. by rewrite app_empty.
    + rewrite !app_String in Heq. injection Heq as -> Heq.
      destruct (IH p Heq) as [q' ->]. by exists q'.
Qed.

Lemma clean_label_fixed label g1 g2 :
  header_match label = Some (g1, g2) ->
  clean_label (PyStr.strip g1 +:+ " - " +:+ PyStr.strip g2)
  = PyStr.strip g1 +:+ " - " +:+ PyStr.strip g2.
Proof.
  intros Hm. unfold clean_label.
  destruct (PyStr.mem lbracket _ && PyStr.mem rbracket _); [|done].
  destruct (header_match (PyStr.strip g1 +:+ " - " +:+ PyStr.strip g2))
    as [[h1 h2]|] eqn:Hm2; [|done].
  exfalso. destruct (header_match_sound _ _ _ Hm2) as (ws & rest & _ & Hshape).
  destruct (header_match_groups _ _ _ Hm) as (_ & Hrb & _).
  assert (PyStr.mem rbracket (" - " +:+ PyStr.strip g2) = false) as Hy.
  { destruct (strip_middle g2) as (l & r & Hg2). rewrite Hg2, !mem_app in Hrb.
    apply orb_false_iff in Hrb as [_ Hrb]. apply orb_false_iff in Hrb as [Hrb _].
    rewrite mem_app, Hrb. done. }
  replace (h1 +:+ ws +:+ String lbracket (h2 +:+ String rbracket rest))
    with ((h1 +:+ ws +:+ String lbracket h2) +:+ String rbracket rest) in Hshape
    by (by rewrite !app_assoc_string).
  destruct (app_split_char _ _ _ _ _ Hy Hshape) as [q' Hx].
  destruct (strip_middle g1) as (l & r & Hg1).
  apply (header_match_group1_no_pair label g1 g2 (l +:+ h1 +:+ ws) h2 (q' +:+ r) Hm).
  rewrite Hg1, Hx. by rewrite !app_assoc_string.
Qed.

(** Normalising a normalised label changes nothing. *)
Lemma clean_label_idempotent label : clean_label (clean_label label) = clean_label label.
Proof.
  remember (clean_label label) as r eqn:Hr. unfold clean_label in Hr.
  destruct (PyStr.mem lbracket label && PyStr.mem rbracket label) eqn:Hguard.
  - destruct (header_match label) as [[g1 g2]|] eqn:Hm.
    + subst r. by apply (clean_label_fixed label).
    + subst r. unfold clean_label. by rewrite Hguard, Hm.
  - subst r. unfold clean_label. by rewrite Hguard.
Qed.
End normalise_twice.

(** X6: Header normalisation is idempotent: applied to a table it has
    already normalised, [clean_column_names] returns that table, labels
    and rows alike. *)
Theorem clean_column_names_idempotent (df : DataFrame) :
  clean_column_names (clean_column_names df) = clean_column_names df.
Proof.
  unfold clean_column_names. cbn [columns rows]. f_equal.
  rewrite <-list_fmap_compose. apply list_fmap_ext.
  intros i label _. apply clean_label_idempotent.
Qed.

(** * Fetched tables *)

Lemma occ_take_NoDup headers i h :
  NoDup headers -> headers !! i = Some h -> occ h (take i headers) = 0.
Proof.
  intros Hnd Hi. unfold occ. apply length_zero_iff_nil.
  destruct (filter _ _) as [|x xs] eqn:Hf; [done|]. exfalso.
  assert (x ∈ filter (fun x => x = h) (take i headers)) as Hx by (rewrite Hf; left).
  apply list_elem_of_filter in Hx as [-> Hx].
  apply list_elem_of_lookup in Hx as [j Hj].
  pose proof (lookup_lt_Some _ _ _ Hj) as Hlt. rewrite length_take in Hlt.
  rewrite lookup_take_lt in Hj by lia.
  pose proof (proj1 (NoDup_alt headers) Hnd j i h Hj Hi). lia.
Qed.

Lemma unique_headers_distinct headers :
  NoDup headers -> unique_headers headers = headers.
Proof.
  intros Hnd. rewrite unique_headers_closed. apply list_eq. intros i.
  rewrite list_lookup_imap. destruct (headers !! i) as [h|] eqn:Hi; [|done].
  cbn. by rewrite (occ_take_NoDup headers i h Hnd Hi).
Qed.

(** X7: When the header row has no repeated header, [get_data] leaves the
    headers as they are: the table has the raw headers as labels and the
    grid's rows as rows, short rows padded with missing values. *)
Theorem get_data_distinct_headers (headers : list string) (body : list (list string)) :
  NoDup headers ->
  body = [] ∨ max_list (length <$> body) = length headers ->
  get_data (headers :: body) =
    Return (mkDataFrame headers (pad_row (length headers) <$> body)).
Proof.
  intros Hnd Hrect. cbn [get_data]. rewrite unique_headers_distinct by done.
  unfold DataFrame_of_rows. destruct body as [|r body]; [done|].
  destruct Hrect as [?|Hrect]; [done|]. by rewrite decide_True.
Qed.

Lemma get_data_distinct_headers_witness :
  NoDup ["Name"; "Score"] ∧
  ([["Ann"; "4"]; ["Bo"]] = [] ∨
   max_list (length <$> [["Ann"; "4"]; ["Bo"]]) = length ["Name"; "Score"]) ∧
  get_data (["Name"; "Score"] :: [["Ann"; "4"]; ["Bo"]]) =
    Return (mkDataFrame ["Name"; "Score"]
              (pad_row (length ["Name"; "Score"]) <$> [["Ann"; "4"]; ["Bo"]])).
Proof.
  assert (NoDup ["Name"; "Score"]) as Hnd.
  { apply (bool_decide_unpack _). vm_compute. exact I. }
  assert ([["Ann"; "4"]; ["Bo"]] = [] ∨
          max_list (length <$> [["Ann"; "4"]; ["Bo"]]) = length ["Name"; "Score"]) as Hrect
    by (right; reflexivity).
  split; [exact Hnd|]. split; [exact Hrect|].
  exact (get_data_distinct_headers _ _ Hnd Hrect).
Defined.

Lemma label_positions_elem_of cols label k i :
  cols !! i = Some label -> k + i ∈ label_positions cols label k.
Proof.
  revert k i. induction cols as [|c cols IH]; intros k i Hi; [done|].
  cbn [label_positions]. destruct i as [|i]; simpl in Hi.
  - injection Hi as ->. rewrite decide_True by done. rewrite Nat.add_0_r. left.
  - replace (k + S i) with (S k + i) by lia.
    destruct (decide (c = label)); [right|]; by apply IH.
Qed.

(** X8: In a fetched table, a raw header that does not end in a digit names
    one column only, the one of its first occurrence: selecting by it
    yields that column of the grid, whatever other headers repeat. *)
Theorem get_data_selects_first_occurrence
    (headers : list string) (body : list (list string)) (df : DataFrame)
    (h : string) (i : nat) :
  get_data (headers :: body) = Return df ->
  ¬ ends_in_digit h ->
  headers !! i = Some h ->
  (forall j, j < i -> headers !! j ≠ Some h) ->
  series df h = Return (col_values df i) ∧
  forall k r,
    body !! k = Some r ->
    col_values df i !! k = Some (from_option CStr CNone (r !! i)).
Proof.
  intros Hrun Hend Hi Hfirst.
  pose proof (get_data_label_unique _ _ h Hrun Hend) as Huniq.
  assert (columns df = unique_headers headers ∧
          rows df = pad_row (length (unique_headers headers)) <$> body) as [Hcols Hrows].
  { cbn [get_data] in Hrun. unfold DataFrame_of_rows in Hrun.
    destruct body as [|r body]; [by injection Hrun as <-|].
    destruct (decide _); [by injection Hrun as <- | done]. }
  assert (columns df !! i = Some h) as Hcol.
  { rewrite Hcols, unique_headers_closed, list_lookup_imap, Hi. cbn.
    replace (occ h (take i headers)) with 0; [done|]. symmetry.
    unfold occ. apply length_zero_iff_nil.
    destruct (filter _ _) as [|x xs] eqn:Hf; [done|]. exfalso.
    assert (x ∈ filter (fun x => x = h) (take i headers)) as Hx by (rewrite Hf; left).
    apply list_elem_of_filter in Hx as [-> Hx].
    apply list_elem_of_lookup in Hx as [j Hj].
    pose proof (lookup_lt_Some _ _ _ Hj) as Hlt. rewrite length_take in Hlt.
    rewrite lookup_take_lt in Hj by lia. by apply (Hfirst j); [lia|]. }
  split.
  - unfold series, getitem.
    pose proof (label_positions_elem_of _ _ 0 _ Hcol) as Hin. simpl in Hin.
    destruct (label_positions (columns df) h 0) as [|p [|q ps]]; simpl in Huniq.
    + by apply elem_of_nil in Hin.
    + apply list_elem_of_singleton in Hin as <-. done.
    + lia.
  - intros k r Hk. unfold col_values. rewrite list_lookup_fmap, Hrows, list_lookup_fmap, Hk.
    cbn. f_equal. unfold pad_row.
    destruct (r !! i) as [s|] eqn:Hri.
    + rewrite lookup_app_l by (rewrite length_fmap; by eapply lookup_lt_Some).
      by rewrite list_lookup_fmap, Hri.
    + apply lookup_ge_None in Hri.
      destruct (((CStr <$> r) ++ replicate (length (unique_headers headers) - length r) CNone) !! i)
        as [c|] eqn:Hl; [|done].
      apply lookup_app_Some in Hl as [Hl | [_ Hl]].
      * apply lookup_lt_Some in Hl. rewrite length_fmap in Hl. lia.
      * apply lookup_replicate in Hl as [-> _]. done.
Qed.

Lemma get_data_selects_first_occurrence_witness :
  get_data (["Name"; "Score"; "Name"] :: [["Ann"; "4"; "x"]])
  = Return (mkDataFrame ["Name"; "Score"; "Name_1"] [[CStr "Ann"; CStr "4"; CStr "x"]]) ∧
  ¬ ends_in_digit "Name" ∧
  ["Name"; "Score"; "Name"] !! 0 = Some "Name" ∧
  (forall j, j < 0 -> ["Name"; "Score"; "Name"] !! j ≠ Some "Name") ∧
  series (mkDataFrame ["Name"; "Score"; "Name_1"] [[CStr "Ann"; CStr "4"; CStr "x"]]) "Name"
  = Return (col_values
              (mkDataFrame ["Name"; "Score"; "Name_1"] [[CStr "Ann"; CStr "4"; CStr "x"]]) 0).
Proof.
  assert (get_data (["Name"; "Score"; "Name"] :: [["Ann"; "4"; "x"]])
          = Return (mkDataFrame ["Name"; "Score"; "Name_1"]
                      [[CStr "Ann"; CStr "4"; CStr "x"]])) as Hrun
    by (vm_compute; reflexivity).
  assert (¬ ends_in_digit "Name") as Hend.
  { intros (d & Hd & Hnat). vm_compute in Hd. injection Hd as <-. by destruct Hnat. }
  assert (forall j, j < 0 -> ["Name"; "Score"; "Name"] !! j ≠ Some "Name") as Hfirst
    by (intros j Hj; lia).
  split; [exact Hrun|]. split; [exact Hend|]. split; [reflexivity|].
  split; [exact Hfirst|].
  exact (proj1 (get_data_selects_first_occurrence _ _ _ "Name" 0 Hrun Hend eq_refl Hfirst)).
Defined.

(** * Subjects and metrics *)

Lemma dict_keys_foldl_set {V X} (key : X -> string) (val : X -> V) (xs : list X)
    (d : pydict V) :
  dict_keys (foldl (fun acc x => dict_set (key x) (val x) acc) d xs) =
    foldl (fun acc x => if decide (x ∈ acc) then acc else acc ++ [x])
      (dict_keys d) (key <$> xs).
Proof.
  revert d. induction xs as [|x xs IH]; intros d; [done|].
  rewrite fmap_cons. cbn [foldl]. by rewrite IH, dict_keys_set.
Qed.

(** X9: The response counter never raises, whatever the table; the metrics
    of its result follow the order in which their names first appear
    among the matched columns, and every distribution lists the five
    enumeration values in enumeration order. *)
Theorem calculate_likert_counts_order (df : DataFrame) (staff_name : string) :
  exists counts_data,
    calculate_likert_counts df staff_name = Return counts_data ∧
    dict_keys counts_data = first_occurrences (skill_of <$> staff_columns df staff_name) ∧
    Forall (fun entry : string * pydict nat => dict_keys entry.2 = STAFF_LIKERT_OPTIONS)
      counts_data.
Proof.
  eexists. split; [apply calculate_likert_counts_closed|]. split.
  - by rewrite (dict_keys_foldl_set skill_of).
  - generalize (staff_columns df staff_name). intros cols.
    enough (forall d : pydict (pydict nat),
              Forall (fun entry => dict_keys entry.2 = STAFF_LIKERT_OPTIONS) d ->
              Forall (fun entry => dict_keys entry.2 = STAFF_LIKERT_OPTIONS)
                (foldl (fun counts_data col =>
                          dict_set (skill_of col)
                            (distribution (fun o => hits o (iterated df col))
                               STAFF_LIKERT_OPTIONS) counts_data) d cols)) as H
      by (apply H; constructor).
    induction cols as [|col cols IH]; intros d Hd; [done|].
    cbn [foldl]. apply IH.
    apply (dict_set_Forall_values (fun counts => dict_keys counts = STAFF_LIKERT_OPTIONS));
      [done | apply distribution_keys].
Qed.

Lemma starts_with_spec p s :
  PyStr.starts_with p s = true <-> exists post, s = p +:+ post.
Proof.
  revert s. induction p as [|a p IH]; intros s.
  - split; [intros _; by exists s | done].
  - destruct s as [|b s]; cbn [PyStr.starts_with].
    + split; [done | by intros [post ?]].
    + rewrite andb_true_iff, bool_decide_eq_true, IH. split.
      * intros [-> [post ->]]. by exists post.
      * intros [post Heq]. rewrite app_String in Heq. injection Heq as -> ->. eauto.
Qed.

Lemma contains_spec sub s :
  PyStr.contains sub s = true <-> exists pre post, s = pre +:+ sub +:+ post.
Proof.
  induction s as [|c s IH].
  - cbn [PyStr.contains]. rewrite orb_false_r, starts_with_spec. split.
    + intros [post ->]. by exists EmptyString, post.
    + intros (pre & post & Heq). destruct pre; [by exists post | done].
  - cbn [PyStr.contains]. rewrite orb_true_iff, starts_with_spec, IH. split.
    + intros [[post ->] | (pre & post & ->)].
      * by exists EmptyString, post.
      * by exists (String c pre), post.
    + intros (pre & post & Heq). destruct pre as [|x pre].
      * left. by exists post.
      * right. rewrite app_String in Heq. injection Heq as _ ->. by exists pre, post.
Qed.

(** A part of a part of a text is a part of the text. *)
Lemma contains_trans a b c :
  PyStr.contains a b = true -> PyStr.contains b c = true -> PyStr.contains a c = true.
Proof.
  rewrite !contains_spec. intros (p1 & q1 & ->) (p2 & q2 & ->).
  exists (p2 +:+ p1), (q1 +:+ q2). by rewrite !app_assoc_string.
Qed.

Lemma calculate_likert_counts_has_metric df staff_name counts_data skill :
  calculate_likert_counts df staff_name = Return counts_data ->
  is_Some (dict_get counts_data skill) <->
  exists col, col ∈ staff_columns df staff_name ∧ skill_of col = skill.
Proof.
  rewrite calculate_likert_counts_closed. intros [= <-]. rewrite dict_get_foldl_set.
  destruct (last _) as [col|] eqn:Hlast.
  - split; [intros _ | done]. apply last_Some_elem_of, list_elem_of_filter in Hlast.
    exists col. by destruct Hlast.
  - apply last_None in Hlast. split; [by intros [? ?]|].
    intros (col & Hcol & Hskill).
    assert (col ∈ filter (fun x => skill_of x = skill) (staff_columns df staff_name)) as Hin
      by (by apply list_elem_of_filter).
    rewrite Hlast in Hin. by apply elem_of_nil in Hin.
Qed.

(** X10: Subjects are matched by containment, so a subject whose name is part
    of another subject's name is given that subject's columns too: every
    column matched by the longer name is matched by the shorter one, and
    every metric of the longer name's result is a metric of the shorter
    name's result. *)
Theorem calculate_likert_counts_contained_subject
    (df : DataFrame) (short long : string) :
  PyStr.contains short long = true ->
  (forall col, col ∈ staff_columns df long -> col ∈ staff_columns df short) ∧
  exists counts_short counts_long,
    calculate_likert_counts df short = Return counts_short ∧
    calculate_likert_counts df long = Return counts_long ∧
    forall skill,
      is_Some (dict_get counts_long skill) -> is_Some (dict_get counts_short skill).
Proof.
  intros Hpart.
  assert (forall col, col ∈ staff_columns df long -> col ∈ staff_columns df short) as Hcols.
  { intros col. unfold staff_columns. rewrite !list_elem_of_filter.
    intros [Hlong Hin]. split; [|done]. by eapply contains_trans. }
  split; [exact Hcols|].
  destruct (calculate_likert_counts df short) as [cs|] eqn:Hs.
  2: { by rewrite calculate_likert_counts_closed in Hs. }
  destruct (calculate_likert_counts df long) as [cl|] eqn:Hl.
  2: { by rewrite calculate_likert_counts_closed in Hl. }
  exists cs, cl. split; [done|]. split; [done|]. intros skill.
  rewrite (calculate_likert_counts_has_metric _ _ _ _ Hs).
  rewrite (calculate_likert_counts_has_metric _ _ _ _ Hl).
  intros (col & Hcol & Hskill). exists col. split; [by apply Hcols | done].
Qed.

Lemma calculate_likert_counts_contained_subject_witness :
  PyStr.contains "Ann" "Anna" = true ∧
  ((forall col, col ∈ staff_columns contained_names_table "Anna" ->
                col ∈ staff_columns contained_names_table "Ann") ∧
   exists counts_short counts_long,
     calculate_likert_counts contained_names_table "Ann" = Return counts_short ∧
     calculate_likert_counts contained_names_table "Anna" = Return counts_long ∧
     forall skill,
       is_Some (dict_get counts_long skill) -> is_Some (dict_get counts_short skill)).
Proof.
  split; [reflexivity|].
  apply (calculate_likert_counts_contained_subject contained_names_table "Ann" "Anna").
  reflexivity.
Defined.

(** * The campus-rep report, part by part *)

Lemma for_each_app {A S} (body : S -> A -> outcome S) xs ys s :
  for_each body (xs ++ ys) s = try s' <- for_each body xs s; for_each body ys s'.
Proof.
  revert s. induction xs as [|x xs IH]; intros s; [done|].
  cbn [app for_each]. destruct (body s x); [apply IH | done].
Qed.

Lemma series_missing df label :
  label ∉ columns df -> series df label = Raise (KeyError label).
Proof. intros Hnin. unfold series, getitem. by rewrite label_positions_notin. Qed.

Lemma selected_unique cols rs label j :
  NoDup cols -> cols !! j = Some label ->
  series (mkDataFrame cols rs) label = Return (selected (mkDataFrame cols rs) label) ∧
  selected (mkDataFrame cols rs) label = col_values (mkDataFrame cols rs) j.
Proof.
  intros Hnd Hj. unfold selected.
  by rewrite (series_unique (mkDataFrame cols rs) label j Hnd Hj).
Qed.

Lemma filter_eq_unique df label j value :
  NoDup (columns df) -> columns df !! j = Some label ->
  filter_eq df label value = Return (mkDataFrame (columns df) (rows_of df j value)).
Proof.
  intros Hnd Hj. unfold filter_eq. rewrite (series_unique df label j Hnd Hj).
  cbn [obind]. do 2 f_equal. unfold col_values, rows_of.
  induction (rows df) as [|r rs IH]; [done|].
  rewrite !fmap_cons. cbn [zip zip_with]. rewrite !filter_cons. cbn [fst].
  destruct (decide (default CNone (r !! j) = CStr value)) as [Heq|Hne].
  - rewrite bool_decide_eq_true_2 by done. rewrite decide_True by done.
    rewrite fmap_cons. cbn [snd]. by rewrite <-IH.
  - rewrite bool_decide_eq_false_2 by done. rewrite decide_False by done. exact IH.
Qed.

Lemma exact_hits_dropna o column :
  counts_get (value_counts (dropna column)) o = exact_hits o column.
Proof.
  rewrite value_counts_get. unfold exact_hits, dropna.
  induction column as [|c column IH]; [done|].
  rewrite (filter_cons (fun c => isna c = false)), (filter_cons (fun c => c = CStr o)).
  destruct c as [s| |]; cbn [isna].
  - rewrite (decide_True (P := false = false)) by done. rewrite filter_cons.
    destruct (decide (CStr s = CStr o)); cbn [length]; by rewrite IH.
  - rewrite (decide_False (P := true = false)) by done.
    by rewrite (decide_False (P := CNone = CStr o)).
  - rewrite (decide_False (P := true = false)) by done.
    by rewrite (decide_False (P := CNaN = CStr o)).
Qed.

(** One pass of the inner loop appends one count to the list of every
    enumeration value. *)
Lemma summary_data_step (f : string -> list nat) (g : string -> nat) :
  for_each
    (fun summary_data option =>
       try l <- dict_getitem summary_data option;
       Return (dict_set option (l ++ [g option]) summary_data))
    CAMPUS_REP_LIKERT_ORDER ((fun o => (o, f o)) <$> CAMPUS_REP_LIKERT_ORDER)
  = Return ((fun o => (o, f o ++ [g o])) <$> CAMPUS_REP_LIKERT_ORDER).
Proof. reflexivity. Qed.

Lemma summary_data_loop df_staff (qs : list string) (f : string -> list nat) :
  (forall col, col ∈ qs -> series df_staff col = Return (selected df_staff col)) ->
  for_each
    (fun summary_data col =>
       try column <- series df_staff col;
       let responses := dropna column in
       let value_counts := value_counts responses in
       for_each
         (fun summary_data option =>
            let count := counts_get value_counts option in
            try l <- dict_getitem summary_data option;
            Return (dict_set option (l ++ [count]) summary_data))
         CAMPUS_REP_LIKERT_ORDER summary_data)
    qs ((fun o => (o, f o)) <$> CAMPUS_REP_LIKERT_ORDER)
  = Return ((fun o => (o, f o ++ ((fun col => exact_hits o (selected df_staff col)) <$> qs)))
              <$> CAMPUS_REP_LIKERT_ORDER).
Proof.
  revert f. induction qs as [|col qs IH]; intros f Hser.
  - cbn [for_each fmap list_fmap]. f_equal. apply list_fmap_ext. intros _ o _.
    by rewrite app_nil_r.
  - cbn [for_each]. rewrite Hser by left. cbn [obind]. cbv zeta.
    rewrite (summary_data_step f
               (fun o => counts_get (value_counts (dropna (selected df_staff col))) o)).
    cbn [obind]. rewrite IH by (intros c Hc; apply Hser; by right).
    f_equal. apply list_fmap_ext. intros _ o _.
    rewrite fmap_cons, exact_hits_dropna, <-app_assoc. done.
Qed.

(** The chart of a table in which every question label selects one
    column: one bar series per enumeration value, whose heights are the
    exact-match counts of that value, question by question. *)
Lemma generate_clustered_bar_graph_campus_rep_closed df_staff qs labels title :
  (forall col, col ∈ qs -> series df_staff col = Return (selected df_staff col)) ->
  (if df_empty df_staff then Return "Unknown"
   else try names <- series df_staff identity_column;
        try first <- iloc0 names;
        Return (py_str first)) = Return title ->
  generate_clustered_bar_graph_campus_rep df_staff qs labels =
    Return
      (mkChart
         (imap
            (fun i o =>
               mkBars (cluster_positions (arange (length qs)) i 5 (15 # 100))
                 ((fun col => exact_hits o (selected df_staff col)) <$> qs) (15 # 100)
                 (default "" (dict_get campus_rep_colors o)) o)
            CAMPUS_REP_LIKERT_ORDER)
         (title +:+ " - Likert Scale Response Distribution")).
Proof.
  intros Hser Htitle. unfold generate_clustered_bar_graph_campus_rep.
  pose proof (summary_data_loop df_staff qs (fun _ => []) Hser) as Hloop.
  cbv zeta in Hloop |- *.
  change (foldl (fun d option => dict_set option [] d) [] CAMPUS_REP_LIKERT_ORDER)
    with ((fun o : string => (o, @nil nat)) <$> CAMPUS_REP_LIKERT_ORDER).
  rewrite Hloop. cbn [obind]. rewrite Htitle. reflexivity.
Qed.

Lemma summary_rows_closed df_staff :
  (forall col, col ∈ likert_columns -> series df_staff col = Return (selected df_staff col)) ->
  summary_rows df_staff =
    Return
      ((fun cl : string * string =>
          cl.2 :: ((fun o => PyStr.of_nat (exact_hits o (selected df_staff cl.1)))
                     <$> CAMPUS_REP_LIKERT_ORDER))
         <$> zip likert_columns question_labels).
Proof.
  intros Hser. unfold summary_rows. apply map_try_pure. intros [col label] Hin.
  rewrite Hser by (by apply elem_of_zip_l in Hin). cbn [obind fst snd]. cbv zeta.
  do 2 f_equal. apply list_fmap_ext. intros _ o _. by rewrite exact_hits_dropna.
Qed.

Lemma chart_title_of df_staff j :
  NoDup (columns df_staff) -> columns df_staff !! j = Some identity_column ->
  (if df_empty df_staff then Return "Unknown"
   else try names <- series df_staff identity_column;
        try first <- iloc0 names;
        Return (py_str first))
  = Return (match rows df_staff with
            | [] => "Unknown"
            | r :: _ => py_str (default CNone (r !! j))
            end).
Proof.
  intros Hnd Hj. unfold df_empty.
  destruct (rows df_staff) as [|r rs] eqn:Hrows.
  - by rewrite bool_decide_eq_true_2.
  - rewrite bool_decide_eq_false_2 by done.
    rewrite bool_decide_eq_false_2 by (intros Hc; by rewrite Hc in Hj).
    cbn [orb]. rewrite (series_unique df_staff identity_column j Hnd Hj).
    unfold col_values. by rewrite Hrows.
Qed.

Lemma required_columns_selected df_staff (required : list string) :
  NoDup (columns df_staff) ->
  (forall col, col ∈ required -> col ∈ columns df_staff) ->
  forall col, col ∈ required -> series df_staff col = Return (selected df_staff col).
Proof.
  intros Hnd Hreq col Hcol. apply Hreq, list_elem_of_lookup in Hcol as [j Hj].
  destruct df_staff as [cols rs]. by apply (selected_unique cols rs col j).
Qed.

(** X11: The chart and the summary table of a campus-rep report are computed
    separately from the same columns, and agree: for every question and
    every enumeration value, the bar's height and the table's cell are the
    number of cells of that question's column that hold exactly that
    value.  The series follow the enumeration order and the table's rows
    start with the short question labels. *)
Theorem campus_rep_table_matches_chart (df_staff : DataFrame) :
  NoDup (columns df_staff) ->
  (forall col, col ∈ identity_column :: likert_columns -> col ∈ columns df_staff) ->
  exists ch data_rows,
    generate_clustered_bar_graph_campus_rep df_staff likert_columns question_labels
      = Return ch ∧
    summary_rows df_staff = Return data_rows ∧
    bar_label <$> chart_bars ch = CAMPUS_REP_LIKERT_ORDER ∧
    head <$> data_rows = Some <$> question_labels ∧
    forall q col i o,
      likert_columns !! q = Some col -> CAMPUS_REP_LIKERT_ORDER !! i = Some o ->
      exists b row,
        chart_bars ch !! i = Some b ∧
        bar_heights b !! q = Some (exact_hits o (selected df_staff col)) ∧
        data_rows !! q = Some row ∧
        row !! (S i) = Some (PyStr.of_nat (exact_hits o (selected df_staff col))).
Proof.
  intros Hnd Hreq.
  pose proof (required_columns_selected df_staff _ Hnd Hreq) as Hser.
  assert (identity_column ∈ columns df_staff) as Hid by (apply Hreq; left).
  apply list_elem_of_lookup in Hid as [j Hj].
  assert (forall col, col ∈ likert_columns ->
                      series df_staff col = Return (selected df_staff col)) as Hlik
    by (intros col Hcol; apply Hser; by right).
  eexists _, _. split.
  { apply generate_clustered_bar_graph_campus_rep_closed; [exact Hlik|].
    by apply (chart_title_of df_staff j). }
  split; [by apply summary_rows_closed|]. cbn [chart_bars]. split; [reflexivity|].
  split; [reflexivity|].
  intros q col i o Hq Hi.
  assert (exists label, question_labels !! q = Some label) as [label Hlabel].
  { apply lookup_lt_is_Some. apply lookup_lt_Some in Hq.
    by replace (length question_labels) with (length likert_columns). }
  eexists _, _. split_and!.
  - by rewrite list_lookup_imap, Hi.
  - cbn [bar_heights]. by rewrite list_lookup_fmap, Hq.
  - by rewrite list_lookup_fmap, lookup_zip_with, Hq, Hlabel.
  - cbn [fst snd]. rewrite lookup_cons. by rewrite list_lookup_fmap, Hi.
Qed.

Lemma campus_rep_table_matches_chart_witness :
  NoDup (columns scenario_B) ∧
  (forall col, col ∈ identity_column :: likert_columns -> col ∈ columns scenario_B) ∧
  exists ch data_rows,
    generate_clustered_bar_graph_campus_rep scenario_B likert_columns question_labels
      = Return ch ∧
    summary_rows scenario_B = Return data_rows ∧
    bar_label <$> chart_bars ch = CAMPUS_REP_LIKERT_ORDER ∧
    head <$> data_rows = Some <$> question_labels ∧
    forall q col i o,
      likert_columns !! q = Some col -> CAMPUS_REP_LIKERT_ORDER !! i = Some o ->
      exists b row,
        chart_bars ch !! i = Some b ∧
        bar_heights b !! q = Some (exact_hits o (selected scenario_B col)) ∧
        data_rows !! q = Some row ∧
        row !! (S i) = Some (PyStr.of_nat (exact_hits o (selected scenario_B col))).
Proof.
  assert (NoDup (columns scenario_B)) as Hnd.
  { apply (bool_decide_unpack _). vm_compute. exact I. }
  assert (forall col, col ∈ identity_column :: likert_columns -> col ∈ columns scenario_B)
    as Hreq.
  { apply (proj1 (Forall_forall _ _)). apply (bool_decide_unpack _). vm_compute. exact I. }
  split; [exact Hnd|]. split; [exact Hreq|].
  exact (campus_rep_table_matches_chart scenario_B Hnd Hreq).
Defined.

(** * The campus-rep report's file *)

Lemma kept_not_space c :
  PyStr.isalnum c || bool_decide (c = "_"%char) = true -> PyStr.isspace c = false.
Proof. destruct c as [[] [] [] [] [] [] [] []]; by vm_compute. Qed.

Lemma lstrip_no_space s :
  (forall c, PyStr.mem c s = true -> PyStr.isspace c = false) -> PyStr.lstrip s = s.
Proof.
  intros Hs. destruct s as [|c s]; [done|]. cbn [PyStr.lstrip].
  rewrite (Hs c); [done|]. cbn [PyStr.mem]. by rewrite bool_decide_eq_true_2.
Qed.

Lemma rstrip_no_space s :
  (forall c, PyStr.mem c s = true -> PyStr.isspace c = false) -> PyStr.rstrip s = s.
Proof.
  induction s as [|c s IH]; intros Hs; [done|]. cbn [PyStr.rstrip].
  rewrite IH.
  - destruct s; [|done]. rewrite (Hs c); [done|].
    cbn [PyStr.mem]. by rewrite bool_decide_eq_true_2.
  - intros c' Hc'. apply Hs. cbn [PyStr.mem]. rewrite Hc'. apply orb_true_r.
Qed.

Lemma mem_filter_chars keep s c :
  PyStr.mem c (PyStr.filter_chars keep s) = true -> keep c = true.
Proof.
  induction s as [|c' s IH]; [done|]. cbn [PyStr.filter_chars].
  destruct (keep c') eqn:Hk; [|exact IH]. cbn [PyStr.mem].
  intros [Hc%bool_decide_eq_true | Hc]%orb_true_iff; [by subst | by apply IH].
Qed.

(** The characters kept for the file name are never whitespace, so
    trimming the kept characters changes nothing. *)
Lemma safe_name_kept_chars staff_member :
  PyStr.strip
    (PyStr.filter_chars
       (fun c => PyStr.isalnum c || bool_decide (c = "_"%char)) staff_member)
  = kept_chars staff_member.
Proof.
  unfold PyStr.strip, kept_chars.
  assert (forall c,
            PyStr.mem c
              (PyStr.filter_chars
                 (fun c => PyStr.isalnum c || bool_decide (c = "_"%char)) staff_member)
            = true -> PyStr.isspace c = false) as Hns.
  { intros c Hc. apply kept_not_space.
    exact (mem_filter_chars _ _ _ Hc). }
  rewrite lstrip_no_space by exact Hns. by apply rstrip_no_space.
Qed.

(** * Folders and files *)

Lemma head_of_no_slash name : PyStr.mem "/" name = false -> head_of name = EmptyString.
Proof.
  induction name as [|c name IH]; [done|]. cbn [PyStr.mem head_of].
  intros [Hc Hname]%orb_false_iff. by rewrite IH, Hc.
Qed.

Lemma head_of_app_no_slash a name :
  PyStr.mem "/" name = false -> head_of (a +:+ name) = head_of a.
Proof.
  intros Hname. induction a as [|c a IH]; [by apply head_of_no_slash|].
  rewrite app_String. cbn [head_of]. by rewrite IH.
Qed.

Lemma head_of_slash_end a : head_of (a +:+ "/") = a +:+ "/".
Proof.
  induction a as [|c a IH]; [done|].
  rewrite app_String. cbn [head_of]. rewrite IH. by destruct a.
Qed.

Lemma rstrip_slashes_snoc s : rstrip_slashes (s +:+ "/") = rstrip_slashes s.
Proof.
  induction s as [|c s IH]; [done|].
  rewrite app_String. cbn [rstrip_slashes]. by rewrite IH.
Qed.

Lemma rstrip_slashes_decomp s :
  exists t,
    all_chars (fun c => bool_decide (c = "/"%char)) t = true ∧
    s = rstrip_slashes s +:+ t.
Proof.
  induction s as [|c s (t & Ht & Hs)]; [by exists EmptyString|].
  cbn [rstrip_slashes]. destruct (rstrip_slashes s) as [|x r] eqn:Hr.
  - rewrite app_empty in Hs. subst t.
    destruct (bool_decide (c = "/"%char)) eqn:Hc.
    + exists (String c s). split; [|done]. cbn [all_chars]. by rewrite Hc.
    + by exists s.
  - exists t. split; [done|]. by rewrite app_String, <-Hs.
Qed.

Lemma rev_app_ends c s acc :
  PyStr.starts_with (String c EmptyString) (String.rev_app s acc) = true ->
  (s = EmptyString ∧ PyStr.starts_with (String c EmptyString) acc = true) ∨
  exists s', s = s' +:+ String c EmptyString.
Proof.
  revert acc. induction s as [|x s IH]; intros acc; [by left|].
  cbn [String.rev_app]. intros Hstart. right.
  destruct (IH _ Hstart) as [[-> Hx] | [s' ->]].
  - cbn [PyStr.starts_with] in Hx. rewrite andb_true_r in Hx.
    apply bool_decide_eq_true in Hx as <-. by exists EmptyString.
  - by exists (String x s').
Qed.

Lemma rev_ends c s :
  PyStr.starts_with (String c EmptyString) (String.rev s) = true ->
  exists s', s = s' +:+ String c EmptyString.
Proof. intros [[_ ?] | ?]%rev_app_ends; done. Qed.

(** A folder that is listed exists under its name without trailing
    slashes. *)
Lemma dir_exists_rstrip dirs folder :
  folder ∈ dirs -> dir_exists dirs (rstrip_slashes folder) = true.
Proof.
  intros Hin. unfold dir_exists. apply orb_true_iff. right.
  apply existsb_exists. exists folder. split; [by apply list_elem_of_In|].
  destruct (rstrip_slashes_decomp folder) as (t & Ht & Hfolder).
  destruct t as [|c t].
  - rewrite app_empty_r in Hfolder. rewrite bool_decide_eq_true_2 by done. done.
  - cbn [all_chars] in Ht. apply andb_true_iff in Ht as [->%bool_decide_eq_true _].
    apply orb_true_iff. right. rewrite Hfolder at 2.
    change (String "/" t) with ("/" +:+ t). rewrite <-app_assoc_string.
    apply starts_with_app.
Qed.

(** The directory of a file joined to a listed folder exists. *)
Lemma dir_exists_path_join dirs folder name :
  PyStr.mem "/" name = false -> folder ∈ dirs ->
  dir_exists dirs (dirname (path_join folder name)) = true.
Proof.
  intros Hname Hin. unfold path_join, dirname.
  destruct (bool_decide (folder = "")) eqn:Hf.
  { by rewrite head_of_no_slash. }
  destruct (PyStr.starts_with "/" (String.rev folder)) eqn:Hend.
  - rewrite head_of_app_no_slash by done.
    apply rev_ends in Hend as [f' Hf'].
    rewrite Hf', head_of_slash_end, <-Hf'.
    destruct (all_chars _ folder) eqn:Hall.
    + unfold dir_exists. by rewrite Hall.
    + by apply dir_exists_rstrip.
  - rewrite <-app_assoc_string, head_of_app_no_slash by done.
    rewrite head_of_slash_end.
    destruct (all_chars _ (folder +:+ "/")) eqn:Hall.
    + unfold dir_exists. by rewrite Hall.
    + rewrite rstrip_slashes_snoc. by apply dir_exists_rstrip.
Qed.

Lemma ensure_dir_creates folder w :
  exists w0,
    ensure_dir folder w = (w0, Return tt) ∧
    fs_files w0 = fs_files w ∧ ui_log w0 = ui_log w ∧ folder ∈ fs_dirs w0.
Proof.
  unfold ensure_dir. destruct (bool_decide (folder ∈ fs_dirs w)) eqn:Hin.
  - apply bool_decide_eq_true in Hin. by eexists.
  - eexists. split_and!; [done..|]. cbn [fs_dirs]. apply elem_of_app. right. left.
Qed.

(** After the folder was made sure of, the directories are those of
    before and the folder. *)
Lemma ensure_dir_dirs folder w :
  exists w0,
    ensure_dir folder w = (w0, Return tt) ∧
    fs_files w0 = fs_files w ∧ ui_log w0 = ui_log w ∧ folder ∈ fs_dirs w0 ∧
    forall d, dir_exists (fs_dirs w0) d = dir_exists (folder :: fs_dirs w) d.
Proof.
  unfold ensure_dir. destruct (bool_decide (folder ∈ fs_dirs w)) eqn:Hin.
  - apply bool_decide_eq_true in Hin. eexists. split_and!; [done..|].
    intros d. unfold dir_exists. f_equal. cbn [existsb].
    destruct (bool_decide (folder = d) || PyStr.starts_with (d +:+ "/") folder) eqn:Hp;
      [|done].
    cbn [orb]. apply existsb_exists. exists folder. split; [by apply list_elem_of_In | done].
  - eexists. split_and!; [done | done | done | |].
    + cbn [fs_dirs]. apply elem_of_app. right. left.
    + intros d. unfold dir_exists. f_equal. cbn [fs_dirs].
      rewrite existsb_app. cbn [existsb]. rewrite orb_false_r. apply orb_comm.
Qed.

Lemma doc_save_exists path doc w :
  dir_exists (fs_dirs w) (dirname path) = true ->
  doc_save path doc w
  = (mkWorld (fs_dirs w) (dict_set path doc (fs_files w)) (ui_log w), Return tt).
Proof. intros Hd. unfold doc_save. by rewrite Hd. Qed.


Lemma report_name_no_slash staff_member :
  PyStr.mem "/" ("campus_rep_report_" +:+ kept_chars staff_member +:+ ".docx") = false.
Proof.
  rewrite !mem_app. unfold kept_chars.
  destruct (PyStr.mem "/" (PyStr.filter_chars _ staff_member)) eqn:Hk; [|done].
  by apply mem_filter_chars in Hk.
Qed.

(** What a run of the report generator that returns a path has done:
    the path is the report file of the subject, and the file written
    under it starts with the subject's title. *)
Lemma generate_docx_report_returns df staff_member output_folder w w' path :
  generate_docx_report df staff_member output_folder w = (w', Return (Some path)) ->
  path = report_file output_folder staff_member ∧
  exists rest,
    fs_files w' =
      dict_set path (Heading ("Campus Rep Report: " +:+ staff_member) 1 true :: rest)
        (fs_files w).
Proof.
  unfold generate_docx_report, io_bind, io_lift, io_ret.
  destruct (ensure_dir_files output_folder w) as (w0 & -> & Hfiles & Hlog).
  rewrite safe_name_kept_chars.
  destruct (filter_eq df identity_column staff_member) as [df_staff|e]; [|done].
  destruct (df_empty df_staff); [done|].
  destruct (docx_text ("Campus Rep Report: " +:+ staff_member)) as [title|e] eqn:Htitle;
    [|done].
  apply docx_text_returns in Htitle as ->.
  destruct (generate_clustered_bar_graph_campus_rep_bytes df_staff likert_columns
              question_labels) as [chart_bytes|e]; [|done].
  destruct (summary_rows df_staff) as [data_rows|e]; [|done].
  destruct (series df_staff comments_column) as [column|e]; [|done].
  destruct (map_try _ (dropna column)) as [texts|e]; [|done].
  match goal with
  | |- context [doc_save ?path ?doc w0] =>
      destruct (doc_save_cases path doc w0) as [-> | ->]
  end; [|done].
  cbn [st_success fs_files ui_log fs_dirs]. intros [= <- <-].
  split; [done|]. cbn [fs_files]. rewrite Hfiles. by eexists.
Qed.

Lemma df_empty_false cols rs j label :
  cols !! j = Some label -> rs ≠ [] -> df_empty (mkDataFrame cols rs) = false.
Proof.
  intros Hj Hrs. unfold df_empty. cbn [rows columns].
  rewrite bool_decide_eq_false_2 by done.
  rewrite bool_decide_eq_false_2 by (intros ->; done). done.
Qed.

(** The title of the chart of the rows kept for a subject carries the
    subject's name. *)
Lemma chart_title_rows_of df jn staff_member :
  NoDup (columns df) -> columns df !! jn = Some identity_column ->
  rows_of df jn staff_member ≠ [] ->
  (if df_empty (mkDataFrame (columns df) (rows_of df jn staff_member))
   then Return "Unknown"
   else try names <- series (mkDataFrame (columns df) (rows_of df jn staff_member))
                       identity_column;
        try first <- iloc0 names;
        Return (py_str first))
  = Return staff_member.
Proof.
  intros Hnd Hj Hrows.
  rewrite (chart_title_of (mkDataFrame (columns df) (rows_of df jn staff_member)) jn)
    by done.
  cbn [rows]. destruct (rows_of df jn staff_member) as [|r rs] eqn:Hr; [done|].
  assert (r ∈ rows_of df jn staff_member) as Hin by (rewrite Hr; left).
  unfold rows_of in Hin. apply list_elem_of_filter in Hin as [-> _]. done.
Qed.

(** The chart stops at the first question whose column cannot be
    selected. *)
Lemma generate_clustered_bar_graph_campus_rep_raises df_staff pre label post labels e :
  (forall col, col ∈ pre -> series df_staff col = Return (selected df_staff col)) ->
  series df_staff label = Raise e ->
  generate_clustered_bar_graph_campus_rep df_staff (pre ++ label :: post) labels = Raise e.
Proof.
  intros Hser Hlabel. unfold generate_clustered_bar_graph_campus_rep.
  pose proof (summary_data_loop df_staff pre (fun _ => []) Hser) as Hloop.
  cbv zeta in Hloop |- *.
  change (foldl (fun d option => dict_set option [] d) [] CAMPUS_REP_LIKERT_ORDER)
    with ((fun o : string => (o, @nil nat)) <$> CAMPUS_REP_LIKERT_ORDER).
  rewrite for_each_app, Hloop. cbn [obind for_each]. by rewrite Hlabel.
Qed.

(** X12: On a table with distinct labels that has the identity column,
    the five question columns and the comments column, and at least one
    response about the subject, where the subject's name is a plain text
    and the subject's comments hold no control character, the report
    generator (given a folder name that is a plain text and not empty)
    makes sure the folder exists, draws the chart and the table from the
    subject's rows alone, writes the assembled document to the subject's
    report file, tells the user so and returns the path.  The chart's
    title carries the subject's name. *)
Theorem generate_docx_report_success
    (df : DataFrame) (staff_member output_folder : string) (w : world) (jn : nat) :
  output_folder ≠ EmptyString ->
  plain output_folder = true ->
  plain staff_member = true ->
  NoDup (columns df) ->
  columns df !! jn = Some identity_column ->
  (forall col, col ∈ comments_column :: likert_columns -> col ∈ columns df) ->
  rows_of df jn staff_member ≠ [] ->
  (forall c,
     c ∈ selected (mkDataFrame (columns df) (rows_of df jn staff_member)) comments_column ->
     all_chars xml_char (py_str c) = true) ->
  exists ch data_rows w',
    generate_clustered_bar_graph_campus_rep
      (mkDataFrame (columns df) (rows_of df jn staff_member))
      likert_columns question_labels = Return ch ∧
    chart_title ch = staff_member +:+ " - Likert Scale Response Distribution" ∧
    summary_rows (mkDataFrame (columns df) (rows_of df jn staff_member))
      = Return data_rows ∧
    generate_docx_report df staff_member output_folder w
      = (w', Return (Some (report_file output_folder staff_member))) ∧
    fs_files w' =
      dict_set (report_file output_folder staff_member)
        (assembled staff_member ch data_rows
           (dropna (selected (mkDataFrame (columns df) (rows_of df jn staff_member))
                      comments_column)))
        (fs_files w) ∧
    ui_log w' =
      ui_log w ++
        [UiSuccess ("DOCX report saved as " +:+ report_file output_folder staff_member)] ∧
    output_folder ∈ fs_dirs w'.
Proof.
  intros _ _ Hname Hnd Hj Hreq Hrows Hcomments.
  set (df_staff := mkDataFrame (columns df) (rows_of df jn staff_member)) in *.
  pose proof (required_columns_selected df_staff _ Hnd Hreq) as Hser.
  assert (forall col, col ∈ likert_columns ->
                      series df_staff col = Return (selected df_staff col)) as Hlik
    by (intros col Hcol; apply Hser; by right).
  pose proof (generate_clustered_bar_graph_campus_rep_closed df_staff likert_columns
                question_labels staff_member Hlik
                (chart_title_rows_of df jn staff_member Hnd Hj Hrows)) as Hchart.
  pose proof (summary_rows_closed df_staff Hlik) as Hsum.
  eexists _, _.
  unfold generate_docx_report, io_bind, io_lift, io_ret.
  destruct (ensure_dir_creates output_folder w) as (w0 & -> & Hfiles & Hlog & Hdir).
  rewrite safe_name_kept_chars. fold (report_file output_folder staff_member).
  rewrite (filter_eq_unique df identity_column jn staff_member Hnd Hj).
  fold df_staff.
  assert (df_empty df_staff = false) as ->
    by exact (df_empty_false (columns df) _ jn identity_column Hj Hrows).
  rewrite docx_text_plain by (by rewrite plain_app, Hname).
  unfold generate_clustered_bar_graph_campus_rep_bytes. rewrite Hchart. cbn [obind].
  rewrite savefig_plain.
  2: { constructor; [|by repeat constructor]. cbn [chart_title].
       by rewrite plain_app, Hname. }
  rewrite Hsum. rewrite (Hser comments_column) by left.
  rewrite (map_try_pure _ (fun comment => py_str comment)).
  2: { intros c [_ Hc]%list_elem_of_filter. unfold docx_text.
       by rewrite (Hcomments c Hc). }
  rewrite doc_save_exists.
  2: { apply dir_exists_path_join; [apply report_name_no_slash | exact Hdir]. }
  cbn [st_success fs_files ui_log fs_dirs]. eexists.
  split_and!; [reflexivity | reflexivity | reflexivity | reflexivity | | | ].
  - cbn [fs_files]. by rewrite Hfiles.
  - cbn [ui_log]. by rewrite Hlog.
  - exact Hdir.
Qed.

Lemma generate_docx_report_success_witness :
  "reports" ≠ EmptyString ∧
  plain "reports" = true ∧
  plain "Ann Lee" = true ∧
  NoDup (columns two_reps_table) ∧
  columns two_reps_table !! 0 = Some identity_column ∧
  (forall col, col ∈ comments_column :: likert_columns -> col ∈ columns two_reps_table) ∧
  rows_of two_reps_table 0 "Ann Lee" ≠ [] ∧
  (forall c,
     c ∈ selected (mkDataFrame (columns two_reps_table) (rows_of two_reps_table 0 "Ann Lee"))
           comments_column ->
     all_chars xml_char (py_str c) = true) ∧
  exists w',
    generate_docx_report two_reps_table "Ann Lee" "reports" empty_world
      = (w', Return (Some (report_file "reports" "Ann Lee"))) ∧
    ui_log w' =
      ui_log empty_world ++
        [UiSuccess ("DOCX report saved as " +:+ report_file "reports" "Ann Lee")].
Proof.
  assert ("reports" ≠ EmptyString) as Hfolder by discriminate.
  assert (plain "Ann Lee" = true) as Hname by reflexivity.
  assert (NoDup (columns two_reps_table)) as Hnd.
  { apply (bool_decide_unpack _). vm_compute. exact I. }
  assert (columns two_reps_table !! 0 = Some identity_column) as Hj by reflexivity.
  assert (forall col, col ∈ comments_column :: likert_columns ->
                      col ∈ columns two_reps_table) as Hreq.
  { apply (proj1 (Forall_forall _ _)). apply (bool_decide_unpack _). vm_compute. exact I. }
  assert (rows_of two_reps_table 0 "Ann Lee" ≠ []) as Hrows by (vm_compute; discriminate).
  assert (forall c,
            c ∈ selected (mkDataFrame (columns two_reps_table)
                            (rows_of two_reps_table 0 "Ann Lee")) comments_column ->
            all_chars xml_char (py_str c) = true) as Hcomments.
  { apply (proj1 (Forall_forall _ _)). apply (bool_decide_unpack _). vm_compute. exact I. }
  split; [exact Hfolder|]. split; [reflexivity|]. split; [exact Hname|]. split; [exact Hnd|]. split; [exact Hj|].
  split; [exact Hreq|]. split; [exact Hrows|]. split; [exact Hcomments|].
  destruct (generate_docx_report_success two_reps_table "Ann Lee" "reports" empty_world 0
              Hfolder eq_refl Hname Hnd Hj Hreq Hrows Hcomments)
    as (ch & data_rows & w' & _ & _ & _ & Hrun & _ & Hlog & _).
  exists w'. split; [exact Hrun | exact Hlog].
Defined.

(** X13: A run of the report generator on a table with distinct labels
    (given a folder name that is a plain text and not empty) stops at the
    first column it needs and does not find, in the order identity column,
    question columns, comments column, provided, past the identity column,
    that the subject has a response and a name that is a plain text: it
    raises [KeyError] with that label.  By then the folder has been
    created; no file is written and nothing is reported to the user. *)
Theorem generate_docx_report_missing_column
    (df : DataFrame) (staff_member output_folder : string) (w : world)
    (pre : list string) (label : string) (post : list string) :
  output_folder ≠ EmptyString ->
  plain output_folder = true ->
  NoDup (columns df) ->
  identity_column :: likert_columns ++ [comments_column] = pre ++ label :: post ->
  (forall col, col ∈ pre -> col ∈ columns df) ->
  label ∉ columns df ->
  (forall jn, columns df !! jn = Some identity_column ->
              rows_of df jn staff_member ≠ [] ∧ plain staff_member = true) ->
  exists w',
    generate_docx_report df staff_member output_folder w = (w', Raise (KeyError label)) ∧
    fs_files w' = fs_files w ∧
    ui_log w' = ui_log w ∧
    output_folder ∈ fs_dirs w'.
Proof.
  intros _ _ Hnd Heq Hpre Hlabel Hsubject.
  unfold generate_docx_report, io_bind, io_lift, io_ret.
  destruct (ensure_dir_creates output_folder w) as (w0 & -> & Hfiles & Hlog & Hdir).
  destruct pre as [|p pre].
  { assert (label = identity_column) as -> by (cbn [app] in Heq; congruence).
    unfold filter_eq. rewrite series_missing by done.
    by exists w0. }
  change ((p :: pre) ++ label :: post) with (p :: (pre ++ label :: post)) in Heq.
  assert (p = identity_column) as -> by congruence.
  assert (likert_columns ++ [comments_column] = pre ++ label :: post) as Hrest
    by congruence.
  clear Heq. rename Hrest into Heq.
  assert (identity_column ∈ columns df) as Hid by (apply Hpre; left).
  apply list_elem_of_lookup in Hid as [jn Hj].
  destruct (Hsubject jn Hj) as [Hrows Hname].
  rewrite (filter_eq_unique df identity_column jn staff_member Hnd Hj).
  set (df_staff := mkDataFrame (columns df) (rows_of df jn staff_member)).
  assert (df_empty df_staff = false) as ->
    by exact (df_empty_false (columns df) _ jn identity_column Hj Hrows).
  rewrite docx_text_plain by (by rewrite plain_app, Hname).
  assert (forall col, col ∈ pre -> series df_staff col = Return (selected df_staff col))
    as Hser.
  { apply (required_columns_selected df_staff pre Hnd).
    intros col Hcol. apply Hpre. by right. }
  assert (series df_staff label = Raise (KeyError label)) as Hmiss
    by (by apply series_missing).
  unfold generate_clustered_bar_graph_campus_rep_bytes.
  destruct post as [|x post _] using rev_ind.
  - apply app_inj_tail in Heq as [<- <-].
    rewrite (generate_clustered_bar_graph_campus_rep_closed df_staff likert_columns
               question_labels staff_member Hser
               (chart_title_rows_of df jn staff_member Hnd Hj Hrows)).
    cbn [obind]. rewrite savefig_plain.
    2: { constructor; [|by repeat constructor]. cbn [chart_title].
         by rewrite plain_app, Hname. }
    rewrite (summary_rows_closed df_staff Hser). rewrite Hmiss. by exists w0.
  - change (pre ++ label :: post ++ [x]) with (pre ++ (label :: post) ++ [x]) in Heq.
    rewrite app_assoc in Heq. apply app_inj_tail in Heq as [-> _].
    rewrite (generate_clustered_bar_graph_campus_rep_raises df_staff pre label post
               question_labels (KeyError label) Hser Hmiss).
    by exists w0.
Qed.

Lemma generate_docx_report_missing_column_witness :
  "reports" ≠ EmptyString ∧
  plain "reports" = true ∧
  NoDup (columns no_comments_table) ∧
  (identity_column :: (likert_columns ++ [comments_column]))
  = ((identity_column :: likert_columns) ++ (comments_column :: [])) ∧
  (forall col, col ∈ identity_column :: likert_columns -> col ∈ columns no_comments_table) ∧
  (comments_column ∉ columns no_comments_table) ∧
  (forall jn, columns no_comments_table !! jn = Some identity_column ->
              rows_of no_comments_table jn "Jordan" ≠ [] ∧ plain "Jordan" = true) ∧
  exists w',
    generate_docx_report no_comments_table "Jordan" "reports" empty_world
      = (w', Raise (KeyError comments_column)) ∧
    fs_files w' = fs_files empty_world ∧
    ui_log w' = ui_log empty_world ∧
    "reports" ∈ fs_dirs w'.
Proof.
  assert ("reports" ≠ EmptyString) as Hfolder by discriminate.
  assert (NoDup (columns no_comments_table)) as Hnd.
  { apply (bool_decide_unpack _). vm_compute. exact I. }
  assert ((identity_column :: (likert_columns ++ [comments_column]))
          = ((identity_column :: likert_columns) ++ (comments_column :: []))) as Heq
    by reflexivity.
  assert (forall col, col ∈ identity_column :: likert_columns ->
                      col ∈ columns no_comments_table) as Hpre
    by (intros col Hcol; exact Hcol).
  assert (comments_column ∉ columns no_comments_table) as Hlabel.
  { apply (bool_decide_unpack _). vm_compute. exact I. }
  assert (forall jn, columns no_comments_table !! jn = Some identity_column ->
                     rows_of no_comments_table jn "Jordan" ≠ [] ∧ plain "Jordan" = true)
    as Hsubject.
  { intros [|jn] Hjn; [split; [vm_compute; discriminate | reflexivity]|]. exfalso.
    change (likert_columns !! jn = Some identity_column) in Hjn.
    apply list_elem_of_lookup_2 in Hjn. revert Hjn.
    apply (bool_decide_unpack _). vm_compute. exact I. }
  split; [exact Hfolder|]. split; [reflexivity|].
  split; [exact Hnd|]. split; [exact Heq|]. split; [exact Hpre|]. split; [exact Hlabel|].
  split; [exact Hsubject|].
  exact (generate_docx_report_missing_column no_comments_table "Jordan" "reports"
           empty_world _ _ _ Hfolder eq_refl Hnd Heq Hpre Hlabel Hsubject).
Defined.

(** X14: The file name of a report keeps only the letters, digits and
    underscores of the subject's name.  So when the names of two subjects
    differ in other characters only, their reports share one file: the
    second run returns the same path, adds no file, and the file now holds
    the second subject's report. *)
Theorem generate_docx_report_name_collision
    (df_a df_b : DataFrame) (a b output_folder : string) (w w1 w2 : world)
    (path_a path_b : string) :
  kept_chars a = kept_chars b ->
  generate_docx_report df_a a output_folder w = (w1, Return (Some path_a)) ->
  generate_docx_report df_b b output_folder w1 = (w2, Return (Some path_b)) ->
  path_b = path_a ∧
  dict_keys (fs_files w2) = dict_keys (fs_files w1) ∧
  exists rest,
    dict_get (fs_files w2) path_a
    = Some (Heading ("Campus Rep Report: " +:+ b) 1 true :: rest).
Proof.
  intros Hkept Ha Hb.
  apply generate_docx_report_returns in Ha as [Hpa [rest_a Hfa]].
  apply generate_docx_report_returns in Hb as [Hpb [rest_b Hfb]].
  assert (path_b = path_a) as ->.
  { rewrite Hpa, Hpb. unfold report_file. by rewrite Hkept. }
  split; [done|]. split.
  - rewrite Hfb, dict_keys_set. rewrite decide_True; [done|].
    rewrite Hfa, dict_keys_set. case_decide; [done|].
    apply elem_of_app. right. left.
  - exists rest_b. rewrite Hfb. apply dict_get_set_eq.
Qed.

Lemma generate_docx_report_name_collision_witness :
  kept_chars "Ann Lee" = kept_chars "AnnLee" ∧
  generate_docx_report two_reps_table "Ann Lee" "reports" empty_world
  = ((generate_docx_report two_reps_table "Ann Lee" "reports" empty_world).1,
     Return (Some "reports/campus_rep_report_AnnLee.docx")) ∧
  generate_docx_report two_reps_table "AnnLee" "reports"
    (generate_docx_report two_reps_table "Ann Lee" "reports" empty_world).1
  = ((generate_docx_report two_reps_table "AnnLee" "reports"
        (generate_docx_report two_reps_table "Ann Lee" "reports" empty_world).1).1,
     Return (Some "reports/campus_rep_report_AnnLee.docx")) ∧
  dict_keys
    (fs_files
       (generate_docx_report two_reps_table "AnnLee" "reports"
          (generate_docx_report two_reps_table "Ann Lee" "reports" empty_world).1).1)
  = dict_keys
      (fs_files (generate_docx_report two_reps_table "Ann Lee" "reports" empty_world).1).
Proof.
  assert (kept_chars "Ann Lee" = kept_chars "AnnLee") as Hkept by reflexivity.
  assert (generate_docx_report two_reps_table "Ann Lee" "reports" empty_world
          = ((generate_docx_report two_reps_table "Ann Lee" "reports" empty_world).1,
             Return (Some "reports/campus_rep_report_AnnLee.docx"))) as Ha
    by (vm_compute; reflexivity).
  assert (generate_docx_report two_reps_table "AnnLee" "reports"
            (generate_docx_report two_reps_table "Ann Lee" "reports" empty_world).1
          = ((generate_docx_report two_reps_table "AnnLee" "reports"
                (generate_docx_report two_reps_table "Ann Lee" "reports" empty_world).1).1,
             Return (Some "reports/campus_rep_report_AnnLee.docx"))) as Hb
    by (vm_compute; reflexivity).
  split; [exact Hkept|]. split; [exact Ha|]. split; [exact Hb|].
  exact (proj1 (proj2 (generate_docx_report_name_collision _ _ _ _ _ _ _ _ _ _
                         Hkept Ha Hb))).
Defined.

(** * The metric name of a label *)

Lemma length_app_string a b :
  String.length (a +:+ b) = String.length a + String.length b.
Proof. induction a as [|c a IH]; [done|]. rewrite app_String. simpl. by rewrite IH. Qed.

Lemma app_inj_length a b a' b' :
  a +:+ b = a' +:+ b' -> String.length a = String.length a' -> a = a' ∧ b = b'.
Proof.
  revert a'. induction a as [|c a IH]; intros [|c' a']; try done.
  rewrite !app_String. intros [= -> Heq] [= Hlen].
  destruct (IH _ Heq Hlen) as [-> ->]. done.
Qed.

Lemma split_go_nonempty sep skip cur s : PyStr.split_go sep skip cur s ≠ [].
Proof.
  revert skip cur. induction s as [|c s IH]; intros skip cur; [done|].
  cbn [PyStr.split_go]. destruct skip; [|apply IH].
  destruct (PyStr.starts_with sep (String c s)); [done | apply IH].
Qed.

Lemma last_cons_nonempty {A} (x : A) l d : l ≠ [] -> List.last (x :: l) d = List.last l d.
Proof. by destruct l. Qed.

Lemma last_default_irrelevant {A} (l : list A) d d' : l ≠ [] -> List.last l d = List.last l d'.
Proof.
  induction l as [|x l IH]; [done|]. intros _. destruct l as [|y l]; [done|].
  change (List.last (y :: l) d = List.last (y :: l) d'). by apply IH.
Qed.

(** The last piece of a split is either all that was read, when no
    separator is met, or it follows a separator. *)
Lemma split_go_last_follows sep s skip cur sep2 rest d :
  sep ≠ EmptyString ->
  s = sep2 +:+ rest -> String.length sep2 = skip -> (skip ≠ 0 -> cur = EmptyString) ->
  List.last (PyStr.split_go sep skip cur s) d = cur +:+ rest ∨
  exists pre, cur +:+ rest = pre +:+ sep +:+ List.last (PyStr.split_go sep skip cur s) d.
Proof.
  intros Hne. revert skip cur sep2 rest.
  induction s as [|c s IH]; intros skip cur sep2 rest Hs Hlen Hcur.
  - destruct sep2; [|done]. rewrite app_empty in Hs. subst rest.
    left. cbn. by rewrite app_empty_r.
  - cbn [PyStr.split_go]. destruct skip as [|k].
    + destruct sep2; [|done]. rewrite app_empty in Hs. subst rest. clear Hcur.
      destruct (PyStr.starts_with sep (String c s)) eqn:Hstart.
      * rewrite last_cons_nonempty by apply split_go_nonempty.
        apply starts_with_spec in Hstart as [post Hpost].
        destruct sep as [|c0 sepT]; [done|].
        rewrite app_String in Hpost. injection Hpost as <- Hs.
        replace (String.length (String c sepT) - 1) with (String.length sepT)
          by (simpl; lia).
        destruct (IH (String.length sepT) EmptyString sepT post) as [Hl | [pre Hl]];
          [done | done | done | |].
        -- right. exists cur. rewrite Hl, app_empty, Hs.
           by rewrite ?app_assoc_string, ?app_String.
        -- right. exists (cur +:+ String c sepT +:+ pre). rewrite app_empty in Hl.
           rewrite Hs at 1. rewrite Hl at 1. by rewrite ?app_assoc_string, ?app_String.
      * destruct (IH 0 (cur +:+ String c EmptyString) EmptyString s)
          as [Hl | [pre Hl]]; [done | done | done | |].
        -- left. rewrite Hl. by rewrite app_assoc_string.
        -- right. exists pre. rewrite <-Hl. by rewrite app_assoc_string.
    + rewrite (Hcur ltac:(done)). destruct sep2 as [|c2 sep2]; [done|].
      rewrite app_String in Hs. injection Hs as <- Hs. injection Hlen as Hlen.
      destruct (IH k EmptyString sep2 rest) as [Hl | [pre Hl]];
        [done | done | done | by left | right; by exists pre].
Qed.

(** No separator lies in the last piece of a split. *)
Lemma split_go_last_no_sep sep s skip cur d :
  sep ≠ EmptyString ->
  (skip ≠ 0 -> cur = EmptyString) ->
  (forall pre b, cur +:+ s = pre +:+ b -> String.length pre < String.length cur ->
                 PyStr.starts_with sep b = false) ->
  PyStr.contains sep (List.last (PyStr.split_go sep skip cur s) d) = false.
Proof.
  intros Hne. revert skip cur. induction s as [|c s IH]; intros skip cur Hcur Hinv.
  - cbn. apply not_true_is_false. intros (pre & post & Hpp)%contains_spec.
    assert (PyStr.starts_with sep (sep +:+ post) = false) as Hf.
    { apply (Hinv pre); [by rewrite app_empty_r|].
      rewrite Hpp, !length_app_string. destruct sep; [done|]. simpl. lia. }
    by rewrite starts_with_app in Hf.
  - cbn [PyStr.split_go]. destruct skip as [|k].
    + destruct (PyStr.starts_with sep (String c s)) eqn:Hstart.
      * rewrite last_cons_nonempty by apply split_go_nonempty.
        apply IH; [done|]. intros pre b _ Hlt. simpl in Hlt. lia.
      * apply IH; [done|]. intros pre b Heq Hlt.
        rewrite app_assoc_string, app_String, app_empty in Heq.
        rewrite length_app_string in Hlt. simpl in Hlt.
        destruct (decide (String.length pre < String.length cur)) as [Hlt'|Hge].
        -- exact (Hinv pre b Heq Hlt').
        -- destruct (app_inj_length _ _ _ _ Heq) as [_ <-]; [lia | done].
    + rewrite (Hcur ltac:(done)). apply IH; [done|]. intros pre b _ Hlt.
      simpl in Hlt. lia.
Qed.

(** X15: The metric name of a label is what follows a separator [" - "] and
    holds no separator itself; a label without separator is its own
    metric name. *)
Theorem skill_of_follows_separator (col : string) :
  PyStr.contains " - " (skill_of col) = false ∧
  if PyStr.contains " - " col
  then exists pre, col = pre +:+ " - " +:+ skill_of col
  else skill_of col = col.
Proof.
  assert (PyStr.contains " - " (skill_of col) = false) as Hno.
  { unfold skill_of, PyStr.split_last, PyStr.split.
    apply split_go_last_no_sep; [done | done |].
    intros pre b _ Hlt. simpl in Hlt. lia. }
  split; [exact Hno|].
  destruct (PyStr.contains " - " col) eqn:Hc; [|by apply skill_of_no_separator].
  destruct (split_go_last_follows " - " col 0 EmptyString EmptyString col col)
    as [Hl | [pre Hl]]; [done..| |].
  - exfalso. unfold skill_of, PyStr.split_last, PyStr.split in Hno.
    rewrite Hl, app_empty in Hno. congruence.
  - exists pre. by rewrite app_empty in Hl.
Qed.

Lemma split_go_skip sep p cur s :
  PyStr.split_go sep (String.length p) cur (p +:+ s) = PyStr.split_go sep 0 cur s.
Proof. induction p as [|c p IH]; [done|]. rewrite app_String. exact IH. Qed.

(** A text made of a part in which no separator starts, a separator and
    a part without separator splits into these two parts. *)
Lemma split_go_two sep n g cur :
  sep ≠ EmptyString ->
  (forall pre b, n +:+ sep +:+ g = pre +:+ b -> String.length pre < String.length n ->
                 PyStr.starts_with sep b = false) ->
  PyStr.contains sep g = false ->
  PyStr.split_go sep 0 cur (n +:+ sep +:+ g) = [cur +:+ n; g].
Proof.
  intros Hne Hinv Hg. revert cur Hinv. induction n as [|c n IH]; intros cur Hinv.
  - rewrite app_empty, app_empty_r. destruct sep as [|c0 sepT]; [done|].
    rewrite app_String. cbn [PyStr.split_go].
    rewrite <-app_String, starts_with_app. f_equal.
    replace (String.length (String c0 sepT) - 1) with (String.length sepT) by (simpl; lia).
    rewrite split_go_skip. by apply split_go_no_separator.
  - rewrite app_String. cbn [PyStr.split_go]. rewrite <-app_String.
    rewrite (Hinv EmptyString (String c n +:+ sep +:+ g)) by (done || simpl; lia).
    rewrite IH.
    + by rewrite app_assoc_string.
    + intros pre b Heq Hlt. apply (Hinv (String c pre) b).
      * by rewrite !app_String, Heq.
      * simpl. lia.
Qed.

(** No separator [" - "] starts inside a text that holds no [" -"]. *)
Lemma separator_not_inside n g pre b :
  PyStr.contains " -" n = false ->
  n +:+ " - " +:+ g = pre +:+ b -> String.length pre < String.length n ->
  PyStr.starts_with " - " b = false.
Proof.
  revert pre. induction n as [|c n IH]; intros pre Hn Heq Hlt; [simpl in Hlt; lia|].
  cbn [PyStr.contains] in Hn. apply orb_false_iff in Hn as [Hhere Hlater].
  destruct pre as [|x pre].
  - rewrite app_empty in Heq. subst b. rewrite app_String.
    destruct n as [|c' n].
    + rewrite app_empty. cbn. by rewrite andb_false_r.
    + rewrite app_String. cbn [PyStr.starts_with] in Hhere |- *.
      destruct (bool_decide (" "%char = c)); [|done].
      destruct (bool_decide ("-"%char = c')); [done|]. cbn. done.
  - rewrite !app_String in Heq. injection Heq as _ Heq.
    apply (IH pre); [done | done | simpl in Hlt; lia].
Qed.

(** X16: From the sheet to the tally: a header made of a name and a bracketed
    category is counted under the trimmed category, when the trimmed
    name holds no [" -"] and the trimmed category no [" - "]. *)
Theorem bracketed_header_metric (name ws category rest : string) :
  PyStr.mem "["%char name = false -> PyStr.mem HeaderRegex.newline name = false ->
  PyStr.all_space ws = true ->
  PyStr.mem "]"%char category = false ->
  PyStr.mem HeaderRegex.newline category = false ->
  PyStr.contains " -" (PyStr.strip name) = false ->
  PyStr.contains " - " (PyStr.strip category) = false ->
  skill_of (clean_label (name +:+ ws +:+ "[" +:+ category +:+ "]" +:+ rest))
  = PyStr.strip category.
Proof.
  intros Hb Hn Hws Hr Hcn Hname Hcat.
  rewrite clean_label_form by done.
  unfold skill_of, PyStr.split_last, PyStr.split.
  rewrite split_go_two; [done | done | | done].
  intros pre b Heq Hlt. by apply (separator_not_inside (PyStr.strip name)
                                    (PyStr.strip category) pre b).
Qed.

Lemma bracketed_header_metric_witness :
  PyStr.mem "["%char "Alice Smith" = false ∧
  PyStr.mem HeaderRegex.newline "Alice Smith" = false ∧
  PyStr.all_space " " = true ∧
  PyStr.mem "]"%char " Team-work " = false ∧
  PyStr.mem HeaderRegex.newline " Team-work " = false ∧
  PyStr.contains " -" (PyStr.strip "Alice Smith") = false ∧
  PyStr.contains " - " (PyStr.strip " Team-work ") = false ∧
  skill_of (clean_label ("Alice Smith" +:+ " " +:+ "[" +:+ " Team-work " +:+ "]" +:+ " *"))
  = PyStr.strip " Team-work ".
Proof.
  split_and!; [reflexivity..|].
  apply (bracketed_header_metric "Alice Smith" " " " Team-work " " *"); reflexivity.
Defined.

(** * The campus-rep chart *)

(** X17: On a table with distinct labels that has the identity column and the
    five question columns, the campus-rep chart has one series of bars
    per enumeration value, in enumeration order and in the fixed colours
    green, light green, yellow, orange, red; the bar of the value of index
    [i] in the cluster of question [q] has width 0.15 and stands at
    [q + i*w - (5/2)*w + w/2], so within a cluster the bars stand left to
    right in enumeration order.  The title names the representative of
    the first row, and reads "Unknown" when the table has no row, in which
    case every bar has height zero.  (Positions are taken over the
    rationals.) *)
Theorem campus_rep_chart_layout (df_staff : DataFrame) (jn : nat) :
  NoDup (columns df_staff) ->
  columns df_staff !! jn = Some identity_column ->
  (forall col, col ∈ likert_columns -> col ∈ columns df_staff) ->
  exists ch,
    generate_clustered_bar_graph_campus_rep df_staff likert_columns question_labels
      = Return ch ∧
    bar_color <$> chart_bars ch =
      ["#1a9641"; "#a6d96a"; "#ffff42"; "#fdae61"; "#d7191c"] ∧
    (forall i b,
       chart_bars ch !! i = Some b ->
       (bar_width b == 15 # 100)%Q ∧
       length (bar_positions b) = length likert_columns ∧
       length (bar_heights b) = length likert_columns ∧
       forall q, q < length likert_columns ->
         exists p,
           bar_positions b !! q = Some p ∧
           (p == Q_of_nat q + Q_of_nat i * (15 # 100) - (5 # 2) * (15 # 100)
                 + (15 # 100) / 2)%Q) ∧
    (forall i i' b b' q p p',
       i < i' ->
       chart_bars ch !! i = Some b -> chart_bars ch !! i' = Some b' ->
       bar_positions b !! q = Some p -> bar_positions b' !! q = Some p' ->
       (p < p')%Q) ∧
    chart_title ch =
      match rows df_staff with
      | [] => "Unknown"
      | r :: _ => py_str (default CNone (r !! jn))
      end +:+ " - Likert Scale Response Distribution" ∧
    (rows df_staff = [] ->
     forall b, b ∈ chart_bars ch -> Forall (fun n => n = 0) (bar_heights b)).
Proof.
  intros Hnd Hj Hreq.
  pose proof (required_columns_selected df_staff _ Hnd Hreq) as Hlik.
  eexists. split.
  { apply generate_clustered_bar_graph_campus_rep_closed; [exact Hlik|].
    by apply (chart_title_of df_staff jn). }
  cbn [chart_bars chart_title]. split_and!.
  - reflexivity.
  - intros i b Hb. rewrite list_lookup_imap in Hb.
    destruct (CAMPUS_REP_LIKERT_ORDER !! i) as [o|] eqn:Ho; [|done].
    apply (inj Some) in Hb as <-. cbn [bar_width bar_positions bar_heights]. split_and!.
    + reflexivity.
    + unfold cluster_positions, arange. by rewrite !length_fmap, length_seq.
    + by rewrite length_fmap.
    + intros q Hq. eexists. split.
      * unfold cluster_positions. by rewrite list_lookup_fmap, arange_lookup.
      * reflexivity.
  - intros i i' b b' q p p' Hlt Hb Hb' Hp Hp'.
    rewrite list_lookup_imap in Hb, Hb'.
    destruct (CAMPUS_REP_LIKERT_ORDER !! i) as [o|]; [|done].
    destruct (CAMPUS_REP_LIKERT_ORDER !! i') as [o'|]; [|done].
    apply (inj Some) in Hb as <-. apply (inj Some) in Hb' as <-.
    cbn [bar_positions] in Hp, Hp'.
    unfold cluster_positions in Hp, Hp'. rewrite list_lookup_fmap in Hp, Hp'.
    destruct (arange (length likert_columns) !! q) as [x|]; [|done].
    apply (inj Some) in Hp as <-. apply (inj Some) in Hp' as <-.
    pose proof (Q_of_nat_lt i i' Hlt) as Hq. lra.
  - reflexivity.
  - intros Hrows b Hb. apply list_elem_of_lookup in Hb as [i Hb].
    rewrite list_lookup_imap in Hb.
    destruct (CAMPUS_REP_LIKERT_ORDER !! i) as [o|]; [|done].
    apply (inj Some) in Hb as <-. cbn [bar_heights]. apply Forall_fmap, Forall_forall.
    intros col Hcol. cbn. pose proof (Hreq col Hcol) as Hin.
    apply list_elem_of_lookup in Hin as [j Hjc].
    destruct df_staff as [cols rs]. cbn [rows columns] in *. subst rs.
    destruct (selected_unique cols [] col j Hnd Hjc) as [_ ->]. done.
Qed.

Lemma campus_rep_chart_layout_witness :
  NoDup (columns scenario_B) ∧
  columns scenario_B !! 0 = Some identity_column ∧
  (forall col, col ∈ likert_columns -> col ∈ columns scenario_B) ∧
  exists ch,
    generate_clustered_bar_graph_campus_rep scenario_B likert_columns question_labels
      = Return ch ∧
    bar_color <$> chart_bars ch =
      ["#1a9641"; "#a6d96a"; "#ffff42"; "#fdae61"; "#d7191c"] ∧
    chart_title ch = "Sam - Likert Scale Response Distribution".
Proof.
  assert (NoDup (columns scenario_B)) as Hnd.
  { apply (bool_decide_unpack _). vm_compute. exact I. }
  assert (columns scenario_B !! 0 = Some identity_column) as Hj by reflexivity.
  assert (forall col, col ∈ likert_columns -> col ∈ columns scenario_B) as Hreq.
  { apply (proj1 (Forall_forall _ _)). apply (bool_decide_unpack _). vm_compute. exact I. }
  split; [exact Hnd|]. split; [exact Hj|]. split; [exact Hreq|].
  destruct (campus_rep_chart_layout scenario_B 0 Hnd Hj Hreq)
    as (ch & Hrun & Hcolors & _ & _ & Htitle & _).
  exists ch. split; [exact Hrun|]. split; [exact Hcolors | exact Htitle].
Defined.

(** * The staff report *)

Lemma for_each_ext {A S} (body1 body2 : S -> A -> outcome S) xs s :
  (forall s' x, body1 s' x = body2 s' x) -> for_each body1 xs s = for_each body2 xs s.
Proof.
  intros Hext. revert s. induction xs as [|x xs IH]; intros s; [done|].
  cbn [for_each]. rewrite Hext. destruct (body2 s x); [apply IH | done].
Qed.

Lemma dict_get_lookup {V} (d : pydict V) j k v :
  NoDup (dict_keys d) -> d !! j = Some (k, v) -> dict_get d k = Some v.
Proof.
  revert j. induction d as [|[k0 v0] d IH]; intros j Hnd Hj; [done|].
  rewrite dict_keys_cons in Hnd. apply NoDup_cons in Hnd as [Hnin Hnd].
  cbn [dict_get]. destruct j as [|j]; simpl in Hj.
  - injection Hj as -> ->. by rewrite decide_True.
  - rewrite decide_False; [by eapply IH|]. intros ->. apply Hnin.
    unfold dict_keys. apply list_elem_of_fmap. exists (k, v). split; [done|].
    by eapply list_elem_of_lookup_2.
Qed.

Lemma calculate_likert_counts_keys_NoDup df staff_name counts_data :
  calculate_likert_counts df staff_name = Return counts_data ->
  NoDup (dict_keys counts_data).
Proof.
  rewrite calculate_likert_counts_closed. intros [= <-].
  apply dict_keys_foldl_set_NoDup, NoDup_nil_2.
Qed.

Lemma staff_columns_nil df staff_name :
  (forall col, col ∈ columns df -> PyStr.contains staff_name col = false) ->
  staff_columns df staff_name = [].
Proof.
  unfold staff_columns. generalize (columns df). intros cols.
  induction cols as [|c cols IH]; intros Hno; [done|].
  rewrite filter_cons, decide_False.
  - apply IH. intros col Hcol. apply Hno. by right.
  - rewrite (Hno c) by left. done.
Qed.

Lemma starts_with_slash_report_name s :
  PyStr.starts_with "/" (PyStr.replace_char " " "_" s +:+ "_Report.docx")
  = PyStr.starts_with "/" s.
Proof.
  destruct s as [|x s]; [done|].
  cbn [PyStr.replace_char]. rewrite app_String. cbn [PyStr.starts_with].
  destruct (bool_decide (x = " "%char)) eqn:Hx; [|done].
  apply bool_decide_eq_true in Hx as ->. done.
Qed.

Lemma of_nat_xml n : all_chars xml_char (PyStr.of_nat n) = true.
Proof.
  unfold PyStr.of_nat, pretty, pretty_nat, pretty, pretty_N.
  destruct (decide (N.of_nat n = 0)%N); [done|].
  generalize (N.of_nat n). clear. intros x.
  enough (forall s, all_chars xml_char s = true ->
                    all_chars xml_char (pretty_N_go x s) = true) as H by (by apply H).
  induction (N.lt_wf_0 x) as [x _ IH]. intros s Hs.
  destruct (decide (0 < x)%N) as [Hx|Hx].
  - rewrite pretty_N_go_step by done. apply IH; [by apply N.div_lt|].
    cbn [all_chars]. rewrite Hs, andb_true_r.
    unfold pretty_N_char. by repeat case_match.
  - assert (x = 0%N) as -> by lia. by rewrite pretty_N_go_0.
Qed.

Lemma set_cell_ok table i j row old text :
  table !! i = Some row -> row !! j = Some old -> all_chars xml_char text = true ->
  set_cell table i j text = Return (<[i := <[j := text]> row]> table).
Proof. intros Hi Hj Hx. unfold set_cell, docx_text. by rewrite Hi, Hj, Hx. Qed.

Lemma set_cell_control table i j row old text :
  table !! i = Some row -> row !! j = Some old -> all_chars xml_char text = false ->
  set_cell table i j text = Raise (Unmodelled text).
Proof. intros Hi Hj Hx. unfold set_cell, docx_text. by rewrite Hi, Hj, Hx. Qed.

(** Filling the cells of row [i] to the right of the cells [pre], one
    per value, never runs out of the row. *)
Lemma fill_cells {A} (g : A -> outcome string) (f : A -> string) i (vals : list A) :
  (forall v, v ∈ vals -> g v = Return (f v)) ->
  (forall v, v ∈ vals -> all_chars xml_char (f v) = true) ->
  forall k table pre,
    length pre = S k ->
    table !! i = Some (pre ++ replicate (length vals) "") ->
    for_each (fun table '(j, v) => try x <- g v; set_cell table i (j + 1) x)
      (imap (fun j => pair (k + j)) vals) table
    = Return (<[i := pre ++ (f <$> vals)]> table).
Proof.
  induction vals as [|v vals IH]; intros Hg Hx k table pre Hpre Hrow.
  - cbn [for_each imap fmap list_fmap]. f_equal. symmetry. apply list_insert_id.
    by rewrite app_nil_r in Hrow |- *.
  - cbn [imap for_each]. rewrite Hg by left. cbn [obind].
    cbn [length replicate] in Hrow.
    rewrite (set_cell_ok _ _ _ _ "" _ Hrow); [| |apply Hx; left].
    2: { rewrite lookup_app_r by lia. replace (k + 0 + 1 - length pre) with 0 by lia. done. }
    cbn [obind].
    replace (<[k + 0 + 1 := f v]> (pre ++ "" :: replicate (length vals) ""))
      with ((pre ++ [f v]) ++ replicate (length vals) "").
    2: { rewrite insert_app_r_alt by lia.
         replace (k + 0 + 1 - length pre) with 0 by lia. by rewrite <-app_assoc. }
    rewrite (imap_ext _ (fun j => pair (S k + j)) vals)
      by (intros j x _; simpl; f_equal; lia).
    rewrite (IH (fun x Hx => Hg x (list_elem_of_further _ _ _ Hx))
               (fun x Hin => Hx x (list_elem_of_further _ _ _ Hin)) (S k) _ (pre ++ [f v])).
    + rewrite list_insert_insert_eq. rewrite fmap_cons, <-app_assoc. done.
    + rewrite length_app. simpl. lia.
    + apply list_lookup_insert_eq. by eapply lookup_lt_Some.
Qed.

(** The rows below the header are filled metric by metric; the filling
    stops at the first metric name that holds a control character. *)
Lemma fill_rows (rest : pydict (pydict nat)) :
  counts_mapping rest ->
  forall k done,
    length done = S k ->
    for_each
      (fun table '(i, (skill, counts)) =>
         try table <- set_cell table (i + 1) 0 skill;
         for_each
           (fun table '(j, option) =>
              try n <- dict_getitem counts option;
              set_cell table (i + 1) (j + 1) (PyStr.of_nat n))
           (enumerate STAFF_LIKERT_OPTIONS) table)
      (imap (fun i => pair (k + i)) rest)
      (done ++ replicate (length rest) (replicate (length STAFF_LIKERT_OPTIONS + 1) ""))
    = match first_control (dict_keys rest) with
      | None =>
          Return
            (done
             ++ ((fun entry : string * pydict nat =>
                    entry.1 :: ((fun o => PyStr.of_nat (default 0 (dict_get entry.2 o)))
                                  <$> STAFF_LIKERT_OPTIONS))
                   <$> rest))
      | Some skill => Raise (Unmodelled skill)
      end.
Proof.
  induction rest as [|[skill counts] rest IH]; intros Hcd k done Hdone.
  - cbn [for_each imap fmap list_fmap length replicate]. done.
  - apply Forall_cons in Hcd as [Hcounts Hcd]. cbn [snd] in Hcounts.
    rewrite Forall_forall in Hcounts.
    rewrite dict_keys_cons. unfold first_control in IH |- *.
    rewrite filter_cons. set (bad := filter _ (dict_keys rest)) in *.
    cbn [imap for_each length replicate].
    set (blank := replicate (length STAFF_LIKERT_OPTIONS + 1) "").
    set (table := done ++ blank :: replicate (length rest) blank).
    assert (table !! (k + 0 + 1) = Some blank) as Hrow.
    { unfold table. rewrite lookup_app_r by lia.
      replace (k + 0 + 1 - length done) with 0 by lia. done. }
    destruct (all_chars xml_char skill) eqn:Hskill.
    2: { rewrite decide_True by done.
         by rewrite (set_cell_control table _ 0 blank "" skill Hrow). }
    rewrite decide_False by done.
    rewrite (set_cell_ok table _ 0 blank "" skill Hrow) by done. cbn [obind].
    set (table1 := <[k + 0 + 1 := <[0 := skill]> blank]> table).
    rewrite (for_each_ext _
               (fun table '(j, v) =>
                  try x <- (try n <- dict_getitem counts v; Return (PyStr.of_nat n));
                  set_cell table (k + 0 + 1) (j + 1) x)).
    2: { intros t [j v]. by destruct (dict_getitem counts v). }
    assert (length table = S (S k + length rest)) as Hlen.
    { unfold table. rewrite length_app. simpl. rewrite length_replicate. lia. }
    rewrite (fill_cells _ (fun o => PyStr.of_nat (default 0 (dict_get counts o)))
               (k + 0 + 1) STAFF_LIKERT_OPTIONS) with (k := 0) (pre := [skill]).
    + cbn [obind]. unfold table1. rewrite list_insert_insert_eq.
      replace (<[k + 0 + 1 := [skill] ++ _]> table)
        with ((done ++ [skill :: ((fun o => PyStr.of_nat (default 0 (dict_get counts o)))
                                    <$> STAFF_LIKERT_OPTIONS)])
              ++ replicate (length rest) blank).
      2: { unfold table. rewrite insert_app_r_alt by lia.
           replace (k + 0 + 1 - length done) with 0 by lia. by rewrite <-app_assoc. }
      rewrite (imap_ext _ (fun i => pair (S k + i)) rest)
        by (intros j x _; simpl; f_equal; lia).
      rewrite (IH Hcd (S k)) by (rewrite length_app; simpl; lia).
      destruct bad; [|done].
      by rewrite fmap_cons, <-app_assoc.
    + intros o Ho. destruct (Hcounts o Ho) as [n Hn].
      unfold dict_getitem. by rewrite Hn.
    + intros o _. apply of_nat_xml.
    + done.
    + unfold table1. rewrite list_lookup_insert_eq by lia. done.
Qed.

(** The cell assignments of the staff report stay within the table they
    fill; they leave the summary table of the counts mapping, unless a
    metric name holds a control character. *)
Lemma staff_table_filled (counts_data : pydict (pydict nat)) :
  counts_mapping counts_data ->
  exists t1 t2,
    set_cell (new_table (length counts_data + 1) (length STAFF_LIKERT_OPTIONS + 1))
      0 0 "Skill Category" = Return t1 ∧
    for_each (fun table '(i, option) => set_cell table 0 (i + 1) option)
      (enumerate STAFF_LIKERT_OPTIONS) t1 = Return t2 ∧
    for_each
      (fun table '(i, (skill, counts)) =>
         try table <- set_cell table (i + 1) 0 skill;
         for_each
           (fun table '(j, option) =>
              try n <- dict_getitem counts option;
              set_cell table (i + 1) (j + 1) (PyStr.of_nat n))
           (enumerate STAFF_LIKERT_OPTIONS) table)
      (enumerate counts_data) t2
    = match first_control (dict_keys counts_data) with
      | None => Return (summary_table "Skill Category" counts_data)
      | Some skill => Raise (Unmodelled skill)
      end.
Proof.
  intros Hcd. unfold new_table. rewrite Nat.add_1_r. cbn [replicate].
  set (blank := replicate (length STAFF_LIKERT_OPTIONS + 1) "").
  set (blanks := replicate (length counts_data) blank).
  eexists _, _. split.
  { exact (set_cell_ok (blank :: blanks) 0 0 blank "" "Skill Category"
             eq_refl eq_refl eq_refl). }
  split.
  { rewrite (for_each_ext _
               (fun table '(j, v) => try x <- Return v; set_cell table 0 (j + 1) x))
      by (by intros t [j v]).
    rewrite (fill_cells Return id 0 STAFF_LIKERT_OPTIONS)
      with (k := 0) (pre := ["Skill Category"]); [done | done | | done | done].
    intros v Hv. revert v Hv. apply Forall_forall. by repeat constructor. }
  rewrite list_fmap_id.
  change (<[0 := _]> (<[0 := _]> (blank :: blanks)))
    with ([["Skill Category"] ++ STAFF_LIKERT_OPTIONS] ++ blanks).
  unfold blanks, blank.
  exact (fill_rows counts_data Hcd 0 [["Skill Category"] ++ STAFF_LIKERT_OPTIONS] eq_refl).
Qed.

(** A run of the staff report generator, step by step: the counter and
    the drawing never fail; the run stops where a text leaves the
    embedding or where the file cannot be saved. *)
Lemma generate_staff_report_docx_run
    (staff_name : string) (df : DataFrame) (output_folder : string) (w : world) :
  exists counts_data fig w0,
    calculate_likert_counts df staff_name = Return counts_data ∧
    create_clustered_bar_chart_staff counts_data staff_name = Return fig ∧
    chart_title fig = staff_name +:+ " - Likert Scale Response Distribution" ∧
    fs_files w0 = fs_files w ∧ ui_log w0 = ui_log w ∧ output_folder ∈ fs_dirs w0 ∧
    (forall d, dir_exists (fs_dirs w0) d = dir_exists (output_folder :: fs_dirs w) d) ∧
    generate_staff_report_docx staff_name df output_folder w =
      match docx_text ("Staff Report: " +:+ staff_name) with
      | Raise e => (w0, Raise e)
      | Return _ =>
          match savefig (chart_title fig :: dict_keys counts_data) fig with
          | Raise e => (w0, Raise e)
          | Return _ =>
              match first_control (dict_keys counts_data) with
              | Some skill => (w0, Raise (Unmodelled skill))
              | None =>
                  match
                    doc_save
                      (os_path_join output_folder
                         (PyStr.replace_char " " "_" staff_name +:+ "_Report.docx"))
                      (staff_document staff_name fig
                         (summary_table "Skill Category" counts_data)) w0
                  with
                  | (w', Return _) =>
                      (w', Return
                             (os_path_join output_folder
                                (PyStr.replace_char " " "_" staff_name +:+ "_Report.docx")))
                  | (w', Raise e) => (w', Raise e)
                  end
              end
          end
      end.
Proof.
  destruct (calculate_likert_counts df staff_name) as [counts_data|e] eqn:Hcalc.
  2: { by rewrite calculate_likert_counts_closed in Hcalc. }
  pose proof (calculate_likert_counts_counts_mapping _ _ _ Hcalc) as Hcd.
  pose proof (create_clustered_bar_chart_staff_closed counts_data staff_name Hcd) as Hchart.
  destruct (staff_table_filled counts_data Hcd) as (t1 & t2 & H1 & H2 & Hfill).
  destruct (ensure_dir_dirs output_folder w) as (w0 & Hensure & Hfiles & Hlog & Hdir & Hdirs).
  eexists counts_data, _, w0.
  split; [done|]. split; [exact Hchart|]. split; [done|].
  split; [exact Hfiles|]. split; [exact Hlog|]. split; [exact Hdir|]. split; [exact Hdirs|].
  unfold generate_staff_report_docx, io_bind, io_lift, io_ret.
  rewrite Hensure, Hcalc.
  destruct (docx_text ("Staff Report: " +:+ staff_name)) as [title|e] eqn:Htitle; [|done].
  apply docx_text_returns in Htitle as ->.
  unfold create_clustered_bar_chart_staff_bytes. rewrite Hchart. cbn [obind chart_title].
  destruct (savefig _ _) as [r|e] eqn:Hfig; [|done].
  apply savefig_returns in Hfig as ->.
  rewrite H1, H2, Hfill.
  destruct (first_control (dict_keys counts_data)); [done|].
  cbn [app]. fold (staff_document staff_name
                     (mkChart
                        (imap
                           (fun i o =>
                              mkBars
                                (cluster_positions (arange (length counts_data)) i 5 (15 # 100))
                                (heights_of counts_data o) (15 # 100)
                                (default "" (dict_get STAFF_COLORS o)) o)
                           STAFF_LIKERT_OPTIONS)
                        (staff_name +:+ " - Likert Scale Response Distribution"))
                     (summary_table "Skill Category" counts_data)).
  by destruct (doc_save _ _ w0) as [w' [[]|e]].
Qed.

Lemma plain_skill_of col : plain col = true -> plain (skill_of col) = true.
Proof.
  intros Hcol. unfold skill_of, PyStr.split_last, PyStr.split.
  destruct (split_go_last_follows " - " col 0 EmptyString EmptyString col col)
    as [Hl | [pre Hl]]; [done..| |].
  - by rewrite Hl, app_empty.
  - rewrite app_empty in Hl. rewrite Hl, !plain_app in Hcol.
    apply andb_true_iff in Hcol as [_ Hcol]. by apply andb_true_iff in Hcol as [_ Hcol].
Qed.

Lemma starts_with_mem c s :
  PyStr.starts_with (String c EmptyString) s = true -> PyStr.mem c s = true.
Proof.
  destruct s as [|x s]; [done|]. cbn [PyStr.starts_with PyStr.mem].
  rewrite andb_true_r. intros ->%bool_decide_eq_true.
  by rewrite bool_decide_eq_true_2.
Qed.

Lemma report_name_staff_no_slash staff_name :
  PyStr.mem "/" staff_name = false ->
  PyStr.mem "/" (PyStr.replace_char " " "_" staff_name +:+ "_Report.docx") = false.
Proof.
  intros Hname. rewrite mem_app, orb_false_r.
  induction staff_name as [|c s IH]; [done|].
  cbn [PyStr.mem PyStr.replace_char] in Hname |- *.
  apply orb_false_iff in Hname as [Hc Hs]. rewrite (IH Hs), orb_false_r.
  destruct (bool_decide (c = " "%char)); [done | exact Hc].
Qed.

Lemma os_path_join_relative folder staff_name :
  PyStr.mem "/" staff_name = false ->
  os_path_join folder (PyStr.replace_char " " "_" staff_name +:+ "_Report.docx")
  = path_join folder (PyStr.replace_char " " "_" staff_name +:+ "_Report.docx").
Proof.
  intros Hname. unfold os_path_join. rewrite starts_with_slash_report_name.
  destruct (PyStr.starts_with "/" staff_name) eqn:Hs; [|done].
  apply starts_with_mem in Hs. congruence.
Qed.

Lemma first_control_plain texts :
  Forall (fun s => plain s = true) texts -> first_control texts = None.
Proof.
  intros Hall. unfold first_control.
  replace (filter (fun s => all_chars xml_char s = false) texts) with (@nil string); [done|].
  symmetry. induction Hall as [|s texts Hs _ IH]; [done|].
  rewrite filter_cons, decide_False; [done|]. by rewrite plain_xml.
Qed.

(** The metric names of a subject whose matched labels are plain texts
    are plain texts. *)
Lemma calculate_likert_counts_plain df staff_name counts_data :
  calculate_likert_counts df staff_name = Return counts_data ->
  (forall col, col ∈ columns df -> PyStr.contains staff_name col = true ->
               plain col = true) ->
  Forall (fun s => plain s = true) (dict_keys counts_data).
Proof.
  intros Hcalc Hlabels. apply Forall_forall. intros skill Hskill.
  destruct (dict_get_elem_keys _ _ Hskill) as (counts & Hget & _).
  destruct (proj1 (calculate_likert_counts_has_metric _ _ _ skill Hcalc))
    as (col & Hcol & <-); [by eexists|].
  apply list_elem_of_filter in Hcol as [Hmatch Hin].
  by apply plain_skill_of, Hlabels.
Qed.

(** With plain texts throughout, the run gets as far as saving the
    file. *)
Lemma generate_staff_report_docx_plain
    (staff_name : string) (df : DataFrame) (output_folder : string) (w : world) :
  plain staff_name = true ->
  (forall col, col ∈ columns df -> PyStr.contains staff_name col = true ->
               plain col = true) ->
  exists counts_data fig w0,
    calculate_likert_counts df staff_name = Return counts_data ∧
    create_clustered_bar_chart_staff counts_data staff_name = Return fig ∧
    fs_files w0 = fs_files w ∧ ui_log w0 = ui_log w ∧ output_folder ∈ fs_dirs w0 ∧
    (forall d, dir_exists (fs_dirs w0) d = dir_exists (output_folder :: fs_dirs w) d) ∧
    generate_staff_report_docx staff_name df output_folder w =
      match
        doc_save
          (os_path_join output_folder
             (PyStr.replace_char " " "_" staff_name +:+ "_Report.docx"))
          (staff_document staff_name fig (summary_table "Skill Category" counts_data)) w0
      with
      | (w', Return _) =>
          (w', Return
                 (os_path_join output_folder
                    (PyStr.replace_char " " "_" staff_name +:+ "_Report.docx")))
      | (w', Raise e) => (w', Raise e)
      end.
Proof.
  intros Hname Hlabels.
  destruct (generate_staff_report_docx_run staff_name df output_folder w)
    as (counts_data & fig & w0 & Hcalc & Hchart & Htitle & Hfiles & Hlog & Hdir & Hdirs & Hrun).
  pose proof (calculate_likert_counts_plain _ _ _ Hcalc Hlabels) as Hkeys.
  exists counts_data, fig, w0. split_and!; [done..|].
  rewrite Hrun. rewrite docx_text_plain by (by rewrite plain_app, Hname).
  rewrite savefig_plain.
  2: { constructor; [|done]. by rewrite Htitle, plain_app, Hname. }
  by rewrite first_control_plain.
Qed.

(** X1: For a subject whose name is a plain text without slash, over a
    table whose labels matched by the subject are plain texts, the staff
    report generator (given a folder name that is a plain text and not
    empty) makes sure the folder exists, writes the document made of
    title, chart, caption, heading, summary table and a closing empty
    paragraph to
    [<folder>/<name with blanks replaced by underscores>_Report.docx],
    reports nothing to the user interface and returns the path. *)
Theorem generate_staff_report_docx_writes
    (staff_name : string) (df : DataFrame) (output_folder : string) (w : world) :
  output_folder ≠ EmptyString ->
  plain output_folder = true ->
  plain staff_name = true ->
  PyStr.mem "/" staff_name = false ->
  (forall col, col ∈ columns df -> PyStr.contains staff_name col = true ->
               plain col = true) ->
  exists counts_data chart_bytes w',
    calculate_likert_counts df staff_name = Return counts_data ∧
    create_clustered_bar_chart_staff counts_data staff_name = Return chart_bytes ∧
    generate_staff_report_docx staff_name df output_folder w
    = (w', Return (path_join output_folder
                     (PyStr.replace_char " " "_" staff_name +:+ "_Report.docx"))) ∧
    fs_files w' =
      dict_set
        (path_join output_folder
           (PyStr.replace_char " " "_" staff_name +:+ "_Report.docx"))
        (staff_document staff_name chart_bytes
           (summary_table "Skill Category" counts_data))
        (fs_files w) ∧
    ui_log w' = ui_log w ∧
    output_folder ∈ fs_dirs w'.
Proof.
  intros _ _ Hname Hslash Hlabels.
  destruct (generate_staff_report_docx_plain staff_name df output_folder w Hname Hlabels)
    as (counts_data & fig & w0 & Hcalc & Hchart & Hfiles & Hlog & Hdir & _ & Hrun).
  rewrite os_path_join_relative in Hrun by done.
  rewrite doc_save_exists in Hrun.
  2: { apply dir_exists_path_join; [by apply report_name_staff_no_slash | exact Hdir]. }
  exists counts_data, fig. eexists.
  split_and!; [exact Hcalc | exact Hchart | exact Hrun | | |].
  - cbn [fs_files]. by rewrite Hfiles.
  - exact Hlog.
  - exact Hdir.
Qed.

Lemma generate_staff_report_docx_writes_witness :
  "reports" ≠ EmptyString ∧
  plain "reports" = true ∧
  plain "Alice" = true ∧
  PyStr.mem "/" "Alice" = false ∧
  (forall col, col ∈ columns scenario_A -> PyStr.contains "Alice" col = true ->
               plain col = true) ∧
  exists w',
    generate_staff_report_docx "Alice" scenario_A "reports" empty_world
    = (w', Return "reports/Alice_Report.docx") ∧
    dict_keys (fs_files w') = ["reports/Alice_Report.docx"].
Proof.
  assert ("reports" ≠ EmptyString) as Hfolder by discriminate.
  assert (forall col, col ∈ columns scenario_A -> PyStr.contains "Alice" col = true ->
                      plain col = true) as Hlabels.
  { intros col Hcol _. revert col Hcol.
    apply (proj1 (Forall_forall (fun col => plain col = true) _)).
    repeat constructor. }
  split; [exact Hfolder|]. split; [reflexivity|]. split; [reflexivity|].
  split; [reflexivity|].
  split; [exact Hlabels|].
  destruct (generate_staff_report_docx_writes "Alice" scenario_A "reports" empty_world
              Hfolder eq_refl eq_refl eq_refl Hlabels)
    as (cd & ch & w' & _ & _ & Hrun & Hfiles & _).
  exists w'. split; [exact Hrun|]. by rewrite Hfiles.
Defined.



(** What a run of the staff report generator that returns a path has
    done. *)
Lemma generate_staff_report_docx_returns staff_name df output_folder w w' path :
  generate_staff_report_docx staff_name df output_folder w = (w', Return path) ->
  exists counts_data fig,
    calculate_likert_counts df staff_name = Return counts_data ∧
    create_clustered_bar_chart_staff counts_data staff_name = Return fig ∧
    path = os_path_join output_folder
             (PyStr.replace_char " " "_" staff_name +:+ "_Report.docx") ∧
    fs_files w' =
      dict_set path
        (staff_document staff_name fig (summary_table "Skill Category" counts_data))
        (fs_files w) ∧
    ui_log w' = ui_log w.
Proof.
  destruct (generate_staff_report_docx_run staff_name df output_folder w)
    as (counts_data & fig & w0 & Hcalc & Hchart & _ & Hfiles & Hlog & _ & _ & Hrun).
  rewrite Hrun. clear Hrun.
  destruct (docx_text _); [|done]. destruct (savefig _ _); [|done].
  destruct (first_control _); [done|].
  match goal with
  | |- context [doc_save ?p ?doc w0] =>
      destruct (doc_save_cases p doc w0) as [-> | ->]
  end; [|done].
  intros [= <- <-]. exists counts_data, fig.
  split_and!; [done | done | done | | done]. cbn [fs_files]. by rewrite Hfiles.
Qed.

(** X2: In every staff report that is written, the summary table and the
    chart agree: the table starts with the header row, has six cells in
    every row and one row per cluster of the chart below the header, and
    the cell of a metric and an enumeration value holds the decimal text
    of the height of that value's bar in that metric's cluster. *)
Theorem staff_report_table_matches_chart
    (staff_name : string) (df : DataFrame) (output_folder : string)
    (w w' : world) (path : string) :
  generate_staff_report_docx staff_name df output_folder w = (w', Return path) ->
  exists ch table,
    dict_get (fs_files w') path = Some (staff_document staff_name ch table) ∧
    head table = Some ("Skill Category" :: STAFF_LIKERT_OPTIONS) ∧
    Forall (fun row => length row = 6) table ∧
    bar_label <$> chart_bars ch = STAFF_LIKERT_OPTIONS ∧
    (forall i b, chart_bars ch !! i = Some b ->
                 length table = length (bar_heights b) + 1) ∧
    (forall i j b n,
       chart_bars ch !! i = Some b -> bar_heights b !! j = Some n ->
       exists row,
         table !! (S j) = Some row ∧
         row !! (S i) = Some (PyStr.of_nat n)).
Proof.
  intros Hrun.
  destruct (generate_staff_report_docx_returns _ _ _ _ _ _ Hrun)
    as (counts_data & fig & Hcalc & Hchart & _ & Hfiles & _).
  pose proof (calculate_likert_counts_counts_mapping _ _ _ Hcalc) as Hcd.
  pose proof (calculate_likert_counts_keys_NoDup _ _ _ Hcalc) as Hnd.
  rewrite create_clustered_bar_chart_staff_closed in Hchart by done.
  assert (fig = mkChart
                  (imap
                     (fun i o =>
                        mkBars
                          (cluster_positions (arange (length counts_data)) i 5 (15 # 100))
                          (heights_of counts_data o) (15 # 100)
                          (default "" (dict_get STAFF_COLORS o)) o)
                     STAFF_LIKERT_OPTIONS)
                  (staff_name +:+ " - Likert Scale Response Distribution")) as ->
    by congruence.
  clear Hchart.
  eexists _, (summary_table "Skill Category" counts_data).
  split; [by rewrite Hfiles, dict_get_set_eq|].
  cbn [chart_bars]. split_and!.
  - done.
  - unfold summary_table. constructor; [done|].
    apply Forall_fmap, Forall_forall. intros [skill counts] _. reflexivity.
  - done.
  - intros i b Hb. rewrite list_lookup_imap in Hb.
    destruct (STAFF_LIKERT_OPTIONS !! i) as [o|]; [|done].
    apply (inj Some) in Hb as <-.
    cbn [bar_heights]. unfold summary_table, heights_of, dict_keys.
    cbn [length]. rewrite !length_fmap. lia.
  - intros i j b n Hb Hn. rewrite list_lookup_imap in Hb.
    destruct (STAFF_LIKERT_OPTIONS !! i) as [o|] eqn:Ho; [|done].
    apply (inj Some) in Hb as <-.
    cbn [bar_heights] in Hn. unfold heights_of, dict_keys in Hn.
    rewrite !list_lookup_fmap in Hn.
    apply fmap_Some in Hn as (skill0 & Hs & ->).
    apply fmap_Some in Hs as ([skill counts] & Hj & ->). cbn [fst].
    rewrite (dict_get_lookup counts_data j skill counts Hnd Hj). cbn [mbind option_bind].
    eexists. split.
    + unfold summary_table. rewrite lookup_cons. by rewrite list_lookup_fmap, Hj.
    + cbn [fst snd]. rewrite lookup_cons. by rewrite list_lookup_fmap, Ho.
Qed.

Lemma staff_report_table_matches_chart_witness :
  generate_staff_report_docx "Alice" scenario_A "reports" empty_world
  = ((generate_staff_report_docx "Alice" scenario_A "reports" empty_world).1,
     Return "reports/Alice_Report.docx") ∧
  exists ch table,
    dict_get
      (fs_files (generate_staff_report_docx "Alice" scenario_A "reports" empty_world).1)
      "reports/Alice_Report.docx"
    = Some (staff_document "Alice" ch table) ∧
    head table = Some ("Skill Category" :: STAFF_LIKERT_OPTIONS) ∧
    Forall (fun row => length row = 6) table.
Proof.
  assert (generate_staff_report_docx "Alice" scenario_A "reports" empty_world
          = ((generate_staff_report_docx "Alice" scenario_A "reports" empty_world).1,
             Return "reports/Alice_Report.docx")) as Hrun
    by (vm_compute; reflexivity).
  split; [exact Hrun|].
  destruct (staff_report_table_matches_chart _ _ _ _ _ _ Hrun)
    as (ch & table & Hfile & Hhead & Hrows & _).
  exists ch, table. split; [exact Hfile|]. split; [exact Hhead | exact Hrows].
Defined.

Lemma plain_strip s : plain s = true -> plain (PyStr.strip s) = true.
Proof.
  intros Hs. destruct (strip_middle s) as (l & r & Hlr).
  rewrite Hlr, !plain_app in Hs.
  apply andb_true_iff in Hs as [_ Hs]. by apply andb_true_iff in Hs as [Hs _].
Qed.

Lemma plain_clean_label label : plain label = true -> plain (clean_label label) = true.
Proof.
  intros Hlabel.
  destruct (clean_label_cases label) as [-> | (g1 & ws & g2 & rest & _ & Hshape & ->)];
    [done|].
  rewrite Hshape, !plain_app in Hlabel.
  apply andb_true_iff in Hlabel as [Hg1 Hlabel].
  apply andb_true_iff in Hlabel as [_ Hlabel].
  apply andb_true_iff in Hlabel as [_ Hlabel].
  apply andb_true_iff in Hlabel as [Hg2 _].
  rewrite !plain_app, !plain_strip by done. done.
Qed.

(** On a grid that pandas accepts, the driver hands the normalised table
    to the report generator; when that returns a path, it reports success
    and returns the mapping from the subject to the path. *)
Lemma process_staff_evaluation_docx_run
    (header : list string) (body : list (list string))
    (sheet_name staff_name : string) (w : world) :
  body = [] ∨ max_list (length <$> body) = length header ->
  exists rs,
    DataFrame_of_rows body header = Return (mkDataFrame header rs) ∧
    forall w1 path,
      generate_staff_report_docx staff_name
        (clean_column_names (mkDataFrame header rs)) "reports" w = (w1, Return path) ->
      process_staff_evaluation_docx (header :: body) sheet_name staff_name w =
        (mkWorld (fs_dirs w1) (fs_files w1)
           (ui_log w1
            ++ [UiSuccess ("Generated report for " +:+ staff_name +:+ ": " +:+ path)]),
         Return [(staff_name, path)]).
Proof.
  intros Hrect.
  assert (exists rs, DataFrame_of_rows body header = Return (mkDataFrame header rs))
    as [rs Hdf].
  { unfold DataFrame_of_rows. destruct body as [|r body]; [by eexists|].
    destruct Hrect as [?|Hrect]; [done|]. rewrite decide_True by done. by eexists. }
  exists rs. split; [done|]. intros w1 path Hgen.
  cbn [process_staff_evaluation_docx]. unfold io_bind, io_lift, io_ret.
  rewrite Hdf. cbv beta iota. rewrite Hgen. cbv beta iota. by cbn [st_success].
Qed.

(** X3: On a grid whose widest data row is as wide as the header row (or
    that has a header row only) and whose headers are plain texts, for a
    subject whose name is a plain text without slash,
    [process_staff_evaluation_docx] builds and normalises the table,
    writes the report to
    [reports/<name with blanks replaced by underscores>_Report.docx],
    reports success with the path and returns the mapping from the
    subject to that path. *)
Theorem process_staff_evaluation_docx_success
    (header : list string) (body : list (list string))
    (sheet_name staff_name : string) (w : world) :
  body = [] ∨ max_list (length <$> body) = length header ->
  plain staff_name = true ->
  PyStr.mem "/" staff_name = false ->
  (forall h, h ∈ header -> plain h = true) ->
  exists df counts_data chart_bytes w',
    staff_table (header :: body) = Return (Some df) ∧
    columns df = clean_label <$> header ∧
    calculate_likert_counts df staff_name = Return counts_data ∧
    create_clustered_bar_chart_staff counts_data staff_name = Return chart_bytes ∧
    process_staff_evaluation_docx (header :: body) sheet_name staff_name w =
      (w', Return [(staff_name,
                    "reports/" +:+ PyStr.replace_char " " "_" staff_name
                    +:+ "_Report.docx")]) ∧
    fs_files w' =
      dict_set
        ("reports/" +:+ PyStr.replace_char " " "_" staff_name +:+ "_Report.docx")
        (staff_document staff_name chart_bytes
           (summary_table "Skill Category" counts_data))
        (fs_files w) ∧
    ui_log w' =
      ui_log w
      ++ [UiSuccess ("Generated report for " +:+ staff_name +:+ ": "
                     +:+ "reports/" +:+ PyStr.replace_char " " "_" staff_name
                     +:+ "_Report.docx")].
Proof.
  intros Hrect Hname Hslash Hheaders.
  destruct (process_staff_evaluation_docx_run header body sheet_name staff_name w Hrect)
    as (rs & Hdf & Hprocess).
  set (df := clean_column_names (mkDataFrame header rs)) in *.
  assert (forall col, col ∈ columns df -> PyStr.contains staff_name col = true ->
                      plain col = true) as Hlabels.
  { intros col (h & -> & Hh)%list_elem_of_fmap _. by apply plain_clean_label, Hheaders. }
  destruct (generate_staff_report_docx_plain staff_name df "reports" w Hname Hlabels)
    as (counts_data & fig & w0 & Hcalc & Hchart & Hfiles & Hlog & Hdir & _ & Hrun).
  rewrite os_path_join_relative in Hrun by done.
  rewrite doc_save_exists in Hrun.
  2: { apply dir_exists_path_join; [by apply report_name_staff_no_slash | exact Hdir]. }
  change (path_join "reports" (PyStr.replace_char " " "_" staff_name +:+ "_Report.docx"))
    with ("reports/" +:+ PyStr.replace_char " " "_" staff_name +:+ "_Report.docx") in Hrun.
  exists df, counts_data, fig. eexists. split_and!.
  - cbn [staff_table]. by rewrite Hdf.
  - done.
  - exact Hcalc.
  - exact Hchart.
  - exact (Hprocess _ _ Hrun).
  - cbn [fs_files]. by rewrite Hfiles.
  - cbn [ui_log]. by rewrite Hlog.
Qed.

Lemma process_staff_evaluation_docx_success_witness :
  ([["Strongly Agree"; "Neutral"]] = [] ∨
   max_list (length <$> [["Strongly Agree"; "Neutral"]])
   = length ["Alice [Communication]"; "Alice [Punctuality]"]) ∧
  plain "Alice" = true ∧
  PyStr.mem "/" "Alice" = false ∧
  (forall h, h ∈ ["Alice [Communication]"; "Alice [Punctuality]"] -> plain h = true) ∧
  exists w',
    process_staff_evaluation_docx
      [["Alice [Communication]"; "Alice [Punctuality]"]; ["Strongly Agree"; "Neutral"]]
      "Sheet1" "Alice" empty_world
    = (w', Return [("Alice", "reports/Alice_Report.docx")]).
Proof.
  assert ([["Strongly Agree"; "Neutral"]] = [] ∨
          max_list (length <$> [["Strongly Agree"; "Neutral"]])
          = length ["Alice [Communication]"; "Alice [Punctuality]"]) as Hrect
    by (right; reflexivity).
  assert (forall h, h ∈ ["Alice [Communication]"; "Alice [Punctuality]"] ->
                    plain h = true) as Hheaders.
  { apply (proj1 (Forall_forall (fun h => plain h = true) _)). repeat constructor. }
  split; [exact Hrect|]. split; [reflexivity|]. split; [reflexivity|].
  split; [exact Hheaders|].
  destruct (process_staff_evaluation_docx_success
              ["Alice [Communication]"; "Alice [Punctuality]"]
              [["Strongly Agree"; "Neutral"]] "Sheet1" "Alice" empty_world
              Hrect eq_refl eq_refl Hheaders)
    as (df & cd & ch & w' & _ & _ & _ & _ & Hrun & _).
  exists w'. exact Hrun.
Defined.

(** X5: The staff variant does not tell an unknown subject from a known
    one: when no normalised label contains the subject (whose name is a
    plain text without slash), the report is still written, with a chart
    of five series without bars and a summary table of the header row
    only, and success is reported. *)
Theorem process_staff_evaluation_docx_unknown_subject
    (header : list string) (body : list (list string))
    (sheet_name staff_name : string) (w : world) :
  body = [] ∨ max_list (length <$> body) = length header ->
  plain staff_name = true ->
  PyStr.mem "/" staff_name = false ->
  (forall h, h ∈ header -> PyStr.contains staff_name (clean_label h) = false) ->
  exists w' path ch,
    process_staff_evaluation_docx (header :: body) sheet_name staff_name w
    = (w', Return [(staff_name, path)]) ∧
    dict_get (fs_files w') path =
      Some (staff_document staff_name ch [("Skill Category" :: STAFF_LIKERT_OPTIONS)]) ∧
    bar_label <$> chart_bars ch = STAFF_LIKERT_OPTIONS ∧
    Forall (fun b => bar_positions b = [] ∧ bar_heights b = []) (chart_bars ch) ∧
    last (ui_log w') =
      Some (UiSuccess ("Generated report for " +:+ staff_name +:+ ": " +:+ path)).
Proof.
  intros Hrect Hname Hslash Hno.
  destruct (process_staff_evaluation_docx_run header body sheet_name staff_name w Hrect)
    as (rs & Hdf & Hprocess).
  set (df := clean_column_names (mkDataFrame header rs)) in *.
  assert (forall col, col ∈ columns df -> PyStr.contains staff_name col = false) as Hnone.
  { intros col (h & -> & Hh)%list_elem_of_fmap. by apply Hno. }
  assert (forall col, col ∈ columns df -> PyStr.contains staff_name col = true ->
                      plain col = true) as Hlabels.
  { intros col Hcol Hc. rewrite (Hnone col Hcol) in Hc. done. }
  destruct (generate_staff_report_docx_plain staff_name df "reports" w Hname Hlabels)
    as (cd & ch & w0 & Hcalc & Hchart & Hfiles & Hlog & Hdir & _ & Hrun).
  rewrite os_path_join_relative in Hrun by done.
  rewrite doc_save_exists in Hrun.
  2: { apply dir_exists_path_join; [by apply report_name_staff_no_slash | exact Hdir]. }
  assert (cd = []) as ->.
  { rewrite calculate_likert_counts_closed, staff_columns_nil in Hcalc by done.
    by injection Hcalc as <-. }
  eexists _, _, ch. split; [exact (Hprocess _ _ Hrun)|]. cbn [fs_files ui_log]. split_and!.
  - by rewrite dict_get_set_eq.
  - vm_compute in Hchart. by injection Hchart as <-.
  - vm_compute in Hchart. injection Hchart as <-. repeat constructor.
  - by rewrite last_snoc.
Qed.

Lemma process_staff_evaluation_docx_unknown_subject_witness :
  ([["Agree"; "Neutral"]] = [] ∨
   max_list (length <$> [["Agree"; "Neutral"]])
   = length ["Alice [Communication]"; "Alice [Punctuality]"]) ∧
  plain "Bob" = true ∧
  PyStr.mem "/" "Bob" = false ∧
  (forall h, h ∈ ["Alice [Communication]"; "Alice [Punctuality]"] ->
             PyStr.contains "Bob" (clean_label h) = false) ∧
  exists w' path,
    process_staff_evaluation_docx
      [["Alice [Communication]"; "Alice [Punctuality]"]; ["Agree"; "Neutral"]]
      "Sheet1" "Bob" empty_world
    = (w', Return [("Bob", path)]) ∧
    last (ui_log w') = Some (UiSuccess ("Generated report for " +:+ "Bob" +:+ ": " +:+ path)).
Proof.
  assert ([["Agree"; "Neutral"]] = [] ∨
          max_list (length <$> [["Agree"; "Neutral"]])
          = length ["Alice [Communication]"; "Alice [Punctuality]"]) as Hrect
    by (right; reflexivity).
  assert (forall h, h ∈ ["Alice [Communication]"; "Alice [Punctuality]"] ->
                    PyStr.contains "Bob" (clean_label h) = false) as Hno.
  { apply Forall_forall. repeat constructor. }
  split; [exact Hrect|]. split; [reflexivity|]. split; [reflexivity|].
  split; [exact Hno|].
  destruct (process_staff_evaluation_docx_unknown_subject
              ["Alice [Communication]"; "Alice [Punctuality]"] [["Agree"; "Neutral"]]
              "Sheet1" "Bob" empty_world Hrect eq_refl eq_refl Hno)
    as (w' & path & ch & Hrun & _ & _ & _ & Hlog).
  exists w', path. split; [exact Hrun | exact Hlog].
Defined.
